(** * Carbon ledger: emission factors and the emissions data handler

    A shallow embedding of [emission_factors.py] and of the [DataHandler]
    class of [data_handler.py], with the properties of the emission
    calculation, of the ledger's mutating operations and of its summary
    and filter views.

    Layout: the Python runtime the code relies on (exceptions, dicts,
    binary64 floats and the built-in [round]); the emission-factor
    catalog; the data frame and the data handler; then the theorems. *)

From Stdlib Require Import ZArith List String Ascii Bool Lia DecimalString.
From Stdlib Require Import Sorting.Permutation.
From Stdlib Require Import Floats.PrimFloat Floats.SpecFloat Floats.FloatOps.
Import ListNotations.

Set Warnings "-inexact-float".
Open Scope Z_scope.

(* ================================================================= *)
(** ** Python runtime: exceptions, results, dicts *)

Module Py.

(** The exception classes the modelled code can meet, each with its text. *)
Inductive exn :=
| ValueError (msg : string)
| TypeError (msg : string)
| KeyError (msg : string)
| OverflowError (msg : string)
| AttributeError (msg : string).

(** [str(e)] *)
Definition exn_str (e : exn) : string :=
  match e with
  | ValueError m | TypeError m | KeyError m | OverflowError m
  | AttributeError m => m
  end.

Definition is_ValueError (e : exn) : bool :=
  match e with ValueError _ => true | _ => false end.

(** A computation that returns or raises. *)
Inductive result (A : Type) :=
| Ok (a : A)
| Raise (e : exn).
Arguments Ok {A} a.
Arguments Raise {A} e.

Definition bind {A B} (m : result A) (k : A -> result B) : result B :=
  match m with
  | Ok a => k a
  | Raise e => Raise e
  end.

(** Evaluate [f] on every element from left to right; the first exception
    aborts the whole traversal. *)
Fixpoint mapM {A B} (f : A -> result B) (l : list A) : result (list B) :=
  match l with
  | [] => Ok []
  | a :: l' =>
      bind (f a) (fun b => bind (mapM f l') (fun bs => Ok (b :: bs)))
  end.

(** The value of a computation that returned; [d] stands in otherwise. *)
Definition value_or {A} (d : A) (m : result A) : A :=
  match m with Ok a => a | Raise _ => d end.

(** [key in d] on a list of strings (column index, key view). *)
Definition mem (k : string) (l : list string) : bool :=
  existsb (String.eqb k) l.

(** A dict with string keys, in insertion order. *)
Definition dict (V : Type) := list (string * V).

(** [d.get(k)] *)
Fixpoint dict_get {V} (k : string) (d : dict V) : option V :=
  match d with
  | [] => None
  | (k', v) :: d' => if String.eqb k k' then Some v else dict_get k d'
  end.

(** [d[k] = v]: overwrite in place, or append a new key. *)
Fixpoint dict_set {V} (k : string) (v : V) (d : dict V) : dict V :=
  match d with
  | [] => [(k, v)]
  | (k', v') :: d' =>
      if String.eqb k k' then (k', v) :: d' else (k', v') :: dict_set k v d'
  end.

(** [list(d.keys())] *)
Definition dict_keys {V} (d : dict V) : list string := map fst d.

(** The values of a list that are not [None]. *)
Fixpoint present {A} (xs : list (option A)) : list A :=
  match xs with
  | [] => []
  | Some x :: xs' => x :: present xs'
  | None :: xs' => present xs'
  end.

(** [sep.join(l)] *)
Definition join (sep : string) (l : list string) : string :=
  String.concat sep l.

(** [str(n)] for a length. *)
Definition str_of_nat (n : nat) : string :=
  NilZero.string_of_uint (Nat.to_uint n).

End Py.

Import Py.

Declare Scope py_scope.
Delimit Scope py_scope with py.
Notation "x <- m ;; k" := (bind m (fun x => k))
  (at level 61, m at next level, right associativity) : py_scope.
Open Scope py_scope.

(* ================================================================= *)
(** ** Python floats: IEEE-754 binary64 *)

Module Float64.

(** A Python [float]: binary64, as the Standard Library's executable
    specification of IEEE-754 (sign, mantissa, exponent; one NaN). *)
Definition f64 : Type := spec_float.

Definition fadd : f64 -> f64 -> f64 := SFadd prec emax.
Definition fmul : f64 -> f64 -> f64 := SFmul prec emax.
Definition fsub : f64 -> f64 -> f64 := SFsub prec emax.
Definition fdiv : f64 -> f64 -> f64 := SFdiv prec emax.
Definition feqb : f64 -> f64 -> bool := SFeqb.

Definition fzero : f64 := S754_zero false.
Definition fnan : f64 := S754_nan.

Definition is_nan (x : f64) : bool :=
  match x with S754_nan => true | _ => false end.

Definition is_finite (x : f64) : bool :=
  match x with S754_zero _ | S754_finite _ _ _ => true | _ => false end.

(** The exact value of a finite float, counted in units of [2^-1074], the
    smallest positive float: every finite binary64 value is a whole number
    of them. *)
Definition units (x : f64) : Z :=
  match x with
  | S754_finite s m e => (if s then -1 else 1) * Zpos m * 2 ^ (e + 1074)
  | _ => 0
  end.

(** A float literal of the source, read as the nearest binary64 value. *)
Definition flt (x : PrimFloat.float) : f64 := Prim2SF x.
Arguments flt x%_float.

(** [float(z)] for an int: nearest-even rounding, [OverflowError] when the
    int is beyond the float range. *)
Definition of_int (z : Z) : result f64 :=
  match binary_normalize prec emax z 0 false with
  | S754_infinity _ => Raise (OverflowError "int too large to convert to float")
  | x => Ok x
  end.

(** Nearest integer to [n / d] for [0 <= n] and [0 < d], ties to even. *)
Definition round_half_even (n d : Z) : Z :=
  let q := n / d in
  match (2 * (n mod d)) ?= d with
  | Lt => q
  | Gt => q + 1
  | Eq => if Z.even q then q else q + 1
  end.

(** Beyond this many decimal places [round] returns its argument. *)
Definition NDIGITS_MAX : nat := 323.

(** The built-in [round(x, ndigits)] on a float, for [0 <= ndigits]:
    CPython writes [x] as a decimal string correctly rounded (ties to even)
    to [ndigits] places, and reads that string back as the nearest float.
    Non-finite values and zeros round to themselves. *)
Definition round (x : f64) (ndigits : nat) : f64 :=
  match x with
  | S754_finite s m e =>
      if (NDIGITS_MAX <? ndigits)%nat then x
      else
        let p10 := 10 ^ Z.of_nat ndigits in
        let scaled_num := Zpos m * 2 ^ Z.max e 0 * p10 in
        let scaled_den := 2 ^ Z.max (- e) 0 in
        match round_half_even scaled_num scaled_den with
        | Zpos k => fdiv (S754_finite s k 0) (S754_finite false (Z.to_pos p10) 0)
        | _ => S754_zero s
        end
  | _ => x
  end.

End Float64.

Import Float64.

(* ================================================================= *)
(** ** emission_factors.py *)

Module EmissionFactors.

(** One catalog entry: [{"factor": ..., "unit": ...}]. *)
Record EmissionFactor := mkEF { factor : f64; unit : string }.

(** category -> activity -> entry *)
Definition catalog := dict (dict EmissionFactor).

Definition ef (x : PrimFloat.float) (u : string) : EmissionFactor :=
  mkEF (flt x) u.
Arguments ef x%_float u%_string.

Definition EMISSION_FACTORS : catalog :=
  [ ("Stationary Combustion",
      [ ("Natural Gas", ef 0.18316 "kWh");
        ("Diesel", ef 2.68787 "liter");
        ("LPG", ef 1.55537 "kg");
        ("Coal", ef 2.42287 "kg") ]);
    ("Mobile Combustion",
      [ ("Petrol/Gasoline", ef 2.31495 "liter");
        ("Diesel", ef 2.70553 "liter");
        ("LPG", ef 1.55537 "liter");
        ("CNG", ef 2.53721 "kg") ]);
    ("Refrigerants",
      [ ("R-410A", ef 2088.0 "kg");
        ("R-134a", ef 1430.0 "kg");
        ("R-404A", ef 3922.0 "kg");
        ("R-407C", ef 1774.0 "kg") ]);
    ("Electricity",
      [ ("India Grid", ef 0.82 "kWh");
        ("Indonesia Grid", ef 0.87 "kWh");
        ("Japan Grid", ef 0.47 "kWh");
        ("Solar Power", ef 0.041 "kWh");
        ("Wind Power", ef 0.011 "kWh") ]);
    ("Steam", [ ("Purchased Steam", ef 0.19 "kg") ]);
    ("District Cooling", [ ("District Cooling", ef 0.12 "kWh") ]);
    ("Business Travel",
      [ ("Short-haul Flight", ef 0.15298 "passenger-km");
        ("Long-haul Flight", ef 0.19085 "passenger-km");
        ("Train", ef 0.03694 "passenger-km");
        ("Bus", ef 0.10471 "passenger-km");
        ("Taxi", ef 0.14549 "km") ]);
    ("Employee Commuting",
      [ ("Car (Petrol/Gasoline)", ef 0.17336 "km");
        ("Car (Diesel)", ef 0.16844 "km");
        ("Motorcycle", ef 0.11501 "km");
        ("Bus", ef 0.10471 "passenger-km");
        ("Train/Metro", ef 0.03694 "passenger-km") ]);
    ("Waste",
      [ ("Landfill", ef 0.45727 "kg");
        ("Recycling", ef 0.01042 "kg");
        ("Composting", ef 0.01042 "kg");
        ("Incineration", ef 0.01613 "kg") ]);
    ("Water",
      [ ("Water Supply", ef 0.344 "cubic meter");
        ("Water Treatment", ef 0.708 "cubic meter") ]);
    ("Purchased Goods & Services",
      [ ("Paper", ef 0.919 "kg");
        ("Plastic", ef 3.14 "kg");
        ("Glass", ef 0.85 "kg");
        ("Metal", ef 1.37 "kg");
        ("Food", ef 3.59 "kg") ]) ]%string.

Definition SCOPE_CATEGORIES : dict (list string) :=
  [ ("Scope 1", ["Stationary Combustion"; "Mobile Combustion"; "Refrigerants"]);
    ("Scope 2", ["Electricity"; "Steam"; "District Cooling"]);
    ("Scope 3", ["Business Travel"; "Employee Commuting"; "Waste"; "Water";
                 "Purchased Goods & Services"]) ]%string.

(** The functions read the module-level table; it is their first argument
    here, since [update_emission_factor] replaces it at run time. *)
Section WithCatalog.
Variable FACTORS : catalog.

(** [EMISSION_FACTORS.get(category, {}).get(activity)] *)
Definition get_emission_factor (category activity : string)
  : option EmissionFactor :=
  dict_get activity
    (match dict_get category FACTORS with Some acts => acts | None => [] end).

Definition get_activities (category : string) : list string :=
  dict_keys
    (match dict_get category FACTORS with Some acts => acts | None => [] end).

Definition get_unit (category activity : string) : option string :=
  match get_emission_factor category activity with
  | Some e => Some (unit e)
  | None => None
  end.

(** [calculate_emission]: an entry is a two-key dict, hence truthy; only
    the missing entry ([None]) takes the [else] branch. *)
Definition calculate_emission (category activity : string) (amount : f64)
  : result f64 :=
  match get_emission_factor category activity with
  | Some e =>
      let total := fmul (factor e) amount in
      Ok (round total 4)
  | None =>
      Raise (ValueError
               ("Invalid category/activity: " ++ category ++ " -> " ++ activity))
  end.

(** A usage dict: category -> (activity -> amount), in insertion order. *)
Definition usage := dict (dict f64).

(** One pass of the inner loop body: add, or skip on [ValueError]; any
    other exception leaves the loops. *)
Definition add_activity (category : string) (total : result f64)
           (item : string * f64) : result f64 :=
  t <- total ;;
  match calculate_emission category (fst item) (snd item) with
  | Ok v => Ok (fadd t v)
  | Raise e => if is_ValueError e then Ok t else Raise e
  end.

Definition add_category (total : result f64) (item : string * dict f64)
  : result f64 :=
  fold_left (add_activity (fst item)) (snd item) total.

(** [total_emission_by_scope(scope, usage_dict)] *)
Definition total_emission_by_scope (scope : string) (usage_dict : usage)
  : result f64 :=
  total <- fold_left add_category usage_dict (Ok fzero) ;;
  Ok (round total 4).

(** [update_emission_factor]: the new table. *)
Definition update_emission_factor (category activity : string)
           (new_factor : f64) (new_unit : option string) : catalog :=
  let acts :=
    match dict_get category FACTORS with Some acts => acts | None => [] end in
  let u :=
    match new_unit with
    | Some u => if String.eqb u "" then None else Some u
    | None => None
    end in
  let u :=
    match u with
    | Some u => u
    | None =>
        match dict_get activity acts with
        | Some e => unit e
        | None => "unit"%string
        end
    end in
  dict_set category (dict_set activity (mkEF new_factor u) acts) FACTORS.

End WithCatalog.

(** [SCOPE_CATEGORIES.get(scope, [])] *)
Definition get_categories (scope : string) : list string :=
  match dict_get scope SCOPE_CATEGORIES with Some l => l | None => [] end.

(** The sum the specification describes: [calculate] over the pairs of the
    usage map, in order, keeping those that resolve in the catalog. *)
Definition resolved_emissions (FACTORS : catalog) (usage_dict : usage)
  : list f64 :=
  flat_map
    (fun cat_acts : string * dict f64 =>
       flat_map
         (fun act_amt : string * f64 =>
            match get_emission_factor FACTORS (fst cat_acts) (fst act_amt) with
            | Some e => [round (fmul (factor e) (snd act_amt)) 4]
            | None => []
            end)
         (snd cat_acts))
    usage_dict.

Definition float_sum (l : list f64) : f64 := fold_left fadd l fzero.

End EmissionFactors.

(* ================================================================= *)
(** ** Values and data frames *)

(** The arithmetic of the ledger's numbers: Python floats
    ([float64_numeric] below), with the runtime's conversions of ints and
    of text. *)
Class PyNumeric (num : Type) := {
  nzero : num;                          (* 0.0 *)
  nnan : num;                           (* float('nan') *)
  nmul : num -> num -> num;
  n_eqb : num -> num -> bool;           (* == *)
  n_isnan : num -> bool;
  n_of_int : Z -> result num;           (* float(int) *)
  n_of_str : string -> result num       (* float(str) *)
}.

(** What the handler takes from pandas' reductions: the sum of a column
    ([Series.sum]: numpy's addition of the values, a missing one read as
    [0.0]) and the sum of one group of a [groupby] (a compensated running
    sum that skips the missing values).  Both are given the values in row
    order, [None] where a cell is missing or NaN. *)
Class PandasSums (num : Type) := {
  Series_sum : list (option num) -> num;
  group_sum : list (option num) -> num
}.

(** The reading of a number of the ledger as an exact quantity, which a
    sum "within tolerance" is measured against: whether the number is finite,
    and its value counted in a fixed small unit. *)
Class ExactValue (num : Type) := {
  n_finite : num -> bool;
  n_exact : num -> Z
}.

Section Values.
Context {num : Type} `{PyNumeric num} `{PandasSums num}.

(** A Python value as the handler meets it: an argument of a call or a
    cell of a data frame.  [PNone] is also the missing cell (None, NaN of an
    object column, NaT); [PTime] is a [pd.Timestamp], as an ordinal. *)
Inductive pyval :=
| PNone
| PStr (s : string)
| PInt (z : Z)
| PFloat (x : num)
| PTime (t : Z).

(** [bool(v)] *)
Definition truthy (v : pyval) : bool :=
  match v with
  | PNone => false
  | PStr s => negb (String.eqb s "")
  | PInt z => negb (z =? 0)
  | PFloat x => negb (n_eqb x nzero)
  | PTime _ => true
  end.

(** [all(l)] *)
Definition all (l : list pyval) : bool := forallb truthy l.

(** [float(v)] *)
Definition py_float (v : pyval) : result num :=
  match v with
  | PFloat x => Ok x
  | PInt z => n_of_int z
  | PStr s => n_of_str s
  | PNone | PTime _ =>
      Raise (TypeError "float() argument must be a string or a real number")
  end.

(** One cell of [series.astype(float)]: a missing cell becomes NaN. *)
Definition astype_float (v : pyval) : result num :=
  match v with
  | PNone => Ok nnan
  | PFloat x => Ok x
  | PInt z => n_of_int z
  | PStr s => n_of_str s
  | PTime _ => Raise (TypeError "Cannot cast DatetimeArray to dtype float64")
  end.

(** A cell that holds a [pd.Timestamp]. *)
Definition is_timestamp (v : pyval) : bool :=
  match v with PTime _ => true | _ => false end.

(** [pd.isna(v)] *)
Definition isna (v : pyval) : bool :=
  match v with
  | PNone => true
  | PFloat x => n_isnan x
  | _ => false
  end.

(** Elementwise [cell == v]; a missing cell equals nothing. *)
Definition pyval_eqb (a b : pyval) : bool :=
  match a, b with
  | PStr s, PStr t => String.eqb s t
  | PInt x, PInt y => x =? y
  | PFloat x, PFloat y => n_eqb x y
  | PInt z, PFloat x | PFloat x, PInt z =>
      match n_of_int z with Ok y => n_eqb y x | Raise _ => false end
  | PTime s, PTime t => s =? t
  | _, _ => false
  end.

(** One record: column name -> cell.  A column the record has no cell for
    reads as missing. *)
Definition row := dict pyval.

Definition row_get (r : row) (c : string) : pyval :=
  match dict_get c r with Some v => v | None => PNone end.

(** A [pd.DataFrame], row by row. *)
Record DataFrame := mkDF { columns : list string; rows : list row }.

(** [len(df)] *)
Definition df_len (df : DataFrame) : nat := List.length (rows df).

(** [df.empty]: no row, or no column. *)
Definition df_empty (df : DataFrame) : bool :=
  match rows df, columns df with
  | [], _ | _, [] => true
  | _, _ => false
  end.

(** [pd.DataFrame(records)] for a list of dicts with the same keys. *)
Definition df_of_records (records : list row) : DataFrame :=
  mkDF (match records with r :: _ => dict_keys r | [] => [] end) records.

(** [df[c]]: the cells of a column, [KeyError] when there is none. *)
Definition df_col (df : DataFrame) (c : string) : result (list pyval) :=
  if mem c (columns df) then Ok (map (fun r => row_get r c) (rows df))
  else Raise (KeyError c).

Definition add_column (c : string) (cols : list string) : list string :=
  if mem c cols then cols else (cols ++ [c])%list.

(** [df[c] = values], one value per row. *)
Definition df_assign (df : DataFrame) (c : string) (values : list pyval)
  : DataFrame :=
  mkDF (add_column c (columns df))
       (map (fun rv : row * pyval => dict_set c (snd rv) (fst rv))
            (combine (rows df) values)).

(** [df[c] = v] with a scalar. *)
Definition df_assign_scalar (df : DataFrame) (c : string) (v : pyval)
  : DataFrame :=
  mkDF (add_column c (columns df)) (map (dict_set c v) (rows df)).

(** [pd.concat([a, b], ignore_index=True)] *)
Definition pd_concat (a b : DataFrame) : DataFrame :=
  mkDF (columns a ++ filter (fun c => negb (mem c (columns a))) (columns b))%list
       (rows a ++ rows b)%list.

(** [df[mask]] / [df.loc[mask]] with a boolean mask, one flag per row. *)
Definition df_loc (df : DataFrame) (mask : list bool) : DataFrame :=
  mkDF (columns df)
       (map fst (filter (fun rb : row * bool => snd rb) (combine (rows df) mask))).

(** One cell of a column that is summed: a missing cell or a NaN counts
    for nothing, text cannot be added. *)
Definition cell_number (v : pyval) : result (option num) :=
  match v with
  | PNone => Ok None
  | PFloat x => Ok (if n_isnan x then None else Some x)
  | PInt z => x <- n_of_int z ;; Ok (Some x)
  | PStr _ | PTime _ => Raise (TypeError "unsupported operand type(s) for +")
  end.

Definition series_sum (cells : list pyval) : result num :=
  xs <- mapM cell_number cells ;;
  Ok (Series_sum xs).

(** The groups of a [groupby], keyed by [K] in order of first occurrence,
    each with its values in row order. *)
Fixpoint group_add {K} (eqb : K -> K -> bool) (k : K) (o : option num)
         (groups : list (K * list (option num)))
  : list (K * list (option num)) :=
  match groups with
  | [] => [(k, [o])]
  | (k', vs) :: groups' =>
      if eqb k' k then (k', (vs ++ [o])%list) :: groups'
      else (k', vs) :: group_add eqb k o groups'
  end.

(** Rows whose key is missing are dropped (pandas' [dropna=True]
    default). *)
Definition group_step (groups : list (pyval * list (option num)))
           (kv : pyval * option num) : list (pyval * list (option num)) :=
  if isna (fst kv) then groups
  else group_add pyval_eqb (fst kv) (snd kv) groups.

(** The order of the keys of a [groupby] ([sort=True], the default): text
    sorts by code point.  The scopes, categories and month labels of the
    ledger are text, and what is stated of a summary below is stated of
    ledgers with text keys; the model leaves keys of other types in order of
    first occurrence. *)
Definition key_leb (a b : pyval) : bool :=
  match a, b with
  | PStr s, PStr t => String.leb s t
  | _, _ => true
  end.

Fixpoint insert_by {A} (leb : A -> A -> bool) (a : A) (l : list A) : list A :=
  match l with
  | [] => [a]
  | b :: l' => if leb a b then a :: l else b :: insert_by leb a l'
  end.

Definition sort_by {A} (leb : A -> A -> bool) (l : list A) : list A :=
  fold_right (insert_by leb) [] l.

Definition sort_groups {V} (groups : list (pyval * V)) : list (pyval * V) :=
  sort_by (fun a b => key_leb (fst a) (fst b)) groups.

(** [df.groupby(key)[value].sum().to_dict()]: one entry per present key,
    in key order, with the sum of the group's values. *)
Definition groupby_sum (df : DataFrame) (key value : string)
  : result (list (pyval * num)) :=
  keys <- df_col df key ;;
  cells <- df_col df value ;;
  xs <- mapM cell_number cells ;;
  let groups := fold_left group_step (combine keys xs) [] in
  Ok (map (fun g => (fst g, group_sum (snd g))) (sort_groups groups)).

(** Grouping by two keys: a row is dropped when either key is missing. *)
Definition pair_eqb (a b : pyval * pyval) : bool :=
  pyval_eqb (fst a) (fst b) && pyval_eqb (snd a) (snd b).

Definition group_step2 (groups : list ((pyval * pyval) * list (option num)))
           (kv : (pyval * pyval) * option num)
  : list ((pyval * pyval) * list (option num)) :=
  if isna (fst (fst kv)) || isna (snd (fst kv)) then groups
  else group_add pair_eqb (fst kv) (snd kv) groups.

(** The distinct values of a list, first occurrences kept. *)
Fixpoint distinct (l : list pyval) : list pyval :=
  match l with
  | [] => []
  | k :: l' => k :: filter (fun k' => negb (pyval_eqb k k')) (distinct l')
  end.

Fixpoint group_find {K V} (eqb : K -> K -> bool) (k : K) (groups : list (K * V))
  : option V :=
  match groups with
  | [] => None
  | (k', s) :: groups' => if eqb k' k then Some s else group_find eqb k groups'
  end.

(** [df.groupby([k1, k2])[value].sum().unstack().fillna(0).to_dict()]:
    column (second key) -> index (first key) -> sum, both in key order,
    [0] where the pair has no row. *)
Definition groupby2_unstack (df : DataFrame) (k1 k2 value : string)
  : result (list (pyval * list (pyval * num))) :=
  keys1 <- df_col df k1 ;;
  keys2 <- df_col df k2 ;;
  cells <- df_col df value ;;
  xs <- mapM cell_number cells ;;
  let grouped := fold_left group_step2 (combine (combine keys1 keys2) xs) [] in
  let index := sort_by key_leb (distinct (map (fun g => fst (fst g)) grouped)) in
  let cols := sort_by key_leb (distinct (map (fun g => snd (fst g)) grouped)) in
  Ok (map (fun c =>
             (c, map (fun i =>
                        (i, match group_find pair_eqb (i, c) grouped with
                            | Some vs =>
                                let x := group_sum vs in
                                if n_isnan x then nzero else x
                            | None => nzero
                            end))
                     index))
          cols).

End Values.

Arguments pyval num : clear implicits.
Arguments row num : clear implicits.
Arguments DataFrame num : clear implicits.

(* ================================================================= *)
(** ** data_handler.py *)

(** What the handler takes from pandas' date handling: the two parsers of
    anything that is not yet a timestamp ([pd.Timestamp(v)] for an argument,
    [pd.to_datetime] for a cell) and the month label of a timestamp
    ([strftime('%Y-%m')]). *)
Class PandasDates (num : Type) := {
  Timestamp_parse : pyval num -> result (pyval num);
  to_datetime_parse : pyval num -> result (pyval num);
  strftime_ym : Z -> string
}.

Module DataHandler.
Section Handler.
Context {num : Type} `{PyNumeric num} `{PandasSums num} `{PandasDates num}.

Local Abbreviation pyval := (pyval num).
Local Abbreviation row := (row num).
Local Abbreviation DataFrame := (DataFrame num).

(** The handler object; [self.emissions_data] is the ledger.  The JSON
  file written by [save_emissions_data] is outside the model: saving
  reads the frame through a copy and swallows its own exceptions. *)
Record DataHandler := mkHandler { emissions_data : DataFrame }.

(** [create_empty_emissions_data] *)
Definition create_empty_emissions_data : DataHandler :=
mkHandler
  (mkDF ["date"; "scope"; "category"; "activity"; "quantity"; "unit";
         "emission_factor"; "emissions_kgCO2e"; "notes"]%string []).

(** [pd.Timestamp(v)]: a timestamp is kept, [None] gives NaT. *)
Definition pd_Timestamp (v : pyval) : result pyval :=
match v with
| PTime t => Ok (PTime t)
| PNone => Ok PNone
| _ => Timestamp_parse v
end.

(** One cell of [pd.to_datetime(series)]. *)
Definition pd_to_datetime (v : pyval) : result pyval :=
match v with
| PTime t => Ok (PTime t)
| PNone => Ok PNone
| _ => to_datetime_parse v
end.

(** One cell of [series.dt.strftime('%Y-%m')] on a datetime column: NaT
  has no label. *)
Definition strftime_cell (v : pyval) : result pyval :=
match v with
| PTime t => Ok (PStr (strftime_ym t))
| PNone => Ok PNone
| _ => Raise (AttributeError "Can only use .dt accessor with datetimelike values")
end.

(** [series.dt.strftime('%Y-%m')].  The [.dt] accessor belongs to the
  column, and exists on datetime columns only: a column that holds no
  timestamp (all its dates are missing) is an object column, as is a column
  that holds anything but dates, and [.dt] raises on it. *)
Definition dt_strftime (cells : list pyval) : result (list pyval) :=
if existsb is_timestamp cells then mapM strftime_cell cells
else Raise (AttributeError "Can only use .dt accessor with datetimelike values").

(** One cell of [series >= ts] and of [series <= ts] on a datetime
  column; NaT on either side compares false. *)
Definition time_ge (ts cell : pyval) : result bool :=
match cell with
| PTime t => Ok (match ts with PTime s => s <=? t | _ => false end)
| PNone => Ok false
| _ => Raise (TypeError "Invalid comparison between dtype=object and Timestamp")
end.

Definition time_le (ts cell : pyval) : result bool :=
match cell with
| PTime t => Ok (match ts with PTime s => t <=? s | _ => false end)
| PNone => Ok false
| _ => Raise (TypeError "Invalid comparison between dtype=object and Timestamp")
end.

(* ------------------------------------------------------------- *)
(** *** add_emission_entry *)

(** The [try] block; [Ok] carries the handler after the append. *)
Definition add_emission_entry_try (self : DataHandler)
         (date scope category activity quantity unit emission_factor notes : pyval)
: result DataHandler :=
if negb (all [scope; category; activity; quantity; emission_factor]) then
  Raise (ValueError "Missing mandatory fields for emission entry.")
else
  q <- py_float quantity ;;
  f <- py_float emission_factor ;;
  let emissions_kgCO2e := nmul q f in
  d <- pd_Timestamp date ;;
  q' <- py_float quantity ;;
  f' <- py_float emission_factor ;;
  let new_entry :=
    df_of_records
      [[ ("date", d);
         ("scope", scope);
         ("category", category);
         ("activity", activity);
         ("quantity", PFloat q');
         ("unit", unit);
         ("emission_factor", PFloat f');
         ("emissions_kgCO2e", PFloat emissions_kgCO2e);
         ("notes", notes) ]%string] in
  Ok (mkHandler (pd_concat (emissions_data self) new_entry)).

(** [add_emission_entry]: [True] and the new handler, or [False] and the
  handler as it was ([except Exception]). *)
Definition add_emission_entry (self : DataHandler)
         (date scope category activity quantity unit emission_factor notes : pyval)
: bool * DataHandler :=
match add_emission_entry_try self date scope category activity quantity
        unit emission_factor notes with
| Ok self' => (true, self')
| Raise _ => (false, self)
end.

(* ------------------------------------------------------------- *)
(** *** import_csv *)

Definition required : list string :=
["date"; "scope"; "category"; "activity"; "quantity"; "unit";
 "emission_factor"]%string.

(** [[c for c in required if c not in df.columns]] *)
Definition missing_columns (df : DataFrame) : list string :=
filter (fun c => negb (mem c (columns df))) required.

(** The [try] block after [pd.read_csv]; [csv] is what [read_csv] gave: the
  parsed table, or its exception. *)
Definition import_csv_try (self : DataHandler) (csv : result DataFrame)
: result ((bool * string) * DataHandler) :=
df <- csv ;;
let missing := missing_columns df in
match missing with
| _ :: _ =>
    Ok ((false, "Missing required columns: " ++ join ", " missing)%string, self)
| [] =>
    dates <- df_col df "date" ;;
    dates' <- mapM pd_to_datetime dates ;;
    let df1 := df_assign df "date" dates' in
    qs <- df_col df1 "quantity" ;;
    qs' <- mapM astype_float qs ;;
    fs <- df_col df1 "emission_factor" ;;
    fs' <- mapM astype_float fs ;;
    let products :=
      map (fun qf : num * num => PFloat (nmul (fst qf) (snd qf)))
          (combine qs' fs') in
    let df2 := df_assign df1 "emissions_kgCO2e" products in
    let df3 :=
      if negb (mem "notes" (columns df2))
      then df_assign_scalar df2 "notes" (PStr "")
      else df2 in
    Ok ((true,
         "Successfully imported " ++ str_of_nat (df_len df3) ++ " entries.")%string,
        mkHandler (pd_concat (emissions_data self) df3))
end.

(** [import_csv]: on any exception, [(False, str(e))] and the handler as it
  was. *)
Definition import_csv (self : DataHandler) (csv : result DataFrame)
: (bool * string) * DataHandler :=
match import_csv_try self csv with
| Ok r => r
| Raise e => ((false, exn_str e), self)
end.

(* ------------------------------------------------------------- *)
(** *** get_emissions_summary *)

Record Summary := mkSummary {
total_emissions : pyval;
scope_breakdown : list (pyval * num);
category_breakdown : list (pyval * num);
time_series : list (pyval * list (pyval * num))
}.

(** The statements before the assignment of the month column. *)
Definition summary_totals (df : DataFrame)
: result (num * list (pyval * num) * list (pyval * num) * list pyval) :=
cells <- df_col df "emissions_kgCO2e" ;;
total <- series_sum cells ;;
scope <- groupby_sum df "scope" "emissions_kgCO2e" ;;
category <- groupby_sum df "category" "emissions_kgCO2e" ;;
dates <- df_col df "date" ;;
months <- dt_strftime dates ;;
Ok (total, scope, category, months).

(** [get_emissions_summary]: the summary (or the exception that leaves the
  method) and the handler afterwards.  The month labels are assigned to
  [self.emissions_data] itself. *)
Definition get_emissions_summary (self : DataHandler)
: result Summary * DataHandler :=
if df_empty (emissions_data self) then
  (Ok (mkSummary (PInt 0) [] [] []), self)
else
  match summary_totals (emissions_data self) with
  | Raise e => (Raise e, self)
  | Ok (total, scope, category, months) =>
      let self' :=
        mkHandler (df_assign (emissions_data self) "month" months) in
      (ts <- groupby2_unstack (emissions_data self') "month" "scope"
               "emissions_kgCO2e" ;;
       Ok (mkSummary (PFloat total) scope category ts),
       self')
  end.

(* ------------------------------------------------------------- *)
(** *** get_filtered_data *)

Definition filter_dates (data : DataFrame) (start_date end_date : pyval)
: result DataFrame :=
if truthy start_date && truthy end_date then
  dates <- df_col data "date" ;;
  s <- pd_Timestamp start_date ;;
  lower <- mapM (time_ge s) dates ;;
  e <- pd_Timestamp end_date ;;
  upper <- mapM (time_le e) dates ;;
  let mask := map (fun lu : bool * bool => fst lu && snd lu) (combine lower upper) in
  Ok (df_loc data mask)
else Ok data.

Definition filter_equal (data : DataFrame) (column : string) (v : pyval)
: result DataFrame :=
if truthy v then
  cells <- df_col data column ;;
  Ok (df_loc data (map (fun c => pyval_eqb c v) cells))
else Ok data.

(** [get_filtered_data]: the filtered copy (or the exception) and the
  handler afterwards. *)
Definition get_filtered_data (self : DataHandler)
         (start_date end_date scope category : pyval)
: result DataFrame * DataHandler :=
let data := emissions_data self in
(data1 <- filter_dates data start_date end_date ;;
 data2 <- filter_equal data1 "scope" scope ;;
 filter_equal data2 "category" category,
 self).

End Handler.
End DataHandler.

(* ================================================================= *)
(** ** Instances *)

(** Python's floats.  [float(str)] is the runtime's text parser, a parameter
    of the instance. *)
Definition float64_numeric (float_of_str : string -> result f64) : PyNumeric f64 :=
  {| nzero := fzero;
     nnan := fnan;
     nmul := fmul;
     n_eqb := feqb;
     n_isnan := is_nan;
     n_of_int := of_int;
     n_of_str := float_of_str |}.

(** The sums of pandas on floats. *)
Module Sums.

(** numpy's sum of a contiguous array of doubles: fewer than eight values
    are added in order; up to 128 values are added into eight running sums,
    value [i] into sum [i mod 8], which are then added pairwise, the values
    after the last full block of eight last; a longer array is split in two
    (at a multiple of eight) and the sums of the halves are added. *)
Definition add8 (r block : list f64) : list f64 :=
  map (fun ra : f64 * f64 => fadd (fst ra) (snd ra)) (combine r block).

Fixpoint sum_blocks (fuel : nat) (r a : list f64) : list f64 * list f64 :=
  match fuel with
  | O => (r, a)
  | S fuel' =>
      if (8 <=? List.length a)%nat
      then sum_blocks fuel' (add8 r (firstn 8 a)) (skipn 8 a)
      else (r, a)
  end.

Definition block_sum (a : list f64) : f64 :=
  let ra := sum_blocks (List.length a) (firstn 8 a) (skipn 8 a) in
  match fst ra with
  | [r0; r1; r2; r3; r4; r5; r6; r7] =>
      fold_left fadd (snd ra)
                (fadd (fadd (fadd r0 r1) (fadd r2 r3))
                      (fadd (fadd r4 r5) (fadd r6 r7)))
  | _ => fold_left fadd a fzero
  end.

Fixpoint pairwise_sum (fuel : nat) (a : list f64) : f64 :=
  let n := List.length a in
  if (n <? 8)%nat then fold_left fadd a fzero
  else if (n <=? 128)%nat then block_sum a
  else
    match fuel with
    | O => block_sum a
    | S fuel' =>
        let n2 := (n / 2 - (n / 2) mod 8)%nat in
        fadd (pairwise_sum fuel' (firstn n2 a)) (pairwise_sum fuel' (skipn n2 a))
    end.

(** [Series.sum()] with [skipna=True]: the missing values are replaced by
    [0.0] and the array is summed, from [0.0]. *)
Definition series_values (xs : list (option f64)) : list f64 :=
  map (fun o : option f64 => match o with Some x => x | None => fzero end) xs.

Definition numpy_sum (xs : list (option f64)) : f64 :=
  let a := series_values xs in
  fadd fzero (pairwise_sum (List.length a) a).

(** The sum of one group of [groupby(...).sum()]: Kahan's compensated
    summation over the values that are not missing; a compensation that is
    NaN (after an infinite value) is reset. *)
Definition kahan_step (sc : f64 * f64) (x : f64) : f64 * f64 :=
  let y := fsub x (snd sc) in
  let t := fadd (fst sc) y in
  let c := fsub (fsub t (fst sc)) y in
  (t, if is_nan c then fzero else c).

Definition kahan_sum (xs : list (option f64)) : f64 :=
  fst (fold_left kahan_step (present xs) (fzero, fzero)).

End Sums.

(** Finite floats are whole numbers of [2^-1074]. *)
#[global] Instance float64_exact : ExactValue f64 :=
  {| n_finite := is_finite;
     n_exact := units |}.

#[global] Instance float64_sums : PandasSums f64 :=
  {| Series_sum := Sums.numpy_sum;
     group_sum := Sums.kahan_sum |}.

(** Timestamps as nanoseconds since 1970-01-01, with the proleptic
    Gregorian calendar. *)
Module Calendar.

Definition ns_per_day : Z := 86400 * 10 ^ 9.

(** Days since the epoch of a civil date. *)
Definition days_from_civil (y m d : Z) : Z :=
  let y' := if m <=? 2 then y - 1 else y in
  let era := y' / 400 in
  let yoe := y' - era * 400 in
  let doy := (153 * (if 2 <? m then m - 3 else m + 9) + 2) / 5 + d - 1 in
  let doe := yoe * 365 + yoe / 4 - yoe / 100 + doy in
  era * 146097 + doe - 719468.

(** Midnight of a civil date. *)
Definition timestamp (y m d : Z) : Z := days_from_civil y m d * ns_per_day.

(** Year and month of a timestamp. *)
Definition year_month (t : Z) : Z * Z :=
  let z := t / ns_per_day + 719468 in
  let era := z / 146097 in
  let doe := z - era * 146097 in
  let yoe := (doe - doe / 1460 + doe / 36524 - doe / 146096) / 365 in
  let doy := doe - (365 * yoe + yoe / 4 - yoe / 100) in
  let mp := (5 * doy + 2) / 153 in
  let m := if mp <? 10 then mp + 3 else mp - 9 in
  (yoe + era * 400 + (if m <=? 2 then 1 else 0), m).

Definition two_digits (n : Z) : string :=
  let pad := if n <? 10 then "0"%string else ""%string in
  (pad ++ str_of_nat (Z.to_nat n))%string.

(** ['%Y-%m'] *)
Definition strftime_ym (t : Z) : string :=
  let ym := year_month t in
  (str_of_nat (Z.to_nat (fst ym)) ++ "-" ++ two_digits (snd ym))%string.

Definition digit (c : ascii) : option Z :=
  let n := Z.of_nat (nat_of_ascii c) - 48 in
  if (0 <=? n) && (n <=? 9) then Some n else None.

Fixpoint digits (cs : list ascii) (acc : Z) : option Z :=
  match cs with
  | [] => Some acc
  | c :: cs' =>
      match digit c with
      | Some n => digits cs' (10 * acc + n)
      | None => None
      end
  end.

(** The timestamp of an ISO date [YYYY-MM-DD], when the text is one. *)
Definition parse_iso_date (s : string) : option Z :=
  match list_ascii_of_string s with
  | [y1; y2; y3; y4; "-"%char; m1; m2; "-"%char; d1; d2] =>
      match digits [y1; y2; y3; y4] 0, digits [m1; m2] 0, digits [d1; d2] 0 with
      | Some y, Some m, Some d =>
          let t := timestamp y m d in
          if (1 <=? d) && (1 <=? m) && (m <=? 12)
             && (fst (year_month t) =? y) && (snd (year_month t) =? m)
          then Some t else None
      | _, _, _ => None
      end
  | _ => None
  end.

End Calendar.

(** The date functions with the calendar above; the parsers of text are
    parameters. *)
Definition calendar_dates {num} (parse_arg parse_cell : pyval num -> result (pyval num))
  : PandasDates num :=
  {| Timestamp_parse := parse_arg;
     to_datetime_parse := parse_cell;
     strftime_ym := Calendar.strftime_ym |}.

(** The concrete runs below pass numbers where numbers are expected and
    give dates as timestamps or as ISO text; the parser of numbers from text
    is never consulted there, and of the date formats pandas reads only the
    ISO one is needed. *)
Definition unparsed_float (s : string) : result f64 :=
  Raise (ValueError ("could not convert string to float: " ++ s)).

Definition iso_date {num} (v : pyval num) : result (pyval num) :=
  match v with
  | PStr s =>
      match Calendar.parse_iso_date s with
      | Some t => Ok (PTime t)
      | None => Raise (ValueError ("Unknown datetime string format: " ++ s))
      end
  | _ => Raise (TypeError "Cannot convert input to Timestamp")
  end.

#[global] Instance run_floats : PyNumeric f64 := float64_numeric unparsed_float.
#[global] Instance run_dates : PandasDates f64 := calendar_dates iso_date iso_date.

(* ================================================================= *)
(** ** The properties' vocabulary *)

Section Vocabulary.
Context {num : Type} `{PyNumeric num} `{PandasSums num} `{PandasDates num}
        `{ExactValue num}.

Local Abbreviation pyval := (pyval num).
Local Abbreviation row := (row num).
Local Abbreviation DataFrame := (DataFrame num).

(** The derived field of a record: the cell of its emissions holds the
    float product of its quantity and its emission factor, both read as
    floats.  This is about the value stored, NaN included; what Python's
    [==] says of it is [emissions_equal_product] below. *)
Definition derived_emissions (r : row) : Prop :=
  exists q f,
    astype_float (row_get r "quantity") = Ok q /\
    astype_float (row_get r "emission_factor") = Ok f /\
    row_get r "emissions_kgCO2e" = PFloat (nmul q f).

(** The number a cell holds, as Python's arithmetic reads it. *)
Definition number (v : pyval) : option num :=
  match v with
  | PFloat x => Some x
  | PInt z => match n_of_int z with Ok x => Some x | Raise _ => None end
  | _ => None
  end.

(** [quantity * emission_factor] on a record, when both are numbers. *)
Definition product_of (r : row) : option num :=
  match number (row_get r "quantity"), number (row_get r "emission_factor") with
  | Some q, Some f => Some (nmul q f)
  | _, _ => None
  end.

(** The check of the specification on a record, as Python evaluates it:
    [emissions_kgCO2e == quantity * emission_factor]. *)
Definition emissions_equal_product (r : row) : bool :=
  match product_of r, number (row_get r "emissions_kgCO2e") with
  | Some p, Some e => n_eqb e p
  | _, _ => false
  end.

(** The invariant as the code keeps it: the stored emissions are the float
    product of the quantity and the emission factor, and [==] confirms it
    exactly when the two are numbers whose product is not NaN. *)
Definition emissions_invariant (r : row) : Prop :=
  derived_emissions r /\
  emissions_equal_product r
  = match product_of r with
    | Some p => negb (n_isnan p)
    | None => false
    end.

(** The emission of a record as the sums see it: a missing or NaN cell
    counts for nothing. *)
Definition cell_emission (v : pyval) : option num :=
  match v with
  | PFloat x => if n_isnan x then None else Some x
  | _ => None
  end.

Definition emission_of (r : row) : option num :=
  cell_emission (row_get r "emissions_kgCO2e").

Definition has_key (column : string) (r : row) : bool :=
  negb (isna (row_get r column)).

(** The records whose key is [k]. *)
Definition with_key (column : string) (k : pyval) (r : row) : bool :=
  pyval_eqb (row_get r column) k.

(** The groups of the records whose key is present, in order of first
    occurrence, each with the emissions of its records in ledger order. *)
Definition groups_of (key : string) (l : list row)
  : list (pyval * list (option num)) :=
  fold_left group_step (map (fun r => (row_get r key, emission_of r)) l) [].

(** The keys a column shows: its present values, each once. *)
Definition observed_keys (key : string) (l : list row) : list pyval :=
  distinct (filter (fun k => negb (isna k)) (map (fun r => row_get r key) l)).

(** One entry per observed key: every key of the breakdown is the present
    key of some record, no key occurs twice, and every text key of a record
    has its entry. *)
Definition one_group_per_key (key : string) (l : list row)
           (breakdown : list (pyval * num)) : Prop :=
  let keys := map fst breakdown in
  (forall k, In k keys ->
             isna k = false /\ exists r, In r l /\ row_get r key = k)
  /\ NoDup keys
  /\ (forall r s, In r l -> row_get r key = PStr s -> In (PStr s) keys).

(** The breakdown by a key column: one entry per group, in key order, with
    the sum pandas computes for the group. *)
Definition breakdown_of (key : string) (l : list row) : list (pyval * num) :=
  map (fun g => (fst g, group_sum (snd g))) (sort_groups (groups_of key l)).

Definition zsum (l : list Z) : Z := fold_right Z.add 0 l.

(** The exact sum of a list of numbers, and of the values of a breakdown. *)
Definition exact_sum (xs : list num) : Z := zsum (map n_exact xs).

Definition exact_total {K} (breakdown : list (K * num)) : Z :=
  exact_sum (map snd breakdown).

(** A computed sum is within [tol] of the exact sum of its values. *)
Definition within (tol : Z) (computed : num) (values : list (option num))
  : Prop :=
  n_finite computed = true
  /\ Forall (fun x => n_finite x = true) (present values)
  /\ Z.abs (n_exact computed - exact_sum (present values)) <= tol.

(** The values of a breakdown add up: their exact sum is within [tol] per
    group of the exact sum of the emissions of the records that have the
    key, and, when no record lacks the key, within [tol] per group and once
    more of the total. *)
Definition adds_up (tol : Z) (key : string) (l : list row) (total : num)
           (breakdown : list (pyval * num)) : Prop :=
  let groups := Z.of_nat (List.length breakdown) in
  Z.abs (exact_total breakdown
         - exact_sum (present (map emission_of (filter (has_key key) l))))
  <= tol * groups
  /\ (Forall (fun r => has_key key r = true) l ->
      Z.abs (exact_total breakdown - n_exact total) <= tol * (groups + 1)).

(** The sums pandas computes on a ledger, for the total and for every group
    of a key column, are each within [tol] of the exact sum. *)
Definition sums_within (tol : Z) (key : string) (l : list row) : Prop :=
  within tol (Series_sum (map emission_of l)) (map emission_of l)
  /\ Forall (fun k =>
               let es := map emission_of (filter (with_key key k) l) in
               within tol (group_sum es) es)
            (observed_keys key l).

(** The month label of a record. *)
Definition month_of (r : row) : pyval :=
  match row_get r "date" with
  | PTime t => PStr (strftime_ym t)
  | _ => PNone
  end.

(** The records [import_csv] appends: the rows of the table with the date
    parsed, the emissions computed and the notes defaulted. *)
Definition imported_row (with_notes : bool) (r : row) : row :=
  let r1 := dict_set "date" (value_or PNone (DataHandler.pd_to_datetime (row_get r "date"))) r in
  let q := value_or nzero (astype_float (row_get r1 "quantity")) in
  let f := value_or nzero (astype_float (row_get r1 "emission_factor")) in
  let r2 := dict_set "emissions_kgCO2e" (PFloat (nmul q f)) r1 in
  if with_notes then dict_set "notes" (PStr "") r2 else r2.


(** A ledger with the cells the handler writes: the columns the summary
    reads exist, the emissions are floats or missing, the dates timestamps
    or missing. *)
Definition emission_cell (v : pyval) : bool :=
  match v with PFloat _ | PNone => true | _ => false end.

Definition date_cell (v : pyval) : bool :=
  match v with PTime _ | PNone => true | _ => false end.

Definition typed_ledger (df : DataFrame) : Prop :=
  mem "emissions_kgCO2e" (columns df) = true /\
  mem "scope" (columns df) = true /\
  mem "category" (columns df) = true /\
  mem "date" (columns df) = true /\
  Forall (fun r => emission_cell (row_get r "emissions_kgCO2e") = true) (rows df) /\
  Forall (fun r => date_cell (row_get r "date") = true) (rows df).

(** The scopes and categories are text, or missing. *)
Definition text_cell (v : pyval) : bool :=
  match v with PStr _ | PNone => true | _ => false end.

Definition text_keys (df : DataFrame) : Prop :=
  Forall (fun r => text_cell (row_get r "scope") = true) (rows df) /\
  Forall (fun r => text_cell (row_get r "category") = true) (rows df).

(** A record that enters the monthly series: it has a date and a scope. *)
Definition dated_with_scope (r : row) : bool :=
  is_timestamp (row_get r "date") && has_key "scope" r.

(** A ledger the summary can run on: typed, keyed by text, and with a
    record that has a date and a scope. *)
Definition summarizable (df : DataFrame) : Prop :=
  typed_ledger df /\ text_keys df /\ existsb dated_with_scope (rows df) = true.

(** A ledger without a single date. *)
Definition undated (df : DataFrame) : Prop :=
  existsb (fun r => is_timestamp (row_get r "date")) (rows df) = false.

(** The date test on one record: both bounds inclusive, NaT never inside. *)
Definition date_from (s : pyval) (r : row) : bool :=
  match row_get r "date", s with
  | PTime t, PTime a => a <=? t
  | _, _ => false
  end.

Definition date_until (e : pyval) (r : row) : bool :=
  match row_get r "date", e with
  | PTime t, PTime b => t <=? b
  | _, _ => false
  end.

Definition field_is (column : string) (v : pyval) (r : row) : bool :=
  if truthy v then pyval_eqb (row_get r column) v else true.

(** The filter as the code applies it: the date range counts only when
    both bounds are given. *)
Definition date_range (start_date end_date : pyval)
  : result (option (pyval * pyval)) :=
  if truthy start_date && truthy end_date then
    s <- DataHandler.pd_Timestamp start_date ;;
    e <- DataHandler.pd_Timestamp end_date ;;
    Ok (Some (s, e))
  else Ok None.

Definition in_range (range : option (pyval * pyval)) (r : row) : bool :=
  match range with
  | Some (s, e) => date_from s r && date_until e r
  | None => true
  end.

Definition selected (range : option (pyval * pyval)) (scope category : pyval)
           (r : row) : bool :=
  in_range range r
  && field_is "scope" scope r
  && field_is "category" category r.

(** The filter as the specification words it: every filter that is given
    counts, each bound on its own. *)
Definition bound_from (start_date : pyval) (r : row) : bool :=
  if truthy start_date then date_from start_date r else true.

Definition bound_until (end_date : pyval) (r : row) : bool :=
  if truthy end_date then date_until end_date r else true.

Definition selected_as_specified (start_date end_date scope category : pyval)
           (r : row) : bool :=
  bound_from start_date r && bound_until end_date r
  && field_is "scope" scope r
  && field_is "category" category r.

End Vocabulary.


(* ================================================================= *)
(** ** Concrete ledgers *)

Module Runs.
Import DataHandler.
Open Scope string_scope.

Definition day (y m d : Z) : pyval f64 := PTime (Calendar.timestamp y m d).

Definition empty_ledger : @DataHandler f64 := create_empty_emissions_data.

(** [add_emission_entry] with the quantity left open. *)
Definition add_diesel (self : @DataHandler f64) (quantity : pyval f64)
  : bool * @DataHandler f64 :=
  add_emission_entry self (day 2024 1 15) (PStr "Scope 1")
                     (PStr "Mobile Combustion") (PStr "Diesel") quantity
                     (PStr "liter") (PFloat (flt 2.5)) (PStr "").

(** The ledger after one entry of 100 liters. *)
Definition one_entry : @DataHandler f64 :=
  snd (add_diesel empty_ledger (PFloat (flt 100))).

(** A table with every required column and two rows; the first has no
    scope (an empty cell in the CSV). *)
Definition table_without_scope : DataFrame f64 :=
  mkDF required
       [ [ ("date", PStr "2024-01-15"); ("scope", PNone);
           ("category", PStr "Mobile Combustion"); ("activity", PStr "Diesel");
           ("quantity", PInt 2); ("unit", PStr "liter");
           ("emission_factor", PFloat (flt 2.5)) ];
         [ ("date", PStr "2024-01-20"); ("scope", PStr "Scope 2");
           ("category", PStr "Electricity"); ("activity", PStr "India Grid");
           ("quantity", PInt 1000); ("unit", PStr "kWh");
           ("emission_factor", PFloat (flt 0.82)) ] ].

Definition imported_without_scope : @DataHandler f64 :=
  snd (import_csv empty_ledger (Ok table_without_scope)).

(** A table that lacks the [unit] column. *)
Definition table_without_unit : DataFrame f64 :=
  mkDF ["date"; "scope"; "category"; "activity"; "quantity"; "emission_factor"]
       [[ ("date", PStr "2024-01-15"); ("scope", PStr "Scope 1");
          ("category", PStr "Mobile Combustion"); ("activity", PStr "Diesel");
          ("quantity", PInt 2); ("emission_factor", PFloat (flt 2.5)) ]].

(** The same table with its [unit] column. *)
Definition table_complete : DataFrame f64 :=
  mkDF required
       [[ ("date", PStr "2024-01-15"); ("scope", PStr "Scope 1");
          ("category", PStr "Mobile Combustion"); ("activity", PStr "Diesel");
          ("quantity", PInt 2); ("unit", PStr "liter");
          ("emission_factor", PFloat (flt 2.5)) ]].

(** The ledger after three entries, two of Scope 1 and one of Scope 2:
    0.1 and 0.3 liters of diesel, 0.2 kWh from the grid. *)
Definition add_entry (self : @DataHandler f64) (date : pyval f64)
           (scope category activity : string) (quantity factor : f64)
  : @DataHandler f64 :=
  snd (add_emission_entry self date (PStr scope) (PStr category)
                          (PStr activity) (PFloat quantity) (PStr "unit")
                          (PFloat factor) (PStr "")).

Definition three_entries : @DataHandler f64 :=
  add_entry
    (add_entry
       (add_entry empty_ledger (day 2024 1 15) "Scope 1" "Mobile Combustion"
                  "Diesel" (flt 0.1) (flt 2.70553))
       (day 2024 2 1) "Scope 2" "Electricity" "India Grid" (flt 0.2) (flt 0.82))
    (day 2024 2 9) "Scope 1" "Mobile Combustion" "Diesel" (flt 0.3) (flt 2.70553).

(** A table whose one row has no quantity (an empty cell in the CSV). *)
Definition table_without_quantity : DataFrame f64 :=
  mkDF required
       [[ ("date", PStr "2024-01-15"); ("scope", PStr "Scope 1");
          ("category", PStr "Mobile Combustion"); ("activity", PStr "Diesel");
          ("quantity", PNone); ("unit", PStr "liter");
          ("emission_factor", PFloat (flt 2.5)) ]].

(** A tolerance of [2^-30], in units of [2^-1074]. *)
Definition tolerance : Z := 2 ^ 1044.

(** The ledger after one entry made without a date. *)
Definition undated_entry : @DataHandler f64 :=
  snd (add_emission_entry empty_ledger PNone (PStr "Scope 1")
                          (PStr "Mobile Combustion") (PStr "Diesel")
                          (PFloat (flt 100)) (PStr "liter") (PFloat (flt 2.5))
                          (PStr "")).

End Runs.

(* ================================================================= *)
(** ** emission_factors.py: the search, and the tables around the catalog *)

Module CatalogSearch.
Import EmissionFactors.

(** [str.lower()] on ASCII text, which is what the catalog holds: the
    letters [A]-[Z] go to [a]-[z], every other character stays. *)
Definition lower_char (c : ascii) : ascii :=
  let n := nat_of_ascii c in
  if ((65 <=? n) && (n <=? 90))%nat then ascii_of_nat (n + 32) else c.

Fixpoint lower (s : string) : string :=
  match s with
  | EmptyString => EmptyString
  | String c s' => String (lower_char c) (lower s')
  end.

(** [s.startswith(k)] *)
Fixpoint startswith (k s : string) : bool :=
  match k, s with
  | EmptyString, _ => true
  | String a k', String b s' => Ascii.eqb a b && startswith k' s'
  | String _ _, EmptyString => false
  end.

(** [k in s]: [k] occurs in [s] at some position. *)
Fixpoint contains (k s : string) : bool :=
  startswith k s
  || match s with
     | EmptyString => false
     | String _ s' => contains k s'
     end.

(** One result of the search: [(cat, act, factor, unit)]. *)
Definition hit : Type := string * string * f64 * string.

(** The body of the inner loop: [acts[act]] is read for a key of [acts]. *)
Definition search_step (keyword cat : string) (acts : dict EmissionFactor)
           (results : list hit) (act : string) : list hit :=
  if contains keyword (lower act) then
    match dict_get act acts with
    | Some e => (results ++ [(cat, act, factor e, unit e)])%list
    | None => results
    end
  else results.

Definition search_category (keyword : string) (results : list hit)
           (item : string * dict EmissionFactor) : list hit :=
  fold_left (search_step keyword (fst item) (snd item))
            (dict_keys (snd item)) results.

(** [search_activity(keyword)] *)
Definition search_activity (FACTORS : catalog) (keyword : string) : list hit :=
  let keyword := lower keyword in
  fold_left (search_category keyword) FACTORS [].

(** The result for one entry of a category. *)
Definition hit_of (cat : string) (ae : string * EmissionFactor) : hit :=
  (cat, fst ae, factor (snd ae), unit (snd ae)).

(** The entries of the catalog, category by category, in order. *)
Definition entries (FACTORS : catalog) : list hit :=
  flat_map
    (fun item : string * dict EmissionFactor =>
       map (hit_of (fst item)) (snd item))
    FACTORS.

(** The name of the activity of a result. *)
Definition hit_activity (h : hit) : string := snd (fst (fst h)).

End CatalogSearch.

(** A dict has each key once. *)
Definition unique_keys {V} (d : dict V) : Prop := NoDup (dict_keys d).

(** A catalog as Python holds it: each category once, and in each category
    each activity once. *)
Definition well_formed (FACTORS : EmissionFactors.catalog) : Prop :=
  unique_keys FACTORS /\
  Forall (fun item : string * dict EmissionFactors.EmissionFactor =>
            unique_keys (snd item)) FACTORS.

(** The activities of a category, or none when the category is unknown. *)
Definition activities_of (FACTORS : EmissionFactors.catalog) (category : string)
  : dict EmissionFactors.EmissionFactor :=
  match dict_get category FACTORS with Some acts => acts | None => [] end.

(** The unit [update_emission_factor] stores: the one given when it is not
    empty, else the one the entry had, else ["unit"]. *)
Definition stored_unit (FACTORS : EmissionFactors.catalog)
           (category activity : string) (new_unit : option string) : string :=
  match new_unit with
  | Some (String c u) => String c u
  | _ =>
      match EmissionFactors.get_emission_factor FACTORS category activity with
      | Some e => EmissionFactors.unit e
      | None => "unit"%string
      end
  end.

(** A usage map without the activities that do not resolve in the catalog. *)
Definition resolving_usage (FACTORS : EmissionFactors.catalog)
           (usage_dict : EmissionFactors.usage) : EmissionFactors.usage :=
  map (fun item : string * dict f64 =>
         (fst item,
          filter (fun act_amt : string * f64 =>
                    match EmissionFactors.get_emission_factor
                            FACTORS (fst item) (fst act_amt) with
                    | Some _ => true
                    | None => false
                    end)
                 (snd item)))
      usage_dict.

(** [-x] *)
Definition fneg : f64 -> f64 := SFopp.

(** config.py: the scopes the application offers. *)
Module Config.

Definition EMISSION_SCOPES : list string :=
  ["Scope 1"; "Scope 2"; "Scope 3"]%string.

End Config.

(** The table as a program that imports [emission_factors] finds it: the
    module's own example 4 has run,
    [update_emission_factor("Electricity", "Pakistan Grid", new_factor=0.79, unit="kWh")]. *)
Definition EMISSION_FACTORS_imported : EmissionFactors.catalog :=
  EmissionFactors.update_emission_factor
    EmissionFactors.EMISSION_FACTORS "Electricity" "Pakistan Grid"
    (flt 0.79) (Some "kWh"%string).

(** The scopes of config.py that list a category. *)
Definition scopes_of (category : string) : list string :=
  filter (fun scope => mem category (EmissionFactors.get_categories scope))
         Config.EMISSION_SCOPES.

Definition positive_finite (x : f64) : bool :=
  match x with S754_finite false _ _ => true | _ => false end.

(** The catalog keeps the scope taxonomy: every category of the catalog is
    listed under exactly one scope, every scope lists at least one category,
    every category a scope lists has at least one activity, and every factor
    is a positive finite number. *)
Definition taxonomy_kept (FACTORS : EmissionFactors.catalog) : Prop :=
  (forall category, In category (dict_keys FACTORS) ->
                    exists scope, scopes_of category = [scope])
  /\ (forall scope, In scope Config.EMISSION_SCOPES ->
                    EmissionFactors.get_categories scope <> [])
  /\ (forall scope category,
         In scope Config.EMISSION_SCOPES ->
         In category (EmissionFactors.get_categories scope) ->
         EmissionFactors.get_activities FACTORS category <> [])
  /\ (forall category acts activity e,
         In (category, acts) FACTORS -> In (activity, e) acts ->
         positive_finite (EmissionFactors.factor e) = true).

(** The same, as a check that runs. *)
Definition is_nil {A} (l : list A) : bool :=
  match l with [] => true | _ => false end.

Definition keeps_taxonomy (FACTORS : EmissionFactors.catalog) : bool :=
  forallb (fun item : string * dict EmissionFactors.EmissionFactor =>
             (List.length (scopes_of (fst item)) =? 1)%nat
             && forallb (fun ae : string * EmissionFactors.EmissionFactor =>
                           positive_finite (EmissionFactors.factor (snd ae)))
                        (snd item))
          FACTORS
  && forallb (fun scope =>
                negb (is_nil (EmissionFactors.get_categories scope))
                && forallb (fun category =>
                              negb (is_nil (EmissionFactors.get_activities
                                              FACTORS category)))
                           (EmissionFactors.get_categories scope))
             Config.EMISSION_SCOPES.

(** No string twice, as a check that runs. *)
Fixpoint distinct_names (l : list string) : bool :=
  match l with
  | [] => true
  | x :: l' => negb (mem x l') && distinct_names l'
  end.

Definition is_well_formed (FACTORS : EmissionFactors.catalog) : bool :=
  distinct_names (dict_keys FACTORS)
  && forallb (fun item : string * dict EmissionFactors.EmissionFactor =>
                distinct_names (dict_keys (snd item)))
             FACTORS.


(* ================================================================= *)
(** ** data_handler.py: the ledgers the handler can hold *)

Section Reachability.
Context {num : Type} `{PyNumeric num} `{PandasSums num} `{PandasDates num}.
Import DataHandler.

(** The handlers a program reaches from a new, empty ledger by calling the
    methods that assign [self.emissions_data]. *)
Inductive reachable : DataHandler -> Prop :=
| reach_new : reachable create_empty_emissions_data
| reach_add (self : DataHandler)
            (date scope category activity quantity unit emission_factor notes
             : pyval num) :
    reachable self ->
    reachable (snd (add_emission_entry self date scope category activity
                                       quantity unit emission_factor notes))
| reach_import (self : DataHandler) (csv : result (DataFrame num)) :
    reachable self ->
    reachable (snd (import_csv self csv))
| reach_summary (self : DataHandler) :
    reachable self ->
    reachable (snd (get_emissions_summary self)).

(** What pandas promises of its date parsers: when they return, the value
    is a timestamp or NaT. *)
Definition parsers_give_dates : Prop :=
  (forall v r, Timestamp_parse v = Ok r -> date_cell r = true) /\
  (forall v r, to_datetime_parse v = Ok r -> date_cell r = true).

(** The nine columns of a new ledger. *)
Definition ledger_columns : list string :=
  ["date"; "scope"; "category"; "activity"; "quantity"; "unit";
   "emission_factor"; "emissions_kgCO2e"; "notes"]%string.

(** The invariant: the ledger has its nine columns and the cells the
    handler writes, and every record has its derived emissions. *)
Definition ledger_invariant (df : DataFrame num) : Prop :=
  Forall (fun c => mem c (columns df) = true) ledger_columns /\
  typed_ledger df /\
  Forall derived_emissions (rows df).

(** The record is one of text scope [s] (of text category, ...). *)
Definition key_is (column s : string) (r : row num) : bool :=
  pyval_eqb (row_get r column) (PStr s).

(** A table [import_csv] accepts: every required column, and every date,
    quantity and emission factor cell converts. *)
Definition importable (df : DataFrame num) : Prop :=
  missing_columns df = [] /\
  Forall (fun r => exists d, pd_to_datetime (row_get r "date") = Ok d) (rows df) /\
  Forall (fun r => exists q, astype_float (row_get r "quantity") = Ok q) (rows df) /\
  Forall (fun r => exists f, astype_float (row_get r "emission_factor") = Ok f)
         (rows df).

End Reachability.


(* ================================================================= *)
(** ** Rounding to decimal places *)

(** The float read from the decimal text of [k / 10^ndigits], signed. *)
Definition decimal_float (s : bool) (k : Z) (ndigits : nat) : f64 :=
  match k with
  | Zpos p =>
      fdiv (S754_finite s p 0)
           (S754_finite false (Z.to_pos (10 ^ Z.of_nat ndigits)) 0)
  | _ => S754_zero s
  end.

(** [r] is [x] rounded to [ndigits] decimal places: for a finite
    [x = +/- m * 2^e], some integer [k] lies within one half of
    [m * 2^e * 10^ndigits] and [r] is the float of [+/- k / 10^ndigits];
    zeros, infinities and NaN are left as they are. *)
Definition rounded_to (ndigits : nat) (x r : f64) : Prop :=
  match x with
  | S754_finite s m e =>
      exists k : Z,
        0 <= k /\
        2 * Z.abs (Zpos m * 2 ^ Z.max e 0 * 10 ^ Z.of_nat ndigits
                   - k * 2 ^ Z.max (- e) 0) <= 2 ^ Z.max (- e) 0 /\
        r = decimal_float s k ndigits
  | _ => r = x
  end.

Lemma round_half_even_near (n d : Z) :
  0 <= n -> 0 < d ->
  0 <= round_half_even n d /\ 2 * Z.abs (n - round_half_even n d * d) <= d.
Proof.
  intros Hn Hd. unfold round_half_even.
  pose proof (Z.div_mod n d ltac:(lia)) as Hdm.
  pose proof (Z.mod_pos_bound n d Hd) as Hm.
  pose proof (Z.div_pos n d Hn Hd) as Hq.
  destruct (Z.compare_spec (2 * (n mod d)) d) as [He | Hl | Hg].
  - destruct (Z.even (n / d)); split; nia.
  - split; nia.
  - split; nia.
Qed.

Lemma round_rounded_to (x : f64) (ndigits : nat) :
  (ndigits <= NDIGITS_MAX)%nat ->
  rounded_to ndigits x (round x ndigits).
Proof.
  intros Hmax.
  destruct x as [s | s | | s m e]; cbn [round rounded_to]; try reflexivity.
  apply Nat.ltb_ge in Hmax. rewrite Hmax.
  assert (Hd : 0 < 2 ^ Z.max (- e) 0) by (apply Z.pow_pos_nonneg; lia).
  assert (Hp : 0 <= 10 ^ Z.of_nat ndigits) by (apply Z.pow_nonneg; lia).
  assert (Hn : 0 <= Zpos m * 2 ^ Z.max e 0 * 10 ^ Z.of_nat ndigits).
  { repeat apply Z.mul_nonneg_nonneg; try lia; apply Z.pow_nonneg; lia. }
  destruct (round_half_even_near _ _ Hn Hd) as [Hk Hnear].
  exists (round_half_even (Zpos m * 2 ^ Z.max e 0 * 10 ^ Z.of_nat ndigits)
                          (2 ^ Z.max (- e) 0)).
  split; [exact Hk|]. split; [exact Hnear|].
  unfold decimal_float.
  destruct (round_half_even _ _); reflexivity.
Qed.

(* ================================================================= *)
(** ** emission_factors.py: theorems *)

Section EmissionFactorsTheorems.
Import EmissionFactors.
Open Scope string_scope.

Lemma add_activity_step (FACTORS : catalog) (category act : string)
      (amt t : f64) :
  add_activity FACTORS category (Ok t) (act, amt) =
  Ok (fold_left fadd
        (match get_emission_factor FACTORS category act with
         | Some e => [round (fmul (factor e) amt) 4]
         | None => []
         end) t).
Proof.
  unfold add_activity, calculate_emission. simpl.
  destruct (get_emission_factor FACTORS category act); reflexivity.
Qed.

Lemma fold_add_activity (FACTORS : catalog) (category : string)
      (acts : dict f64) (t : f64) :
  fold_left (add_activity FACTORS category) acts (Ok t) =
  Ok (fold_left fadd (resolved_emissions FACTORS [(category, acts)]) t).
Proof.
  unfold resolved_emissions. cbn [flat_map fst snd]. rewrite app_nil_r.
  revert t. induction acts as [| [act amt] acts IH]; intros t.
  - reflexivity.
  - cbn [fold_left flat_map fst snd].
    rewrite add_activity_step, fold_left_app. apply IH.
Qed.

Lemma fold_add_category (FACTORS : catalog) (usage_dict : usage) (t : f64) :
  fold_left (add_category FACTORS) usage_dict (Ok t) =
  Ok (fold_left fadd (resolved_emissions FACTORS usage_dict) t).
Proof.
  revert t. induction usage_dict as [| [category acts] rest IH]; intros t.
  - reflexivity.
  - replace (resolved_emissions FACTORS ((category, acts) :: rest))
      with (resolved_emissions FACTORS [(category, acts)]
            ++ resolved_emissions FACTORS rest)%list
      by (unfold resolved_emissions; cbn [flat_map]; now rewrite app_nil_r).
    cbn [fold_left]. unfold add_category at 2. cbn [fst snd].
    rewrite fold_add_activity, fold_left_app. apply IH.
Qed.

(** C5: for a pair present in the catalog, [calculate_emission] returns
    [factor * amount] rounded to 4 decimal places; for a pair that is
    absent it raises [ValueError]; and
    [calculate_emission("Electricity", "India Grid", 1500) == 1230.0] on
    the initial catalog. *)
Theorem calculate_emission_rounds_or_raises :
  (forall (FACTORS : catalog) (category activity : string) (amount : f64),
      match get_emission_factor FACTORS category activity with
      | Some e =>
          exists r,
            calculate_emission FACTORS category activity amount = Ok r /\
            r = round (fmul (factor e) amount) 4 /\
            rounded_to 4 (fmul (factor e) amount) r
      | None =>
          exists msg,
            calculate_emission FACTORS category activity amount
            = Raise (ValueError msg)
      end)
  /\ get_emission_factor EMISSION_FACTORS "Electricity" "India Grid"
     = Some (mkEF (flt 0.82) "kWh")
  /\ calculate_emission EMISSION_FACTORS "Electricity" "India Grid" (flt 1500)
     = Ok (flt 1230.0).
Proof.
  split; [| split].
  - intros FACTORS category activity amount. unfold calculate_emission.
    destruct (get_emission_factor FACTORS category activity) as [e |].
    + eexists. split; [reflexivity|]. split; [reflexivity|].
      apply round_rounded_to. unfold NDIGITS_MAX. lia.
    + eexists. reflexivity.
  - reflexivity.
  - vm_compute. reflexivity.
Qed.

(** C4: [total_emission_by_scope] returns, rounded to 4 decimal places,
    the sum of [calculate_emission] over the pairs of the usage map that
    resolve in the catalog, the others being skipped; and on the initial
    catalog the Scope 2 example gives [877.0]. *)
Theorem total_emission_by_scope_sums_resolved :
  (forall (FACTORS : catalog) (scope : string) (usage_dict : usage),
      total_emission_by_scope FACTORS scope usage_dict
      = Ok (round (float_sum (resolved_emissions FACTORS usage_dict)) 4)
      /\ rounded_to 4 (float_sum (resolved_emissions FACTORS usage_dict))
           (round (float_sum (resolved_emissions FACTORS usage_dict)) 4))
  /\ total_emission_by_scope EMISSION_FACTORS "Scope 2"
       [ ("Electricity", [("India Grid", flt 1000)]);
         ("Steam", [("Purchased Steam", flt 300)]) ]
     = Ok (flt 877.0).
Proof.
  split.
  - intros FACTORS scope usage_dict. split.
    + unfold total_emission_by_scope, float_sum.
      rewrite fold_add_category. reflexivity.
    + apply round_rounded_to. unfold NDIGITS_MAX. lia.
  - vm_compute. reflexivity.
Qed.

(** C10: the result of [total_emission_by_scope] does not depend on its
    scope argument: any two scopes give the same result on the same usage
    map, and the Scope 2 usage of the example is summed in full under
    ["Scope 3"] too. *)
Theorem total_emission_by_scope_ignores_scope :
  (forall (FACTORS : catalog) (s1 s2 : string) (usage_dict : usage),
      total_emission_by_scope FACTORS s1 usage_dict
      = total_emission_by_scope FACTORS s2 usage_dict)
  /\ get_categories "Scope 3"
     = ["Business Travel"; "Employee Commuting"; "Waste"; "Water";
        "Purchased Goods & Services"]
  /\ total_emission_by_scope EMISSION_FACTORS "Scope 3"
       [ ("Electricity", [("India Grid", flt 1000)]);
         ("Steam", [("Purchased Steam", flt 300)]) ]
     = Ok (flt 877.0).
Proof.
  split; [| split].
  - intros FACTORS s1 s2 usage_dict. unfold total_emission_by_scope.
    reflexivity.
  - reflexivity.
  - vm_compute. reflexivity.
Qed.

End EmissionFactorsTheorems.

(* ================================================================= *)
(** ** Lists, dicts and traversals *)

Section Traversals.
Context {A B C : Type}.

Lemma mapM_values (f : A -> result B) (d : B) (l : list A) (ys : list B) :
  mapM f l = Ok ys -> ys = map (fun a => value_or d (f a)) l.
Proof.
  revert ys. induction l as [| a l IH]; intros ys Hm; simpl in Hm.
  - now inversion Hm.
  - destruct (f a) as [b |] eqn:Hfa; simpl in Hm; [| discriminate].
    destruct (mapM f l) as [bs |]; simpl in Hm; [| discriminate].
    inversion Hm; subst. simpl. rewrite Hfa. simpl. f_equal. now apply IH.
Qed.

Lemma mapM_returns (f : A -> result B) (d : B) (l : list A) (ys : list B) :
  mapM f l = Ok ys -> Forall (fun a => f a = Ok (value_or d (f a))) l.
Proof.
  revert ys. induction l as [| a l IH]; intros ys Hm; simpl in Hm.
  - constructor.
  - destruct (f a) as [b |] eqn:Hfa; simpl in Hm; [| discriminate].
    destruct (mapM f l) as [bs |]; simpl in Hm; [| discriminate].
    constructor; [now rewrite Hfa | now apply (IH bs)].
Qed.

Lemma mapM_total (f : A -> result B) (g : A -> B) (l : list A) :
  Forall (fun a => f a = Ok (g a)) l -> mapM f l = Ok (map g l).
Proof.
  induction 1 as [| a l Ha _ IH]; simpl.
  - reflexivity.
  - now rewrite Ha, IH.
Qed.

Lemma combine_with_map (f : A -> B) (l : list A) :
  combine l (map f l) = map (fun a => (a, f a)) l.
Proof. induction l; simpl; congruence. Qed.

Lemma combine_maps (f : A -> B) (g : A -> C) (l : list A) :
  combine (map f l) (map g l) = map (fun a => (f a, g a)) l.
Proof. induction l; simpl; congruence. Qed.

Lemma mask_is_filter (p : A -> bool) (l : list A) :
  map fst (filter (fun ab : A * bool => snd ab) (combine l (map p l)))
  = filter p l.
Proof.
  induction l as [| a l IH]; simpl; [reflexivity|].
  destruct (p a); simpl; now rewrite IH.
Qed.

Lemma filter_twice (p q : A -> bool) (l : list A) :
  filter q (filter p l) = filter (fun a => p a && q a) l.
Proof.
  induction l as [| a l IH]; simpl; [reflexivity|].
  destruct (p a); simpl; [destruct (q a)|]; now rewrite IH.
Qed.

Lemma filter_all (p : A -> bool) (l : list A) :
  Forall (fun a => p a = true) l -> filter p l = l.
Proof.
  induction 1 as [| a l Ha _ IH]; simpl; [reflexivity|].
  now rewrite Ha, IH.
Qed.

End Traversals.

Section Dicts.
Context {V : Type}.

Lemma dict_get_set_same (k : string) (v : V) (d : dict V) :
  dict_get k (dict_set k v d) = Some v.
Proof.
  induction d as [| [k' v'] d IH]; simpl.
  - now rewrite String.eqb_refl.
  - destruct (String.eqb k k') eqn:E; simpl; rewrite E; [reflexivity | exact IH].
Qed.

Lemma dict_get_set_other (k k' : string) (v : V) (d : dict V) :
  String.eqb k' k = false ->
  dict_get k' (dict_set k v d) = dict_get k' d.
Proof.
  intros Hne. induction d as [| [k0 v0] d IH]; simpl.
  - now rewrite Hne.
  - destruct (String.eqb k k0) eqn:E; simpl.
    + apply String.eqb_eq in E. subst k0. now rewrite Hne.
    + now rewrite IH.
Qed.

Lemma dict_set_twice (k : string) (v w : V) (d : dict V) :
  dict_set k w (dict_set k v d) = dict_set k w d.
Proof.
  induction d as [| [k' v'] d IH]; simpl.
  - now rewrite String.eqb_refl.
  - destruct (String.eqb k k') eqn:E; simpl; rewrite E; [reflexivity|].
    now rewrite IH.
Qed.

End Dicts.

Lemma mem_add_column (c : string) (cols : list string) :
  mem c (add_column c cols) = true.
Proof.
  unfold add_column. destruct (mem c cols) eqn:E; [exact E|].
  unfold mem. rewrite existsb_app. simpl.
  now rewrite String.eqb_refl, orb_true_r.
Qed.

Lemma mem_add_column_other (c c' : string) (cols : list string) :
  mem c' cols = true -> mem c' (add_column c cols) = true.
Proof.
  intros Hm. unfold add_column. destruct (mem c cols); [exact Hm|].
  unfold mem in *. rewrite existsb_app. now rewrite Hm.
Qed.

Lemma add_column_twice (c : string) (cols : list string) :
  add_column c (add_column c cols) = add_column c cols.
Proof. unfold add_column at 1. now rewrite mem_add_column. Qed.

(** Text: every joined piece occurs in the joined text. *)
Lemma append_assoc (a b c : string) :
  ((a ++ b) ++ c = a ++ (b ++ c))%string.
Proof. induction a as [| x a IH]; simpl; [reflexivity | now rewrite IH]. Qed.

Lemma join_contains (sep c : string) (l : list string) :
  In c l -> exists pre post, join sep l = (pre ++ c ++ post)%string.
Proof.
  unfold join. induction l as [| x l IH]; intros Hin; [contradiction|].
  destruct Hin as [-> | Hin].
  - destruct l as [| y l].
    + exists ""%string, ""%string. simpl.
      clear. induction c as [| a c IH]; simpl; [reflexivity | now rewrite <- IH].
    + exists ""%string, (sep ++ String.concat sep (y :: l))%string. reflexivity.
  - destruct (IH Hin) as (pre & post & Heq).
    destruct l as [| y l]; [contradiction|].
    exists (x ++ sep ++ pre)%string, post.
    change (String.concat sep (x :: y :: l))
      with (x ++ sep ++ String.concat sep (y :: l))%string.
    rewrite Heq. now rewrite !append_assoc.
Qed.

(* ================================================================= *)
(** ** data_handler.py: theorems *)

Section HandlerTheorems.
Context {num : Type} `{PyNumeric num} `{PandasSums num} `{PandasDates num}
        `{ExactValue num}.
Import DataHandler.
Open Scope string_scope.

Local Abbreviation pyval := (pyval num).
Local Abbreviation row := (row num).
Local Abbreviation DataFrame := (DataFrame num).

Lemma row_get_set_same (c : string) (v : pyval) (r : row) :
  row_get (dict_set c v r) c = v.
Proof. unfold row_get. now rewrite dict_get_set_same. Qed.

Lemma row_get_set_other (c c' : string) (v : pyval) (r : row) :
  String.eqb c' c = false ->
  row_get (dict_set c v r) c' = row_get r c'.
Proof. intros Hne. unfold row_get. now rewrite dict_get_set_other. Qed.

Lemma all_false_of_falsy (l : list pyval) :
  Exists (fun v => truthy v = false) l -> all l = false.
Proof.
  unfold all. induction 1 as [v l Hv | v l _ IH]; simpl.
  - now rewrite Hv.
  - rewrite IH. apply andb_false_r.
Qed.

(* ------------------------------------------------------------- *)
(** *** add_emission_entry *)

(** C1, as the code has it: [add_emission_entry] fails when any of scope,
    category, activity, quantity or emission factor is falsy (missing,
    empty, or a zero number: a zero quantity is rejected as missing); the
    sign of the quantity is not looked at, so a negative quantity that
    converts to a float is accepted; the call succeeds exactly when the
    five fields are truthy and the numbers and the date convert; on failure
    the handler is unchanged, on success the ledger is one record longer. *)
Theorem add_emission_entry_validation
        (self : DataHandler)
        (date scope category activity quantity unit emission_factor notes : pyval) :
  let mandatory := [scope; category; activity; quantity; emission_factor] in
  let outcome :=
    add_emission_entry self date scope category activity quantity unit
                       emission_factor notes in
  (Exists (fun v => truthy v = false) mandatory -> fst outcome = false)
  /\ (fst outcome = true <->
      all mandatory = true /\
      exists q f d,
        py_float quantity = Ok q /\ py_float emission_factor = Ok f /\
        pd_Timestamp date = Ok d)
  /\ (fst outcome = false -> snd outcome = self)
  /\ (fst outcome = true ->
      df_len (emissions_data (snd outcome)) = S (df_len (emissions_data self)))
  /\ (truthy (PInt 0 : pyval) = false
      /\ truthy (PNone : pyval) = false
      /\ truthy (PStr "" : pyval) = false
      /\ (forall x : num, n_eqb x nzero = true -> truthy (PFloat x) = false)
      /\ (forall z : Z, z < 0 -> truthy (PInt z : pyval) = true)).
Proof.
  intros mandatory outcome. subst outcome.
  unfold add_emission_entry, add_emission_entry_try. fold mandatory.
  split; [| split; [| split; [| split]]].
  - intros Hex. rewrite (all_false_of_falsy _ Hex). reflexivity.
  - destruct (all mandatory); simpl.
    + destruct (py_float quantity) as [q |]; simpl.
      * destruct (py_float emission_factor) as [f |]; simpl.
        -- destruct (pd_Timestamp date) as [d |]; simpl.
           ++ split; [intros _; split; [reflexivity | now exists q, f, d] | reflexivity].
           ++ split; [discriminate | intros (_ & ? & ? & ? & _ & _ & Hd); discriminate].
        -- split; [discriminate | intros (_ & ? & ? & ? & _ & Hf & _); discriminate].
      * split; [discriminate | intros (_ & ? & ? & ? & Hq & _); discriminate].
    + split; [discriminate | intros [Ha _]; discriminate].
  - destruct (all mandatory); simpl; [| reflexivity].
    destruct (py_float quantity); simpl; [| reflexivity].
    destruct (py_float emission_factor); simpl; [| reflexivity].
    destruct (pd_Timestamp date); simpl; [discriminate | reflexivity].
  - destruct (all mandatory); simpl; [| discriminate].
    destruct (py_float quantity); simpl; [| discriminate].
    destruct (py_float emission_factor); simpl; [| discriminate].
    destruct (pd_Timestamp date); simpl; [| discriminate].
    intros _. unfold df_len, pd_concat, df_of_records.
    cbn [rows emissions_data snd]. rewrite length_app. simpl. lia.
  - repeat split.
    + intros x Hx. simpl. now rewrite Hx.
    + intros z Hz. simpl. destruct z; try lia. reflexivity.
Qed.

(* ------------------------------------------------------------- *)
(** *** import_csv *)

(** C2: a table that lacks a required column is rejected as a whole:
    [import_csv] returns [False] with a message that names every missing
    required column, and the handler is unchanged. *)
Theorem import_csv_rejects_missing_columns
        (self : DataHandler) (df : DataFrame) (c : string) :
  In c required -> mem c (columns df) = false ->
  let outcome := import_csv self (Ok df) in
  let message := snd (fst outcome) in
  fst (fst outcome) = false
  /\ snd outcome = self
  /\ message = "Missing required columns: " ++ join ", " (missing_columns df)
  /\ (forall c', In c' (missing_columns df) <->
                 In c' required /\ mem c' (columns df) = false)
  /\ (forall c', In c' required -> mem c' (columns df) = false ->
                 exists pre post, message = pre ++ c' ++ post).
Proof.
  intros Hreq Hmem outcome message. subst message outcome.
  assert (Hmiss : forall c', In c' (missing_columns df) <->
                             In c' required /\ mem c' (columns df) = false).
  { intros c'. unfold missing_columns. rewrite filter_In.
    now rewrite negb_true_iff. }
  assert (Hin : In c (missing_columns df)) by now apply Hmiss.
  unfold import_csv, import_csv_try. simpl bind.
  destruct (missing_columns df) as [| m ms] eqn:Hm; [contradiction|].
  cbn [fst snd].
  split; [reflexivity|]. split; [reflexivity|]. split; [reflexivity|].
  split; [exact Hmiss|].
  intros c' Hr' Hm'.
  assert (Hin' : In c' (m :: ms)) by now apply Hmiss.
  destruct (join_contains ", " c' (m :: ms) Hin') as (pre & post & Heq).
  exists ("Missing required columns: " ++ pre), post.
  rewrite Heq. now rewrite append_assoc.
Qed.

(* ------------------------------------------------------------- *)
(** *** get_emissions_summary on an empty ledger *)

(** C9: on an empty ledger [get_emissions_summary] returns a summary with
    total [0] and empty scope, category and time-series breakdowns, and
    raises nothing. *)
Theorem get_emissions_summary_empty (self : DataHandler) :
  df_empty (emissions_data self) = true ->
  get_emissions_summary self = (Ok (mkSummary (PInt 0) [] [] []), self).
Proof.
  intros Hempty. unfold get_emissions_summary. now rewrite Hempty.
Qed.


(* ------------------------------------------------------------- *)
(** *** The derived emissions of appended records *)

Lemma df_col_cells (df : DataFrame) (c : string) (cells : list pyval) :
  df_col df c = Ok cells ->
  mem c (columns df) = true /\ cells = map (fun r => row_get r c) (rows df).
Proof.
  unfold df_col. destruct (mem c (columns df)); [| discriminate].
  intros Hc. inversion Hc. now split.
Qed.

Lemma df_col_present (df : DataFrame) (c : string) :
  mem c (columns df) = true ->
  df_col df c = Ok (map (fun r => row_get r c) (rows df)).
Proof. intros Hm. unfold df_col. now rewrite Hm. Qed.

Lemma mem_add_column_ne (c c' : string) (cols : list string) :
  String.eqb c' c = false -> mem c' (add_column c cols) = mem c' cols.
Proof.
  intros Hne. unfold add_column. destruct (mem c cols); [reflexivity|].
  unfold mem. rewrite existsb_app. simpl. rewrite Hne.
  now rewrite !orb_false_r.
Qed.

Lemma df_assign_rows (df : DataFrame) (c : string) (g : row -> pyval) :
  rows (df_assign df c (map g (rows df)))
  = map (fun r => dict_set c (g r) r) (rows df).
Proof.
  unfold df_assign. cbn [rows]. now rewrite combine_with_map, map_map.
Qed.

(** The record [add_emission_entry] appends. *)
Lemma add_emission_entry_appends
      (self : DataHandler)
      (date scope category activity quantity unit emission_factor notes : pyval) :
  let outcome :=
    add_emission_entry self date scope category activity quantity unit
                       emission_factor notes in
  fst outcome = true ->
  exists q f d,
    py_float quantity = Ok q /\ py_float emission_factor = Ok f /\
    pd_Timestamp date = Ok d /\
    rows (emissions_data (snd outcome))
    = (rows (emissions_data self)
       ++ [[ ("date", d); ("scope", scope); ("category", category);
             ("activity", activity); ("quantity", PFloat q); ("unit", unit);
             ("emission_factor", PFloat f);
             ("emissions_kgCO2e", PFloat (nmul q f)); ("notes", notes) ]])%list.
Proof.
  intros outcome. subst outcome.
  unfold add_emission_entry, add_emission_entry_try.
  destruct (all _); simpl; [| discriminate].
  destruct (py_float quantity) as [q |]; simpl; [| discriminate].
  destruct (py_float emission_factor) as [f |]; simpl; [| discriminate].
  destruct (pd_Timestamp date) as [d |]; simpl; [| discriminate].
  intros _. now exists q, f, d.
Qed.

Lemma import_csv_appends (self : DataHandler) (csv : result DataFrame) :
  let outcome := import_csv self csv in
  fst (fst outcome) = true ->
  exists df,
    csv = Ok df /\
    Forall (fun r => exists q, astype_float (row_get r "quantity") = Ok q) (rows df) /\
    Forall (fun r => exists f, astype_float (row_get r "emission_factor") = Ok f)
           (rows df) /\
    rows (emissions_data (snd outcome))
    = (rows (emissions_data self)
       ++ map (imported_row (negb (mem "notes" (columns df)))) (rows df))%list.
Proof.
  intros outcome. subst outcome. unfold import_csv, import_csv_try.
  destruct csv as [df | e]; cbn [bind]; [| discriminate].
  destruct (missing_columns df); [| discriminate].
  destruct (df_col df "date") as [dates |] eqn:Hd; cbn [bind]; [| discriminate].
  apply df_col_cells in Hd. destruct Hd as [Hdm ->].
  destruct (mapM pd_to_datetime _) as [dates' |] eqn:Hd'; cbn [bind]; [| discriminate].
  apply (mapM_values _ PNone) in Hd'. rewrite map_map in Hd'. subst dates'.
  destruct (df_col _ "quantity") as [qs |] eqn:Hq; cbn [bind]; [| discriminate].
  apply df_col_cells in Hq. destruct Hq as [Hqm ->].
  destruct (mapM astype_float _) as [qs' |] eqn:Hq'; cbn [bind]; [| discriminate].
  pose proof (mapM_returns _ nzero _ _ Hq') as Hqr.
  apply (mapM_values _ nzero) in Hq'. rewrite map_map in Hq'. subst qs'.
  destruct (df_col _ "emission_factor") as [fs |] eqn:Hf; cbn [bind]; [| discriminate].
  apply df_col_cells in Hf. destruct Hf as [Hfm ->].
  destruct (mapM astype_float _) as [fs' |] eqn:Hf'; cbn [bind]; [| discriminate].
  pose proof (mapM_returns _ nzero _ _ Hf') as Hfr.
  apply (mapM_values _ nzero) in Hf'. rewrite map_map in Hf'. subst fs'.
  intros _. exists df. split; [reflexivity|].
  rewrite Forall_map in Hqr, Hfr. rewrite df_assign_rows in Hqr, Hfr.
  rewrite Forall_map in Hqr, Hfr.
  split; [| split].
  - eapply Forall_impl; [| exact Hqr]. intros r Hr. cbv beta in Hr.
    rewrite row_get_set_other in Hr by reflexivity. eauto.
  - eapply Forall_impl; [| exact Hfr]. intros r Hr. cbv beta in Hr.
    rewrite row_get_set_other in Hr by reflexivity. eauto.
  - cbn [snd emissions_data pd_concat rows]. f_equal.
    rewrite combine_maps, map_map. cbn [fst snd].
    match goal with
    | |- context [mem "notes" (columns ?d)] =>
        assert (Hc : mem "notes" (columns d) = mem "notes" (columns df))
          by (unfold df_assign; cbn [columns];
              now rewrite !mem_add_column_ne by reflexivity);
        rewrite Hc
    end.
    unfold imported_row.
    destruct (mem "notes" (columns df)); cbn [negb];
      [| unfold df_assign_scalar; cbn [rows] ];
      rewrite !df_assign_rows, !map_map; reflexivity.
Qed.

Lemma imported_row_derived (with_notes : bool) (r : row) :
  (exists q, astype_float (row_get r "quantity") = Ok q) ->
  (exists f, astype_float (row_get r "emission_factor") = Ok f) ->
  derived_emissions (imported_row with_notes r).
Proof.
  intros [q Hq] [f Hf]. exists q, f. unfold imported_row.
  destruct with_notes;
    rewrite ?(row_get_set_other "notes") by reflexivity;
    rewrite !(row_get_set_other "emissions_kgCO2e") by reflexivity;
    rewrite !(row_get_set_other "date") by reflexivity;
    rewrite row_get_set_same, Hq, Hf; auto.
Qed.

Lemma add_emission_entry_cases
      (self : DataHandler)
      (date scope category activity quantity unit emission_factor notes : pyval) :
  let outcome :=
    add_emission_entry self date scope category activity quantity unit
                       emission_factor notes in
  fst outcome = true \/ outcome = (false, self).
Proof.
  cbv zeta. unfold add_emission_entry.
  destruct (add_emission_entry_try _ _ _ _ _ _ _ _ _); auto.
Qed.

Lemma import_csv_cases (self : DataHandler) (csv : result DataFrame) :
  let outcome := import_csv self csv in
  fst (fst outcome) = true \/ snd outcome = self.
Proof.
  cbv zeta. unfold import_csv, import_csv_try.
  destruct csv as [df |]; cbn [bind]; [| now right].
  destruct (missing_columns df); [| now right].
  repeat match goal with
         | |- context [bind ?m _] => destruct m; cbn [bind]; [| now right]
         end.
  now left.
Qed.

Lemma number_astype (v : pyval) (x : num) :
  number v = Some x -> astype_float v = Ok x.
Proof.
  destruct v; cbn; try discriminate.
  - destruct (n_of_int z); [congruence | discriminate].
  - congruence.
Qed.

Lemma imported_row_kept (with_notes : bool) (r : row) (c : string) :
  c <> "date" -> c <> "emissions_kgCO2e" -> c <> "notes" ->
  row_get (imported_row with_notes r) c = row_get r c.
Proof.
  intros Hd He Hn. apply String.eqb_neq in Hd, He, Hn.
  unfold imported_row. destruct with_notes;
    rewrite ?(row_get_set_other "notes") by exact Hn;
    rewrite (row_get_set_other "emissions_kgCO2e") by exact He;
    now rewrite (row_get_set_other "date") by exact Hd.
Qed.

Lemma imported_row_emissions (with_notes : bool) (r : row) (q f : num) :
  astype_float (row_get r "quantity") = Ok q ->
  astype_float (row_get r "emission_factor") = Ok f ->
  row_get (imported_row with_notes r) "emissions_kgCO2e" = PFloat (nmul q f).
Proof.
  intros Hq Hf. unfold imported_row.
  destruct with_notes;
    rewrite ?(row_get_set_other "notes") by reflexivity;
    rewrite row_get_set_same;
    rewrite !(row_get_set_other "date") by reflexivity;
    now rewrite Hq, Hf.
Qed.

(** Python's [==] on floats: a number equals itself unless it is NaN. *)
Section Equality.
Hypothesis n_eqb_self : forall x : num, n_eqb x x = negb (n_isnan x).

Lemma derived_is_invariant (r : row) (q f : num) :
  astype_float (row_get r "quantity") = Ok q ->
  astype_float (row_get r "emission_factor") = Ok f ->
  row_get r "emissions_kgCO2e" = PFloat (nmul q f) ->
  emissions_invariant r.
Proof.
  intros Hq Hf He. split; [now exists q, f|].
  unfold emissions_equal_product, product_of.
  destruct (number (row_get r "quantity")) as [q' |] eqn:Nq; [| reflexivity].
  destruct (number (row_get r "emission_factor")) as [f' |] eqn:Nf;
    [| reflexivity].
  apply number_astype in Nq, Nf.
  assert (q' = q) by congruence. assert (f' = f) by congruence. subst.
  rewrite He. cbn [number]. apply n_eqb_self.
Qed.


End Equality.


(* ------------------------------------------------------------- *)
(** *** get_filtered_data *)

Lemma df_loc_filter (data : DataFrame) (p : row -> bool) :
  df_loc data (map p (rows data)) = mkDF (columns data) (filter p (rows data)).
Proof. unfold df_loc. now rewrite mask_is_filter. Qed.

Lemma time_ge_cells (s : pyval) (l : list row) :
  Forall (fun r => date_cell (row_get r "date") = true) l ->
  mapM (time_ge s) (map (fun r => row_get r "date") l)
  = Ok (map (date_from s) l).
Proof.
  intros Hd.
  transitivity (Ok (map (fun c : pyval => match c, s with PTime t, PTime a => (a <=? t)%Z | _, _ => false end)
                       (map (fun r : row => row_get r "date") l)));
    [| now rewrite map_map].
  apply mapM_total. rewrite Forall_map.
  eapply Forall_impl; [| exact Hd]. intros r Hr. cbv beta in *.
  destruct (row_get r "date"); try discriminate; reflexivity.
Qed.

Lemma time_le_cells (e : pyval) (l : list row) :
  Forall (fun r => date_cell (row_get r "date") = true) l ->
  mapM (time_le e) (map (fun r => row_get r "date") l)
  = Ok (map (date_until e) l).
Proof.
  intros Hd.
  transitivity (Ok (map (fun c : pyval => match c, e with PTime t, PTime b => (t <=? b)%Z | _, _ => false end)
                       (map (fun r : row => row_get r "date") l)));
    [| now rewrite map_map].
  apply mapM_total. rewrite Forall_map.
  eapply Forall_impl; [| exact Hd]. intros r Hr. cbv beta in *.
  destruct (row_get r "date"); try discriminate; reflexivity.
Qed.

Lemma filter_dates_selects (data : DataFrame) (start_date end_date : pyval)
      (range : option (pyval * pyval)) :
  mem "date" (columns data) = true ->
  Forall (fun r => date_cell (row_get r "date") = true) (rows data) ->
  date_range start_date end_date = Ok range ->
  filter_dates data start_date end_date
  = Ok (mkDF (columns data) (filter (in_range range) (rows data))).
Proof.
  intros Hm Hd Hr. unfold filter_dates. unfold date_range in Hr.
  destruct (truthy start_date && truthy end_date).
  - destruct (pd_Timestamp start_date) as [s |]; cbn [bind] in Hr; [| discriminate].
    destruct (pd_Timestamp end_date) as [e |]; cbn [bind] in Hr; [| discriminate].
    inversion Hr; subst range.
    rewrite (df_col_present _ _ Hm). cbn [bind].
    rewrite (time_ge_cells s _ Hd). cbn [bind].
    rewrite (time_le_cells e _ Hd). cbn [bind].
    rewrite combine_maps, map_map. cbn [fst snd].
    now rewrite df_loc_filter.
  - inversion Hr. destruct data as [cols rs]. cbn [columns rows in_range].
    now rewrite filter_all by (apply Forall_forall; reflexivity).
Qed.

Lemma filter_equal_selects (data : DataFrame) (column : string) (v : pyval) :
  mem column (columns data) = true ->
  filter_equal data column v
  = Ok (mkDF (columns data) (filter (field_is column v) (rows data))).
Proof.
  intros Hm. unfold filter_equal, field_is. destruct (truthy v).
  - rewrite (df_col_present _ _ Hm). cbn [bind].
    now rewrite map_map, df_loc_filter.
  - destruct data as [cols rs]. cbn [columns rows].
    now rewrite filter_all by (apply Forall_forall; reflexivity).
Qed.

(** C6, as the code has it: on a ledger with its date, scope and category
    columns, [get_filtered_data] returns the records, in ledger order, that
    satisfy every filter in force: the scope when given, the category when
    given, and the inclusive date range when both bounds are given (a bound
    given alone is ignored).  The result is no longer than the ledger, its
    records are records of the ledger, a scope filter leaves only records
    of that scope, and the handler is unchanged. *)
Theorem get_filtered_data_selects
        (self : DataHandler) (start_date end_date scope category : pyval)
        (range : option (pyval * pyval)) :
  let ledger := emissions_data self in
  mem "date" (columns ledger) = true ->
  mem "scope" (columns ledger) = true ->
  mem "category" (columns ledger) = true ->
  Forall (fun r => date_cell (row_get r "date") = true) (rows ledger) ->
  date_range start_date end_date = Ok range ->
  let outcome := get_filtered_data self start_date end_date scope category in
  let kept := filter (selected range scope category) (rows ledger) in
  fst outcome = Ok (mkDF (columns ledger) kept)
  /\ snd outcome = self
  /\ (List.length kept <= List.length (rows ledger))%nat
  /\ (forall r, In r kept -> In r (rows ledger))
  /\ (truthy scope = true ->
      Forall (fun r => pyval_eqb (row_get r "scope") scope = true) kept)
  /\ (truthy start_date = false \/ truthy end_date = false -> range = None).
Proof.
  intros ledger Hdate Hscope Hcat Hcells Hrange outcome kept.
  subst outcome kept. unfold get_filtered_data. fold ledger. cbn [fst snd].
  split; [| split; [reflexivity | split; [| split; [| split]]]].
  - rewrite (filter_dates_selects _ _ _ _ Hdate Hcells Hrange). cbn [bind].
    rewrite filter_equal_selects by exact Hscope. cbn [bind columns rows].
    rewrite filter_equal_selects by exact Hcat. cbn [columns rows].
    rewrite !filter_twice. do 2 f_equal. apply filter_ext.
    intros r. unfold selected. now rewrite andb_assoc.
  - apply filter_length_le.
  - intros r Hr. apply filter_In in Hr. tauto.
  - intros Hs. apply Forall_forall. intros r Hr.
    apply filter_In in Hr. destruct Hr as [_ Hsel].
    unfold selected, field_is in Hsel. rewrite Hs in Hsel.
    apply andb_true_iff in Hsel. destruct Hsel as [Hsel _].
    apply andb_true_iff in Hsel. tauto.
  - intros Habsent. unfold date_range in Hrange.
    destruct Habsent as [Ha | Ha]; rewrite Ha in Hrange;
      rewrite ?andb_false_r in Hrange; cbn in Hrange; congruence.
Qed.


(* ------------------------------------------------------------- *)
(** *** get_emissions_summary *)

Lemma cell_number_cells (l : list row) :
  Forall (fun r => emission_cell (row_get r "emissions_kgCO2e") = true) l ->
  mapM cell_number (map (fun r => row_get r "emissions_kgCO2e") l)
  = Ok (map emission_of l).
Proof.
  intros Hc.
  transitivity (Ok (map cell_emission
                        (map (fun r : row => row_get r "emissions_kgCO2e") l)));
    [| now rewrite map_map].
  apply mapM_total. rewrite Forall_map.
  eapply Forall_impl; [| exact Hc]. intros r Hr. cbv beta in *.
  destruct (row_get r "emissions_kgCO2e"); try discriminate; reflexivity.
Qed.

Lemma existsb_map {A B} (f : B -> bool) (g : A -> B) (l : list A) :
  existsb f (map g l) = existsb (fun a => f (g a)) l.
Proof. induction l as [| a l IH]; cbn; [reflexivity | now rewrite IH]. Qed.

Lemma strftime_cells (l : list row) :
  Forall (fun r => date_cell (row_get r "date") = true) l ->
  mapM strftime_cell (map (fun r => row_get r "date") l) = Ok (map month_of l).
Proof.
  intros Hc.
  transitivity (Ok (map (fun c : pyval =>
                           match c return pyval with
                           | PTime t => PStr (strftime_ym t)
                           | _ => PNone
                           end)
                        (map (fun r : row => row_get r "date") l)));
    [| now rewrite map_map].
  apply mapM_total. rewrite Forall_map.
  eapply Forall_impl; [| exact Hc]. intros r Hr. cbv beta in *.
  destruct (row_get r "date"); try discriminate; reflexivity.
Qed.

(** The [.dt] accessor on the date column: the month labels when the
    column holds a timestamp, [AttributeError] when it holds none. *)
Lemma dt_strftime_dated (l : list row) :
  Forall (fun r => date_cell (row_get r "date") = true) l ->
  existsb (fun r => is_timestamp (row_get r "date")) l = true ->
  dt_strftime (map (fun r => row_get r "date") l) = Ok (map month_of l).
Proof.
  intros Hc Hd. unfold dt_strftime. rewrite existsb_map, Hd.
  now apply strftime_cells.
Qed.

Lemma dt_strftime_undated (l : list row) :
  existsb (fun r => is_timestamp (row_get r "date")) l = false ->
  dt_strftime (map (fun r => row_get r "date") l)
  = Raise (AttributeError "Can only use .dt accessor with datetimelike values").
Proof. intros Hd. unfold dt_strftime. now rewrite existsb_map, Hd. Qed.

Lemma groupby_sum_groups (df : DataFrame) (key : string) :
  mem key (columns df) = true ->
  mem "emissions_kgCO2e" (columns df) = true ->
  Forall (fun r => emission_cell (row_get r "emissions_kgCO2e") = true) (rows df) ->
  groupby_sum df key "emissions_kgCO2e" = Ok (breakdown_of key (rows df)).
Proof.
  intros Hk He Hc. unfold groupby_sum, breakdown_of, groups_of.
  rewrite (df_col_present _ _ Hk), (df_col_present _ _ He). cbn [bind].
  rewrite (cell_number_cells _ Hc). cbn [bind].
  now rewrite combine_maps.
Qed.

Lemma summary_totals_dated (df : DataFrame) :
  typed_ledger df ->
  existsb (fun r => is_timestamp (row_get r "date")) (rows df) = true ->
  summary_totals df
  = Ok (Series_sum (map emission_of (rows df)), breakdown_of "scope" (rows df),
        breakdown_of "category" (rows df), map month_of (rows df)).
Proof.
  intros (He & Hs & Hc & Hd & Hcells & Hdates) Hts. unfold summary_totals.
  rewrite (df_col_present _ _ He). cbn [bind].
  unfold series_sum. rewrite (cell_number_cells _ Hcells). cbn [bind].
  rewrite !groupby_sum_groups by assumption. cbn [bind].
  rewrite (df_col_present _ _ Hd). cbn [bind].
  now rewrite (dt_strftime_dated _ Hdates Hts).
Qed.

Lemma summary_totals_undated (df : DataFrame) :
  typed_ledger df -> undated df ->
  summary_totals df
  = Raise (AttributeError "Can only use .dt accessor with datetimelike values").
Proof.
  intros (He & Hs & Hc & Hd & Hcells & Hdates) Hts. unfold summary_totals.
  rewrite (df_col_present _ _ He). cbn [bind].
  unfold series_sum. rewrite (cell_number_cells _ Hcells). cbn [bind].
  rewrite !groupby_sum_groups by assumption. cbn [bind].
  rewrite (df_col_present _ _ Hd). cbn [bind].
  now rewrite (dt_strftime_undated _ Hts).
Qed.

Lemma df_col_assign_other (df : DataFrame) (c c' : string) (g : row -> pyval) :
  String.eqb c' c = false ->
  df_col (df_assign df c (map g (rows df))) c' = df_col df c'.
Proof.
  intros Hne. unfold df_col. rewrite df_assign_rows.
  unfold df_assign. cbn [columns]. rewrite (mem_add_column_ne _ _ _ Hne).
  destruct (mem c' (columns df)); [| reflexivity].
  f_equal. rewrite map_map. apply map_ext. intros r.
  now apply row_get_set_other.
Qed.

Lemma groupby2_unstack_month (df : DataFrame) (g : row -> pyval) :
  mem "scope" (columns df) = true ->
  mem "emissions_kgCO2e" (columns df) = true ->
  Forall (fun r => emission_cell (row_get r "emissions_kgCO2e") = true) (rows df) ->
  exists ts,
    groupby2_unstack (df_assign df "month" (map g (rows df)))
                     "month" "scope" "emissions_kgCO2e" = Ok ts.
Proof.
  intros Hs He Hc. unfold groupby2_unstack.
  rewrite (df_col_assign_other _ _ "scope") by reflexivity.
  rewrite (df_col_assign_other _ _ "emissions_kgCO2e") by reflexivity.
  rewrite (df_col_present _ _ Hs), (df_col_present _ _ He).
  rewrite df_col_present by apply mem_add_column.
  cbn [bind]. rewrite (cell_number_cells _ Hc). cbn [bind].
  eexists. reflexivity.
Qed.

(** On a typed ledger with a date, [get_emissions_summary] returns: the
    total, the two breakdowns, and the handler with the month column
    assigned. *)
Lemma get_emissions_summary_runs (self : DataHandler) :
  typed_ledger (emissions_data self) ->
  df_empty (emissions_data self) = false ->
  existsb (fun r => is_timestamp (row_get r "date"))
          (rows (emissions_data self)) = true ->
  exists ts,
    get_emissions_summary self
    = (Ok (mkSummary (PFloat (Series_sum (map emission_of
                                              (rows (emissions_data self)))))
                     (breakdown_of "scope" (rows (emissions_data self)))
                     (breakdown_of "category" (rows (emissions_data self)))
                     ts),
       mkHandler (df_assign (emissions_data self) "month"
                            (map month_of (rows (emissions_data self))))).
Proof.
  intros Hsum Hne Hts. unfold get_emissions_summary. rewrite Hne.
  rewrite (summary_totals_dated _ Hsum Hts). cbn [emissions_data].
  destruct Hsum as (He & Hs & _ & _ & Hcells & _).
  destruct (groupby2_unstack_month (emissions_data self) month_of Hs He Hcells)
    as [ts Hts'].
  exists ts. now rewrite Hts'.
Qed.

(** On a typed ledger without a single date it raises, and leaves the
    handler as it was. *)
Lemma get_emissions_summary_undated (self : DataHandler) :
  typed_ledger (emissions_data self) ->
  df_empty (emissions_data self) = false ->
  undated (emissions_data self) ->
  get_emissions_summary self
  = (Raise (AttributeError "Can only use .dt accessor with datetimelike values"),
     self).
Proof.
  intros Hsum Hne Hts. unfold get_emissions_summary. rewrite Hne.
  now rewrite (summary_totals_undated _ Hsum Hts).
Qed.

Lemma dated_with_scope_dated (l : list row) :
  existsb dated_with_scope l = true ->
  existsb (fun r => is_timestamp (row_get r "date")) l = true.
Proof.
  rewrite !existsb_exists. intros (r & Hr & Hd). exists r. split; [exact Hr|].
  unfold dated_with_scope in Hd. now apply andb_true_iff in Hd.
Qed.

(** A second call: same summary, and the handler stays as the first call
    left it. *)
Lemma summary_totals_assign_month (df : DataFrame) (g : row -> pyval) :
  summary_totals (df_assign df "month" (map g (rows df))) = summary_totals df.
Proof.
  unfold summary_totals, groupby_sum.
  now rewrite !df_col_assign_other by reflexivity.
Qed.

Lemma summary_totals_months (df : DataFrame) total scope category months :
  summary_totals df = Ok (total, scope, category, months) ->
  months = map (fun r => value_or PNone (strftime_cell (row_get r "date"))) (rows df).
Proof.
  unfold summary_totals. intros Hs.
  repeat match type of Hs with
         | bind ?m _ = Ok _ =>
             let E := fresh "E" in
             destruct m eqn:E; cbn [bind] in Hs; [| discriminate Hs]
         end.
  inversion Hs; subst.
  match goal with
  | E : df_col df "date" = Ok _ |- _ => apply df_col_cells in E; destruct E as [_ ->]
  end.
  match goal with
  | E : dt_strftime _ = Ok _ |- _ =>
      unfold dt_strftime in E;
      destruct (existsb _ _); [| discriminate E];
      apply (mapM_values _ PNone) in E; rewrite map_map in E; exact E
  end.
Qed.

Lemma df_assign_month_again (df : DataFrame) (g : row -> pyval) :
  let df' := df_assign df "month" (map g (rows df)) in
  df_assign df' "month" (map g (rows df)) = df'.
Proof.
  cbv zeta. unfold df_assign at 1. rewrite df_assign_rows.
  unfold df_assign. cbn [columns rows]. rewrite add_column_twice. f_equal.
  rewrite combine_with_map, combine_maps, !map_map. apply map_ext.
  intros r. cbn [fst snd]. apply dict_set_twice.
Qed.

Lemma get_emissions_summary_again (self self' : DataHandler) (s : Summary) :
  get_emissions_summary self = (Ok s, self') ->
  get_emissions_summary self' = (Ok s, self').
Proof.
  unfold get_emissions_summary at 1.
  destruct (df_empty (emissions_data self)) eqn:Hempty.
  - intros Hs. inversion Hs; subst. unfold get_emissions_summary.
    now rewrite Hempty.
  - destruct (summary_totals (emissions_data self))
      as [[[[total scope] category] months] | e] eqn:Ht; [| discriminate].
    cbn [emissions_data].
    pose proof (summary_totals_months _ _ _ _ _ Ht) as Hm.
    set (g := fun r : row => value_or PNone (strftime_cell (row_get r "date"))) in Hm.
    subst months.
    destruct (groupby2_unstack _ _ _ _) as [ts |] eqn:Hts; cbn [bind];
      [| discriminate].
    intros Hs. inversion Hs; subst. clear Hs.
    unfold get_emissions_summary. cbn [emissions_data].
    assert (Hne : df_empty (df_assign (emissions_data self) "month"
                                      (map g (rows (emissions_data self)))) = false).
    { unfold df_empty in *. rewrite df_assign_rows.
      unfold df_assign. cbn [columns].
      destruct (rows (emissions_data self)); [discriminate|].
      cbn [map]. unfold add_column.
      destruct (mem "month" (columns (emissions_data self))).
      - destruct (columns (emissions_data self)); [discriminate | reflexivity].
      - destruct (columns (emissions_data self)); reflexivity. }
    rewrite Hne, summary_totals_assign_month, Ht. cbn [emissions_data].
    pose proof (df_assign_month_again (emissions_data self) g) as Hagain.
    cbv zeta in Hagain. rewrite Hagain, Hts. reflexivity.
Qed.

(* ------------------------------------------------------------- *)
(** *** The groups of a breakdown *)

Lemma insert_by_perm {A} (leb : A -> A -> bool) (a : A) (l : list A) :
  Permutation (insert_by leb a l) (a :: l).
Proof.
  induction l as [| b l IH]; cbn [insert_by]; [reflexivity|].
  destruct (leb a b); [reflexivity|].
  transitivity (b :: a :: l); [now constructor | apply perm_swap].
Qed.

Lemma sort_by_perm {A} (leb : A -> A -> bool) (l : list A) :
  Permutation (sort_by leb l) l.
Proof.
  induction l as [| a l IH]; cbn; [constructor|].
  transitivity (a :: sort_by leb l); [apply insert_by_perm | now constructor].
Qed.

Lemma sort_groups_perm {V} (groups : list (pyval * V)) :
  Permutation (sort_groups groups) groups.
Proof. apply sort_by_perm. Qed.

Lemma group_add_keys {K} (eqb : K -> K -> bool) (k : K) (o : option num)
      (g : list (K * list (option num))) :
  map fst (group_add eqb k o g) = map fst g
  \/ (map fst (group_add eqb k o g) = (map fst g ++ [k])%list
      /\ Forall (fun k' => eqb k' k = false) (map fst g)).
Proof.
  induction g as [| [k' s] g IH]; cbn [group_add map fst].
  - right. split; [reflexivity | constructor].
  - destruct (eqb k' k) eqn:E; cbn [map fst].
    + now left.
    + destruct IH as [IH | [IH Hall]].
      * left. now rewrite IH.
      * right. rewrite IH. split; [reflexivity | now constructor].
Qed.

Lemma group_add_finds {K} (eqb : K -> K -> bool) (k : K) (o : option num)
      (g : list (K * list (option num))) :
  (forall k', eqb k' k = true -> k' = k) ->
  In k (map fst (group_add eqb k o g)).
Proof.
  intros Heq. induction g as [| [k' s] g IH]; cbn [group_add map fst].
  - now left.
  - destruct (eqb k' k) eqn:E; cbn [map fst].
    + left. now apply Heq.
    + right. exact IH.
Qed.

Lemma pyval_eqb_text (k : pyval) (s : string) :
  pyval_eqb k (PStr s) = true -> k = PStr s.
Proof.
  destruct k; cbn; try discriminate.
  intros E. apply String.eqb_eq in E. now subst.
Qed.

Lemma text_key (v : pyval) :
  text_cell v = true -> isna v = false -> exists s, v = PStr s.
Proof. destruct v; cbn; try discriminate. intros _ _. now eexists. Qed.

Lemma groups_of_snoc (key : string) (l : list row) (r : row) :
  groups_of key (l ++ [r])
  = group_step (groups_of key l) (row_get r key, emission_of r).
Proof. unfold groups_of. now rewrite map_app, fold_left_app. Qed.

(** The keys of the groups: every key is the text key of some record, no
    key occurs twice, and every text key of a record has its group. *)
Lemma groups_of_keys (key : string) (l : list row) :
  Forall (fun r => text_cell (row_get r key) = true) l ->
  let keys := map fst (groups_of key l) in
  (forall k, In k keys -> exists s r, k = PStr s /\ In r l /\ row_get r key = k)
  /\ NoDup keys
  /\ (forall r s, In r l -> row_get r key = PStr s -> In (PStr s) keys).
Proof.
  cbv zeta. induction l as [| r l IH] using rev_ind; intros Htext.
  - cbn. split; [contradiction | split; [constructor | contradiction]].
  - apply Forall_app in Htext. destruct Htext as [Htext Hr].
    inversion Hr as [| ? ? Hrt _]; subst.
    destruct (IH Htext) as (Hfrom & Hdistinct & Hhas).
    rewrite groups_of_snoc. unfold group_step. cbn [fst snd].
    destruct (isna (row_get r key)) eqn:Hna.
    + split; [| split; [exact Hdistinct|]].
      * intros k Hk. destruct (Hfrom k Hk) as (s & r' & Hs & Hr' & Hkey).
        exists s, r'. split; [exact Hs|]. split; [| exact Hkey].
        apply in_or_app. now left.
      * intros r' s Hr' Hkey. apply in_app_or in Hr'.
        destruct Hr' as [Hr' | [<- | []]]; [now apply (Hhas r' s)|].
        rewrite Hkey in Hna. discriminate.
    + destruct (text_key _ Hrt Hna) as [s0 Hs0].
      destruct (group_add_keys pyval_eqb (row_get r key) (emission_of r)
                               (groups_of key l)) as [Hsame | [Hnew Hfresh]].
      * rewrite Hsame. split; [| split; [exact Hdistinct|]].
        -- intros k Hk. destruct (Hfrom k Hk) as (s & r' & Hs & Hr' & Hkey).
           exists s, r'. split; [exact Hs|]. split; [| exact Hkey].
           apply in_or_app. now left.
        -- intros r' s Hr' Hkey. apply in_app_or in Hr'.
           destruct Hr' as [Hr' | [<- | []]]; [now apply (Hhas r' s)|].
           rewrite <- Hsame, <- Hkey. apply group_add_finds.
           rewrite Hkey. intros k'. apply pyval_eqb_text.
      * rewrite Hnew. split; [| split].
        -- intros k Hk. apply in_app_or in Hk.
           destruct Hk as [Hk | [<- | []]].
           ++ destruct (Hfrom k Hk) as (s & r' & Hs & Hr' & Hkey).
              exists s, r'. split; [exact Hs|]. split; [| exact Hkey].
              apply in_or_app. now left.
           ++ exists s0, r. split; [exact Hs0|]. split; [| reflexivity].
              apply in_or_app. right. now left.
        -- apply (Permutation_NoDup
                    (Permutation_cons_append (map fst (groups_of key l))
                                             (row_get r key))).
           constructor; [| exact Hdistinct].
           intros Hin. rewrite Forall_forall in Hfresh.
           specialize (Hfresh _ Hin). rewrite Hs0 in Hfresh. cbn in Hfresh.
           now rewrite String.eqb_refl in Hfresh.
        -- intros r' s Hr' Hkey. apply in_or_app. apply in_app_or in Hr'.
           destruct Hr' as [Hr' | [<- | []]].
           ++ left. now apply (Hhas r' s).
           ++ right. left. exact Hkey.
Qed.

Lemma group_find_add_same (s : string) (o : option num)
      (g : list (pyval * list (option num))) :
  group_find pyval_eqb (PStr s) (group_add pyval_eqb (PStr s) o g)
  = Some (match group_find pyval_eqb (PStr s) g with
          | Some vs => vs
          | None => []
          end ++ [o])%list.
Proof.
  induction g as [| [k x] g IH]; cbn [group_add group_find].
  - cbn. now rewrite String.eqb_refl.
  - destruct (pyval_eqb k (PStr s)) eqn:E; cbn [group_find]; rewrite E;
      [reflexivity | exact IH].
Qed.

Lemma group_find_add_other (k : pyval) (s : string) (o : option num)
      (g : list (pyval * list (option num))) :
  pyval_eqb k (PStr s) = false ->
  group_find pyval_eqb (PStr s) (group_add pyval_eqb k o g)
  = group_find pyval_eqb (PStr s) g.
Proof.
  intros Hk. induction g as [| [k' x] g IH]; cbn [group_add group_find].
  - now rewrite Hk.
  - destruct (pyval_eqb k' k) eqn:E; cbn [group_find].
    + destruct (pyval_eqb k' (PStr s)) eqn:E'; [| reflexivity].
      apply pyval_eqb_text in E'. subst k'.
      destruct k; cbn in E, Hk; try discriminate.
      apply String.eqb_eq in E. subst. now rewrite String.eqb_refl in Hk.
    + now rewrite IH.
Qed.

Lemma filter_none {A} (p : A -> bool) (l : list A) :
  existsb p l = false -> filter p l = [].
Proof.
  induction l as [| a l IH]; [reflexivity|].
  cbn. intros Ex. apply orb_false_iff in Ex. destruct Ex as [-> Ex].
  now apply IH.
Qed.

(** The group of a text key: the emissions of the records with that key,
    in ledger order; no group when no record has the key. *)
Lemma groups_of_find (column s : string) (l : list row) :
  group_find pyval_eqb (PStr s) (groups_of column l)
  = if existsb (with_key column (PStr s)) l
    then Some (map emission_of (filter (with_key column (PStr s)) l))
    else None.
Proof.
  induction l as [| r l IH] using rev_ind; [reflexivity|].
  rewrite groups_of_snoc, existsb_app, filter_app. unfold group_step.
  cbn [fst snd existsb filter]. unfold with_key at 2 4.
  destruct (pyval_eqb (row_get r column) (PStr s)) eqn:E.
  - apply pyval_eqb_text in E. rewrite E. cbn [isna].
    rewrite group_find_add_same, IH, orb_true_r, map_app. cbn [map].
    destruct (existsb (with_key column (PStr s)) l) eqn:Ex; [reflexivity|].
    now rewrite (filter_none _ _ Ex).
  - rewrite orb_false_r, app_nil_r.
    destruct (isna (row_get r column)); [exact IH|].
    now rewrite group_find_add_other.
Qed.

Lemma group_find_In {V} (s : string) (v : V) (g : list (pyval * V)) :
  NoDup (map fst g) -> In (PStr s, v) g ->
  group_find pyval_eqb (PStr s) g = Some v.
Proof.
  induction g as [| [k x] g IH]; cbn [map fst group_find]; [contradiction|].
  intros Hnd Hin. inversion Hnd as [| ? ? Hk Hnd']; subst.
  destruct Hin as [E | Hin].
  - inversion E; subst. cbn. now rewrite String.eqb_refl.
  - destruct (pyval_eqb k (PStr s)) eqn:E.
    + apply pyval_eqb_text in E. subst k. exfalso. apply Hk.
      exact (in_map fst _ _ Hin).
    + now apply IH.
Qed.

Lemma group_find_absent {V} (s : string) (g : list (pyval * V)) :
  ~ In (PStr s) (map fst g) -> group_find pyval_eqb (PStr s) g = None.
Proof.
  induction g as [| [k x] g IH]; cbn [map fst group_find]; [reflexivity|].
  intros Hnot. destruct (pyval_eqb k (PStr s)) eqn:E.
  - apply pyval_eqb_text in E. subst k. exfalso. apply Hnot. now left.
  - apply IH. intros Hin. apply Hnot. now right.
Qed.

Lemma group_find_found {V} (s : string) (v : V) (g : list (pyval * V)) :
  group_find pyval_eqb (PStr s) g = Some v -> In (PStr s, v) g.
Proof.
  induction g as [| [k x] g IH]; cbn [group_find]; [discriminate|].
  destruct (pyval_eqb k (PStr s)) eqn:E.
  - apply pyval_eqb_text in E. subst k. intros Hv. inversion Hv. now left.
  - intros Hv. right. now apply IH.
Qed.

(** The values of a group are the emissions of the records with its key. *)
Lemma groups_of_values (key : string) (l : list row) (k : pyval)
      (vs : list (option num)) :
  Forall (fun r => text_cell (row_get r key) = true) l ->
  In (k, vs) (groups_of key l) ->
  vs = map emission_of (filter (with_key key k) l).
Proof.
  intros Htext Hin.
  destruct (groups_of_keys key l Htext) as (Hfrom & Hnd & _).
  destruct (Hfrom k) as (s & r & -> & Hr & Hkey).
  { exact (in_map fst _ _ Hin). }
  pose proof (group_find_In s vs _ Hnd Hin) as Hfind.
  rewrite groups_of_find in Hfind.
  destruct (existsb _ l); [| discriminate]. now inversion Hfind.
Qed.

(** Looking a text key up in a breakdown. *)
Lemma breakdown_of_find (key s : string) (l : list row) :
  Forall (fun r => text_cell (row_get r key) = true) l ->
  group_find pyval_eqb (PStr s) (breakdown_of key l)
  = if existsb (with_key key (PStr s)) l
    then Some (group_sum (map emission_of (filter (with_key key (PStr s)) l)))
    else None.
Proof.
  intros Htext. unfold breakdown_of.
  destruct (groups_of_keys key l Htext) as (_ & Hnd & _).
  pose proof (sort_groups_perm (groups_of key l)) as Hperm.
  assert (Hnd' : NoDup (map fst (sort_groups (groups_of key l)))).
  { apply (Permutation_NoDup (l := map fst (groups_of key l))); [| exact Hnd].
    apply Permutation_map. now symmetry. }
  pose proof (groups_of_find key s l) as Hfind.
  destruct (existsb (with_key key (PStr s)) l).
  - apply group_find_found in Hfind.
    apply (Permutation_in _ (Permutation_sym Hperm)) in Hfind.
    apply group_find_In.
    + now rewrite map_map.
    + apply in_map_iff. eexists. split; [| exact Hfind]. reflexivity.
  - apply group_find_absent. rewrite map_map. cbn [fst].
    intros Hin. apply (Permutation_in _ (Permutation_map fst Hperm)) in Hin.
    apply in_map_iff in Hin. destruct Hin as ([k vs] & Hk & Hin).
    cbn in Hk. subst k.
    rewrite (group_find_In s vs _ Hnd Hin) in Hfind. discriminate.
Qed.

Lemma breakdown_of_keys (key : string) (l : list row) :
  Forall (fun r => text_cell (row_get r key) = true) l ->
  one_group_per_key key l (breakdown_of key l).
Proof.
  intros Htext. unfold one_group_per_key, breakdown_of. cbv zeta.
  rewrite map_map. cbn [fst].
  destruct (groups_of_keys key l Htext) as (Hfrom & Hnd & Hhas).
  pose proof (Permutation_map fst (sort_groups_perm (groups_of key l))) as Hperm.
  split; [| split].
  - intros k Hk. apply (Permutation_in _ Hperm) in Hk.
    destruct (Hfrom k Hk) as (s & r & -> & Hr & Hkey).
    split; [reflexivity|]. now exists r.
  - apply (Permutation_NoDup (Permutation_sym Hperm)). exact Hnd.
  - intros r s Hr Hkey. apply (Permutation_in _ (Permutation_sym Hperm)).
    now apply (Hhas r s).
Qed.

(* ------------------------------------------------------------- *)
(** *** Exact sums *)

Lemma zsum_app (a b : list Z) : zsum (a ++ b) = zsum a + zsum b.
Proof. unfold zsum. induction a as [| x a IH]; cbn; [reflexivity | lia]. Qed.

Lemma zsum_perm (a b : list Z) : Permutation a b -> zsum a = zsum b.
Proof. unfold zsum. induction 1; cbn; lia. Qed.

Lemma present_app {A} (a b : list (option A)) :
  present (a ++ b) = (present a ++ present b)%list.
Proof.
  induction a as [| [x |] a IH]; cbn; [reflexivity | now rewrite IH | exact IH].
Qed.

Lemma exact_sum_app (a b : list num) :
  exact_sum (a ++ b) = exact_sum a + exact_sum b.
Proof. unfold exact_sum. now rewrite map_app, zsum_app. Qed.

Lemma group_add_total {K} (eqb : K -> K -> bool) (k : K) (o : option num)
      (g : list (K * list (option num))) :
  zsum (map (fun x => exact_sum (present (snd x))) (group_add eqb k o g))
  = zsum (map (fun x => exact_sum (present (snd x))) g)
    + exact_sum (present [o]).
Proof.
  induction g as [| [k' vs] g IH]; cbn [group_add map snd zsum fold_right].
  - lia.
  - destruct (eqb k' k); cbn [map snd zsum fold_right].
    + rewrite present_app, exact_sum_app. fold (zsum (map (fun x : K * list (option num) => exact_sum (present (snd x))) g)). lia.
    + fold (zsum (map (fun x : K * list (option num) => exact_sum (present (snd x))) (group_add eqb k o g))).
      fold (zsum (map (fun x : K * list (option num) => exact_sum (present (snd x))) g)).
      rewrite IH. lia.
Qed.

(** The groups partition the records that have the key: the exact sums of
    the groups add up to the exact sum over those records. *)
Lemma groups_of_total (key : string) (l : list row) :
  zsum (map (fun g => exact_sum (present (snd g))) (groups_of key l))
  = exact_sum (present (map emission_of (filter (has_key key) l))).
Proof.
  induction l as [| r l IH] using rev_ind; [reflexivity|].
  rewrite groups_of_snoc, filter_app. unfold group_step. cbn [fst snd filter].
  unfold has_key at 2. destruct (isna (row_get r key)); cbn [negb].
  - now rewrite app_nil_r.
  - now rewrite group_add_total, IH, map_app, present_app, exact_sum_app.
Qed.

Lemma within_groups (tol : Z) (groups : list (pyval * list (option num))) :
  Forall (fun g => within tol (group_sum (snd g)) (snd g)) groups ->
  Z.abs (zsum (map (fun g => n_exact (group_sum (snd g))) groups)
         - zsum (map (fun g => exact_sum (present (snd g))) groups))
  <= tol * Z.of_nat (List.length groups).
Proof.
  induction 1 as [| g groups (_ & _ & Hg) _ IH]; cbn [map zsum fold_right List.length].
  - cbn. lia.
  - fold (zsum (map (fun g => n_exact (group_sum (snd g))) groups)).
    fold (zsum (map (fun g => exact_sum (present (snd g))) groups)).
    lia.
Qed.

Lemma distinct_has (ks : list pyval) (s : string) :
  In (PStr s) ks -> In (PStr s) (distinct ks).
Proof.
  induction ks as [| a ks IH]; [contradiction|].
  cbn [distinct]. intros [-> | Hin]; [now left|].
  destruct (pyval_eqb a (PStr s)) eqn:E.
  - apply pyval_eqb_text in E. now left.
  - right. apply filter_In. split; [now apply IH | now rewrite E].
Qed.

(** The breakdown of a key column adds up, when the sums of pandas are
    within the tolerance. *)
Lemma breakdown_adds_up (tol : Z) (key : string) (l : list row) :
  Forall (fun r => text_cell (row_get r key) = true) l ->
  sums_within tol key l ->
  adds_up tol key l (Series_sum (map emission_of l)) (breakdown_of key l).
Proof.
  intros Htext [(_ & _ & Htotal) Hgroups].
  set (sorted := sort_groups (groups_of key l)).
  assert (Hperm : Permutation sorted (groups_of key l))
    by apply sort_groups_perm.
  assert (Hall : Forall (fun g => within tol (group_sum (snd g)) (snd g)) sorted).
  { apply Forall_forall. intros [k vs] Hin.
    apply (Permutation_in _ Hperm) in Hin.
    pose proof (groups_of_values key l k vs Htext Hin) as Hvs.
    destruct (groups_of_keys key l Htext) as (Hfrom & _ & _).
    destruct (Hfrom k) as (s & r & -> & Hr & Hkey).
    { exact (in_map fst _ _ Hin). }
    rewrite Forall_forall in Hgroups.
    specialize (Hgroups (PStr s)). cbv zeta in Hgroups. cbn [snd].
    rewrite Hvs. apply Hgroups.
    unfold observed_keys. apply distinct_has. apply filter_In.
    split; [| reflexivity]. rewrite <- Hkey.
    now apply (in_map (fun r => row_get r key)). }
  assert (Hsum : exact_total (breakdown_of key l)
                 = zsum (map (fun g => n_exact (group_sum (snd g))) sorted)).
  { unfold exact_total, exact_sum, breakdown_of. fold sorted.
    now rewrite !map_map. }
  assert (Hlen : List.length (breakdown_of key l) = List.length sorted).
  { unfold breakdown_of. fold sorted. apply length_map. }
  assert (Hpart : zsum (map (fun g => exact_sum (present (snd g))) sorted)
                  = exact_sum (present (map emission_of (filter (has_key key) l)))).
  { rewrite <- groups_of_total. apply zsum_perm. now apply Permutation_map. }
  pose proof (within_groups tol sorted Hall) as Hbound.
  unfold adds_up. cbv zeta. rewrite Hsum, Hlen. split.
  - rewrite <- Hpart. exact Hbound.
  - intros Hkeys. rewrite Hpart, filter_all in Hbound by exact Hkeys. lia.
Qed.


End HandlerTheorems.

(* ================================================================= *)
(** ** Runs on concrete ledgers *)

Section ConcreteRuns.
Import DataHandler Runs.
Open Scope string_scope.

(** A quantity of [-5] is accepted: the call returns [True], the ledger
    has one record more, with emissions [-5 * 2.5 = -12.5]; a quantity of
    [0] is refused. *)
Lemma add_emission_entry_negative_accepted_zero_refused :
  fst (add_diesel empty_ledger (PInt (-5))) = true
  /\ df_len (emissions_data (snd (add_diesel empty_ledger (PInt (-5))))) = 1%nat
  /\ df_len (emissions_data empty_ledger) = 0%nat
  /\ map (fun r => row_get r "emissions_kgCO2e")
         (rows (emissions_data (snd (add_diesel empty_ledger (PInt (-5))))))
     = [PFloat (flt (-12.5))]
  /\ fst (add_diesel empty_ledger (PInt 0)) = false
  /\ fst (add_diesel empty_ledger (PFloat (flt 0.0))) = false.
Proof. vm_compute. repeat split; reflexivity. Qed.

(** A start date given alone does not filter: the record of 2024-01-15
    is returned for a start date of 2024-06-01, although it is not among
    the records that satisfy the filters given. *)
Lemma get_filtered_data_start_date_alone_ignored :
  fst (get_filtered_data one_entry (day 2024 6 1) PNone PNone PNone)
  = Ok (emissions_data one_entry)
  /\ List.length (rows (emissions_data one_entry)) = 1%nat
  /\ filter (selected_as_specified (day 2024 6 1) PNone PNone PNone)
            (rows (emissions_data one_entry)) = [].
Proof. vm_compute. repeat split; reflexivity. Qed.



(** C8: on the ledger with one entry, a second call of
    [get_emissions_summary] returns the same summary as the first, but the
    first call has changed the ledger: the frame has a [month] column it
    did not have, and the handler is not the one the call started from. *)
Theorem get_emissions_summary_writes_month_column :
  let first := get_emissions_summary one_entry in
  let second := get_emissions_summary (snd first) in
  fst first
  = Ok (mkSummary (PFloat (flt 250.0))
                  [(PStr "Scope 1", flt 250.0)]
                  [(PStr "Mobile Combustion", flt 250.0)]
                  [(PStr "Scope 1", [(PStr "2024-01", flt 250.0)])])
  /\ fst second = fst first
  /\ columns (emissions_data one_entry)
     = ["date"; "scope"; "category"; "activity"; "quantity"; "unit";
        "emission_factor"; "emissions_kgCO2e"; "notes"]
  /\ columns (emissions_data (snd first))
     = ["date"; "scope"; "category"; "activity"; "quantity"; "unit";
        "emission_factor"; "emissions_kgCO2e"; "notes"; "month"]
  /\ map (fun r => row_get r "month") (rows (emissions_data (snd first)))
     = [PStr "2024-01"]
  /\ snd first <> one_entry.
Proof.
  vm_compute. repeat split; try reflexivity. discriminate.
Qed.

(* ------------------------------------------------------------- *)
(** *** The theorems at concrete inputs *)

Lemma add_emission_entry_validation_at_diesel :
  fst (add_diesel empty_ledger (PInt 0)) = false
  /\ snd (add_diesel empty_ledger (PInt 0)) = empty_ledger
  /\ fst (add_diesel empty_ledger (PInt (-5))) = true
  /\ df_len (emissions_data (snd (add_diesel empty_ledger (PInt (-5))))) = 1%nat.
Proof.
  pose proof (add_emission_entry_validation empty_ledger (day 2024 1 15)
                (PStr "Scope 1") (PStr "Mobile Combustion") (PStr "Diesel")
                (PInt 0) (PStr "liter") (PFloat (flt 2.5)) (PStr ""))
    as (Hfalsy & _ & Hsame & _).
  pose proof (add_emission_entry_validation empty_ledger (day 2024 1 15)
                (PStr "Scope 1") (PStr "Mobile Combustion") (PStr "Diesel")
                (PInt (-5)) (PStr "liter") (PFloat (flt 2.5)) (PStr ""))
    as (_ & Hok & _ & Hlen & _).
  assert (H0 : fst (add_diesel empty_ledger (PInt 0)) = false).
  { apply Hfalsy. do 3 apply Exists_cons_tl. apply Exists_cons_hd.
    reflexivity. }
  assert (H5 : fst (add_diesel empty_ledger (PInt (-5))) = true).
  { apply Hok. split; [reflexivity|].
    exists (flt (-5)), (flt 2.5), (day 2024 1 15).
    repeat split; vm_compute; reflexivity. }
  split; [exact H0|]. split; [exact (Hsame H0)|].
  split; [exact H5 | exact (Hlen H5)].
Defined.

Lemma import_csv_rejects_missing_columns_at_unit :
  fst (import_csv empty_ledger (Ok table_without_unit))
  = (false, "Missing required columns: unit")
  /\ snd (import_csv empty_ledger (Ok table_without_unit)) = empty_ledger.
Proof.
  assert (Hreq : In "unit" (@required)) by (vm_compute; tauto).
  assert (Hmem : mem "unit" (columns table_without_unit) = false)
    by reflexivity.
  destruct (import_csv_rejects_missing_columns empty_ledger table_without_unit
              "unit" Hreq Hmem) as (Hfail & Hsame & Hmsg & _).
  split; [| exact Hsame].
  rewrite (surjective_pairing (fst (import_csv empty_ledger (Ok table_without_unit)))).
  rewrite Hfail, Hmsg. reflexivity.
Defined.

Lemma feqb_self (x : f64) : feqb x x = negb (is_nan x).
Proof.
  destruct x as [s | s | | s m e]; try (destruct s; reflexivity); [reflexivity|].
  unfold feqb, SFeqb, SFcompare.
  destruct s; rewrite Z.compare_refl, Pos.compare_cont_refl; reflexivity.
Qed.


Lemma get_filtered_data_selects_at_one_entry :
  fst (get_filtered_data one_entry (day 2024 1 1) (day 2024 1 31)
                         (PStr "Scope 1") PNone)
  = Ok (emissions_data one_entry)
  /\ fst (get_filtered_data one_entry (day 2024 1 1) (day 2024 1 31)
                            (PStr "Scope 2") PNone)
     = Ok (mkDF (columns (emissions_data one_entry)) []).
Proof.
  assert (Hdates : Forall (fun r => date_cell (row_get r "date") = true)
                          (rows (emissions_data one_entry)))
    by (vm_compute; repeat constructor).
  pose proof (get_filtered_data_selects one_entry (day 2024 1 1)
                (day 2024 1 31) (PStr "Scope 1") PNone
                (Some (day 2024 1 1, day 2024 1 31))
                eq_refl eq_refl eq_refl Hdates eq_refl) as H1.
  pose proof (get_filtered_data_selects one_entry (day 2024 1 1)
                (day 2024 1 31) (PStr "Scope 2") PNone
                (Some (day 2024 1 1, day 2024 1 31))
                eq_refl eq_refl eq_refl Hdates eq_refl) as H2.
  cbv zeta in H1, H2. destruct H1 as [H1 _]. destruct H2 as [H2 _].
  split; [rewrite H1 | rewrite H2]; reflexivity.
Defined.

Lemma three_entries_adds_up :
  sums_within tolerance "scope" (rows (emissions_data three_entries))
  /\ sums_within tolerance "category" (rows (emissions_data three_entries)).
Proof.
  assert (Hle : forall a b : Z, (a <=? b)%Z = true -> (a <= b)%Z)
    by (intros a b; apply Z.leb_le).
  split; (split;
          [| apply Forall_forall; intros k Hk; vm_compute in Hk;
             destruct Hk as [<- | [<- | []]]; cbv zeta]);
    (split; [vm_compute; reflexivity |]);
    (split; [vm_compute; repeat constructor |]);
    apply Hle; vm_compute; reflexivity.
Qed.

(** On the ledger of three entries, where every record has its scope, the
    values of the scope breakdown do not add up to the total exactly: the
    two differ in the last places, by less than the tolerance. *)
Lemma three_entries_sums_differ :
  exists s total,
    fst (get_emissions_summary three_entries) = Ok s
    /\ total_emissions s = PFloat total
    /\ feqb total (flt 1.2462119999999999) = true
    /\ map snd (scope_breakdown s) = [flt 1.082212; flt 0.164]
    /\ 0 < exact_total (scope_breakdown s) - n_exact total < tolerance.
Proof.
  do 2 eexists. split; [vm_compute; reflexivity|].
  split; [reflexivity|]. split; [vm_compute; reflexivity|].
  split; [vm_compute; reflexivity|].
  split; apply Z.ltb_lt; vm_compute; reflexivity.
Qed.


Lemma get_emissions_summary_empty_at_new_ledger :
  get_emissions_summary empty_ledger
  = (Ok (mkSummary (PInt 0) [] [] []), empty_ledger).
Proof. apply get_emissions_summary_empty. reflexivity. Defined.

End ConcreteRuns.

(* ================================================================= *)
(** ** emission_factors.py: lookups and updates *)

Section CatalogTheorems.
Import EmissionFactors.
Open Scope string_scope.

Lemma dict_get_in_keys {V} (k : string) (d : dict V) :
  In k (dict_keys d) <-> exists v, dict_get k d = Some v.
Proof.
  unfold dict_keys. induction d as [| [k' v'] d IH]; cbn [map dict_get fst In].
  - split; [contradiction | intros [v Hv]; discriminate].
  - destruct (String.eqb k k') eqn:E.
    + apply String.eqb_eq in E. subst k'. split; [eauto | now left].
    + apply String.eqb_neq in E. rewrite <- IH. split.
      * intros [Hk | Hk]; [congruence | exact Hk].
      * now right.
Qed.

Lemma dict_keys_set {V} (k : string) (v : V) (d : dict V) :
  dict_keys (dict_set k v d)
  = if mem k (dict_keys d) then dict_keys d else (dict_keys d ++ [k])%list.
Proof.
  unfold dict_keys, mem.
  induction d as [| [k' v'] d IH]; cbn [dict_set map fst existsb app].
  - reflexivity.
  - destruct (String.eqb k k') eqn:E; cbn [map fst orb].
    + reflexivity.
    + rewrite IH. now destruct (existsb (String.eqb k) (map fst d)).
Qed.

Lemma mem_In (k : string) (l : list string) : mem k l = true <-> In k l.
Proof.
  unfold mem. rewrite existsb_exists. split.
  - intros (x & Hx & E). apply String.eqb_eq in E. now subst.
  - intros Hk. exists k. split; [exact Hk | apply String.eqb_refl].
Qed.

Lemma unique_keys_set {V} (k : string) (v : V) (d : dict V) :
  unique_keys d -> unique_keys (dict_set k v d).
Proof.
  unfold unique_keys. intros Hd. rewrite dict_keys_set.
  destruct (mem k (dict_keys d)) eqn:E; [exact Hd|].
  apply NoDup_app; [exact Hd | repeat constructor; intros [] |].
  intros x Hx [<- | []]. apply mem_In in Hx. congruence.
Qed.

Lemma dict_set_In {V} (k : string) (v w : V) (k' : string) (d : dict V) :
  In (k', w) (dict_set k v d) -> In (k', w) d \/ (k' = k /\ w = v).
Proof.
  induction d as [| [k0 v0] d IH]; cbn [dict_set In].
  - intros [E | []]. inversion E. now right.
  - destruct (String.eqb k k0) eqn:Ek; cbn [In].
    + apply String.eqb_eq in Ek. subst k0.
      intros [E | Hin]; [inversion E; now right | left; now right].
    + intros [E | Hin]; [left; now left |].
      destruct (IH Hin) as [Hd | Hd]; [left; now right | now right].
Qed.

(** X1: an activity is listed by [get_activities] exactly when
    [get_emission_factor] finds it, [get_unit] then gives the unit of the
    entry found, and an unknown category has no activity, factor or unit. *)
Theorem get_activities_lists_the_resolving_names :
  (forall (FACTORS : catalog) (category activity : string),
      In activity (get_activities FACTORS category)
      <-> exists e, get_emission_factor FACTORS category activity = Some e
                    /\ get_unit FACTORS category activity = Some (unit e))
  /\ (forall (FACTORS : catalog) (category activity : string),
         ~ In category (dict_keys FACTORS) ->
         get_activities FACTORS category = []
         /\ get_emission_factor FACTORS category activity = None
         /\ get_unit FACTORS category activity = None).
Proof.
  split.
  - intros FACTORS category activity.
    unfold get_activities, get_unit, get_emission_factor.
    rewrite dict_get_in_keys. split.
    + intros [e He]. exists e. now rewrite He.
    + intros (e & He & _). now exists e.
  - intros FACTORS category activity Hno.
    unfold get_activities, get_unit, get_emission_factor.
    destruct (dict_get category FACTORS) as [acts |] eqn:E.
    + exfalso. apply Hno. apply dict_get_in_keys. now exists acts.
    + now cbn.
Qed.

Lemma update_lookup (FACTORS : catalog) (category activity : string)
      (new_factor : f64) (new_unit : option string) :
  get_emission_factor
    (update_emission_factor FACTORS category activity new_factor new_unit)
    category activity
  = Some (mkEF new_factor (stored_unit FACTORS category activity new_unit)).
Proof.
  unfold get_emission_factor, update_emission_factor, stored_unit.
  rewrite !dict_get_set_same. unfold get_emission_factor.
  destruct new_unit as [[| c u] |]; reflexivity.
Qed.

(** X2: after [update_emission_factor] the pair resolves to the new
    factor, with the unit given, or, when none (or an empty one) is given,
    the unit the entry had, or ["unit"] for a new entry; and
    [calculate_emission] on the pair no longer raises but returns the new
    factor times the amount, rounded. *)
Theorem update_emission_factor_then_lookup
        (FACTORS : catalog) (category activity : string)
        (new_factor : f64) (new_unit : option string) (amount : f64) :
  let FACTORS' :=
    update_emission_factor FACTORS category activity new_factor new_unit in
  get_emission_factor FACTORS' category activity
  = Some (mkEF new_factor (stored_unit FACTORS category activity new_unit))
  /\ (forall u, new_unit = Some u -> u <> "" ->
                get_unit FACTORS' category activity = Some u)
  /\ (new_unit = None \/ new_unit = Some "" ->
      get_unit FACTORS' category activity
      = match get_unit FACTORS category activity with
        | Some u => Some u
        | None => Some "unit"
        end)
  /\ calculate_emission FACTORS' category activity amount
     = Ok (round (fmul new_factor amount) 4)
  /\ In activity (get_activities FACTORS' category).
Proof.
  cbv zeta. pose proof (update_lookup FACTORS category activity new_factor
                                      new_unit) as Hl.
  split; [exact Hl|]. split; [| split; [| split]].
  - intros u -> Hu. unfold get_unit. rewrite Hl. cbn.
    destruct u; [contradiction | reflexivity].
  - intros Hnone. unfold get_unit at 1. rewrite Hl. cbn [unit].
    unfold stored_unit, get_unit.
    destruct Hnone as [-> | ->];
      now destruct (get_emission_factor FACTORS category activity).
  - unfold calculate_emission. now rewrite Hl.
  - unfold get_activities. apply dict_get_in_keys.
    unfold get_emission_factor in Hl. eauto.
Qed.

(** X3: [update_emission_factor] changes one pair only: every other
    (category, activity) pair resolves as before, so [calculate_emission]
    returns or raises on it as before. *)
Theorem update_emission_factor_leaves_other_pairs
        (FACTORS : catalog) (category activity : string)
        (new_factor : f64) (new_unit : option string)
        (category' activity' : string) (amount : f64) :
  category' <> category \/ activity' <> activity ->
  let FACTORS' :=
    update_emission_factor FACTORS category activity new_factor new_unit in
  get_emission_factor FACTORS' category' activity'
  = get_emission_factor FACTORS category' activity'
  /\ get_unit FACTORS' category' activity' = get_unit FACTORS category' activity'
  /\ calculate_emission FACTORS' category' activity' amount
     = calculate_emission FACTORS category' activity' amount.
Proof.
  intros Hother. cbv zeta.
  assert (Hl : get_emission_factor
                 (update_emission_factor FACTORS category activity new_factor
                                         new_unit) category' activity'
               = get_emission_factor FACTORS category' activity').
  { unfold get_emission_factor, update_emission_factor.
    destruct (String.eqb category' category) eqn:Ec.
    - apply String.eqb_eq in Ec. subst category'.
      destruct Hother as [Hc | Ha]; [contradiction|].
      rewrite dict_get_set_same.
      apply dict_get_set_other. now apply String.eqb_neq.
    - now rewrite dict_get_set_other. }
  split; [exact Hl|]. split.
  - unfold get_unit. now rewrite Hl.
  - unfold calculate_emission. now rewrite Hl.
Qed.

(** X4: [update_emission_factor] keeps the catalog a dict of dicts (no
    key twice) and keeps the order of what was there: the categories and
    the activities of the category are as before, with the new name added
    last when it was not there. *)
Theorem update_emission_factor_keeps_order
        (FACTORS : catalog) (category activity : string)
        (new_factor : f64) (new_unit : option string) :
  well_formed FACTORS ->
  let FACTORS' :=
    update_emission_factor FACTORS category activity new_factor new_unit in
  well_formed FACTORS'
  /\ dict_keys FACTORS'
     = (if mem category (dict_keys FACTORS) then dict_keys FACTORS
        else dict_keys FACTORS ++ [category])%list
  /\ get_activities FACTORS' category
     = (if mem activity (get_activities FACTORS category)
        then get_activities FACTORS category
        else get_activities FACTORS category ++ [activity])%list
  /\ (forall category', category' <> category ->
                        get_activities FACTORS' category'
                        = get_activities FACTORS category').
Proof.
  intros [Hcats Hacts]. cbv zeta. unfold update_emission_factor.
  fold (activities_of FACTORS category).
  set (entry := mkEF new_factor _).
  split; [| split; [| split]].
  - split; [now apply unique_keys_set|].
    apply Forall_forall. intros [c acts] Hin. cbn [snd].
    apply dict_set_In in Hin. destruct Hin as [Hin | [_ ->]].
    + rewrite Forall_forall in Hacts. apply (Hacts _ Hin).
    + apply unique_keys_set. unfold activities_of.
      destruct (dict_get category FACTORS) as [acts0 |] eqn:Eg;
        [| constructor].
      rewrite Forall_forall in Hacts.
      assert (Hin0 : In (category, acts0) FACTORS).
      { clear - Eg. induction FACTORS as [| [k v] F IH]; [discriminate|].
        cbn in Eg. destruct (String.eqb category k) eqn:Ek.
        - apply String.eqb_eq in Ek. inversion Eg; subst. now left.
        - right. now apply IH. }
      apply (Hacts _ Hin0).
  - apply dict_keys_set.
  - unfold get_activities. rewrite dict_get_set_same.
    fold (activities_of FACTORS category). apply dict_keys_set.
  - intros category' Hne. unfold get_activities.
    rewrite dict_get_set_other by now apply String.eqb_neq. reflexivity.
Qed.

Lemma update_as_set (FACTORS : catalog) (category activity : string)
      (new_factor : f64) (new_unit : option string) :
  update_emission_factor FACTORS category activity new_factor new_unit
  = dict_set category
      (dict_set activity
         (mkEF new_factor (stored_unit FACTORS category activity new_unit))
         (activities_of FACTORS category))
      FACTORS.
Proof.
  unfold update_emission_factor, stored_unit, get_emission_factor, activities_of.
  destruct new_unit as [[| c u] |]; reflexivity.
Qed.

Lemma update_twice (FACTORS : catalog) (category activity : string)
      (f1 f2 : f64) (u1 u2 : option string) :
  update_emission_factor
    (update_emission_factor FACTORS category activity f1 u1)
    category activity f2 u2
  = dict_set category
      (dict_set activity
         (mkEF f2 (match u2 with
                   | Some (String c u) => String c u
                   | _ => stored_unit FACTORS category activity u1
                   end))
         (activities_of FACTORS category))
      FACTORS.
Proof.
  rewrite (update_as_set (update_emission_factor _ _ _ _ _)).
  unfold stored_unit at 1. rewrite update_lookup. cbn [unit].
  unfold activities_of at 1. rewrite update_as_set.
  rewrite dict_get_set_same, !dict_set_twice.
  now destruct u2 as [[| c u] |].
Qed.

(** X5: updating the same pair again: a later call with a unit replaces
    the earlier one as if the earlier had not been made, the same call
    twice is the same as once, and a later call without a unit changes the
    factor and keeps the unit the earlier call stored. *)
Theorem update_emission_factor_last_write_wins
        (FACTORS : catalog) (category activity : string)
        (f1 f2 : f64) (u1 : option string) (u2 : string) :
  u2 <> "" ->
  update_emission_factor
    (update_emission_factor FACTORS category activity f1 u1)
    category activity f2 (Some u2)
  = update_emission_factor FACTORS category activity f2 (Some u2)
  /\ update_emission_factor
       (update_emission_factor FACTORS category activity f1 u1)
       category activity f1 u1
     = update_emission_factor FACTORS category activity f1 u1
  /\ get_emission_factor
       (update_emission_factor
          (update_emission_factor FACTORS category activity f1 u1)
          category activity f2 None)
       category activity
     = Some (mkEF f2 (stored_unit FACTORS category activity u1)).
Proof.
  intros Hu2. split; [| split].
  - rewrite update_twice, update_as_set.
    destruct u2 as [| c u]; [contradiction | reflexivity].
  - rewrite update_twice, update_as_set.
    now destruct u1 as [[| c u] |].
  - rewrite update_lookup. unfold stored_unit at 1.
    now rewrite update_lookup.
Qed.

End CatalogTheorems.

(* ================================================================= *)
(** ** emission_factors.py: sums, signs and the search *)

Section CatalogSums.
Import EmissionFactors.
Open Scope string_scope.

Lemma resolved_emissions_resolving (FACTORS : catalog) (usage_dict : usage) :
  resolved_emissions FACTORS (resolving_usage FACTORS usage_dict)
  = resolved_emissions FACTORS usage_dict.
Proof.
  unfold resolved_emissions, resolving_usage.
  induction usage_dict as [| [category acts] rest IH]; [reflexivity|].
  cbn [map flat_map fst snd]. rewrite IH. f_equal.
  induction acts as [| [act amt] acts IHa]; [reflexivity|].
  cbn [filter flat_map fst snd].
  destruct (get_emission_factor FACTORS category act) as [e |] eqn:E.
  - cbn [flat_map fst snd]. rewrite E. now rewrite IHa.
  - exact IHa.
Qed.

Lemma total_emission_by_scope_value (FACTORS : catalog) (scope : string)
      (usage_dict : usage) :
  total_emission_by_scope FACTORS scope usage_dict
  = Ok (round (float_sum (resolved_emissions FACTORS usage_dict)) 4).
Proof.
  unfold total_emission_by_scope, float_sum.
  now rewrite fold_add_category.
Qed.

(** X6: [total_emission_by_scope] never raises on an unknown pair: the
    result is the one for the usage map without its unresolved activities;
    a usage map with no resolving pair, the empty one included, gives
    [0.0]. *)
Theorem total_emission_by_scope_skips_unresolved
        (FACTORS : catalog) (scope : string) (usage_dict : usage) :
  total_emission_by_scope FACTORS scope usage_dict
  = total_emission_by_scope FACTORS scope (resolving_usage FACTORS usage_dict)
  /\ total_emission_by_scope FACTORS scope [] = Ok fzero
  /\ ((forall category acts act amount,
          In (category, acts) usage_dict -> In (act, amount) acts ->
          get_emission_factor FACTORS category act = None) ->
      total_emission_by_scope FACTORS scope usage_dict = Ok fzero).
Proof.
  split; [| split].
  - now rewrite !total_emission_by_scope_value, resolved_emissions_resolving.
  - reflexivity.
  - intros Hnone. rewrite total_emission_by_scope_value.
    replace (resolved_emissions FACTORS usage_dict) with (@nil f64);
      [reflexivity|].
    symmetry. unfold resolved_emissions.
    induction usage_dict as [| [category acts] rest IH]; [reflexivity|].
    cbn [flat_map fst snd]. rewrite IH.
    + rewrite app_nil_r.
      assert (Hacts : forall act amount, In (act, amount) acts ->
                        get_emission_factor FACTORS category act = None).
      { intros act amount Hin. apply (Hnone category acts act amount);
          [now left | exact Hin]. }
      clear - Hacts. induction acts as [| [act amt] acts IHa]; [reflexivity|].
      cbn [flat_map fst snd]. rewrite (Hacts act amt) by now left.
      apply IHa. intros a m Hin. apply (Hacts a m). now right.
    + intros c l a m Hin. apply (Hnone c l a m). now right.
Qed.

Lemma binary_round_aux_neg (s : bool) (m e : Z) (l : location) :
  SFopp (binary_round_aux prec emax s m e l)
  = binary_round_aux prec emax (negb s) m e l.
Proof.
  unfold binary_round_aux.
  destruct (shr_fexp prec emax m e l) as [mrs e'].
  destruct (shr_fexp prec emax _ e' loc_Exact) as [mrs' e''].
  destruct (shr_m mrs'); cbn [SFopp]; try reflexivity.
  now destruct (Z.leb e'' (emax - prec)).
Qed.

Lemma fmul_neg (x y : f64) : fmul x (fneg y) = fneg (fmul x y).
Proof.
  unfold fmul, fneg.
  destruct x as [sx | sx | | sx mx ex], y as [sy | sy | | sy my ey];
    cbn [SFmul SFopp]; try reflexivity;
    rewrite ?binary_round_aux_neg; now destruct sx, sy.
Qed.

Lemma round_neg (x : f64) (ndigits : nat) :
  round (fneg x) ndigits = fneg (round x ndigits).
Proof.
  unfold fneg. destruct x as [s | s | | s m e]; cbn [SFopp round]; try reflexivity.
  destruct (NDIGITS_MAX <? ndigits)%nat; [reflexivity|]. cbv zeta.
  destruct (round_half_even _ _) as [| k | k]; cbn [SFopp]; try reflexivity.
  unfold fdiv. cbn [SFdiv].
  destruct (SFdiv_core_binary prec emax _ _ _ _) as [[mz ez] lz].
  rewrite binary_round_aux_neg. now destruct s.
Qed.

(** X7: [calculate_emission] does not look at the sign of the amount: a
    negative amount is not rejected, and the emission of [-x] is the
    negative of the emission of [x]. *)
Theorem calculate_emission_odd_in_amount
        (FACTORS : catalog) (category activity : string) (amount : f64) :
  calculate_emission FACTORS category activity (fneg amount)
  = match calculate_emission FACTORS category activity amount with
    | Ok v => Ok (fneg v)
    | Raise e => Raise e
    end.
Proof.
  unfold calculate_emission.
  destruct (get_emission_factor FACTORS category activity) as [e |];
    [| reflexivity].
  now rewrite fmul_neg, round_neg.
Qed.

End CatalogSums.

Section SearchTheorems.
Import EmissionFactors CatalogSearch.
Open Scope string_scope.

Lemma startswith_spec (k s : string) :
  startswith k s = true <-> exists post, s = k ++ post.
Proof.
  revert s. induction k as [| a k IH]; intros s; cbn [startswith].
  - split; [intros _; now exists s | reflexivity].
  - destruct s as [| b s].
    + split; [discriminate | intros [post Hp]; discriminate].
    + rewrite andb_true_iff, IH. split.
      * intros [Hab [post ->]]. apply Ascii.eqb_eq in Hab. subst b.
        now exists post.
      * intros [post Hp]. cbn in Hp. inversion Hp; subst.
        split; [apply Ascii.eqb_refl | now exists post].
Qed.

Lemma contains_spec (k s : string) :
  contains k s = true <-> exists pre post, s = pre ++ k ++ post.
Proof.
  induction s as [| b s IH]; cbn [contains].
  - rewrite orb_false_r, startswith_spec. split.
    + intros [post Hp]. now exists "", post.
    + intros (pre & post & Hp). destruct pre; [now exists post | discriminate].
  - rewrite orb_true_iff, startswith_spec, IH. split.
    + intros [[post Hp] | (pre & post & ->)].
      * now exists "", post.
      * now exists (String b pre), post.
    + intros (pre & post & Hp). destruct pre as [| c pre].
      * left. now exists post.
      * right. cbn in Hp. inversion Hp; subst. now exists pre, post.
Qed.

Lemma contains_empty (s : string) : contains "" s = true.
Proof. destruct s; reflexivity. Qed.

Lemma lower_char_twice (c : ascii) : lower_char (lower_char c) = lower_char c.
Proof. destruct c as [[] [] [] [] [] [] [] []]; reflexivity. Qed.

Lemma lower_twice (s : string) : lower (lower s) = lower s.
Proof.
  induction s as [| c s IH]; cbn [lower]; [reflexivity|].
  now rewrite lower_char_twice, IH.
Qed.

Lemma dict_get_unique {V} (k : string) (v : V) (d : dict V) :
  unique_keys d -> In (k, v) d -> dict_get k d = Some v.
Proof.
  unfold unique_keys, dict_keys.
  induction d as [| [k' v'] d IH]; intros Hu Hin; [contradiction|].
  cbn [map fst] in Hu. inversion Hu as [| ? ? Hnotin Hu']; subst.
  cbn [dict_get]. destruct Hin as [E | Hin].
  - inversion E; subst. now rewrite String.eqb_refl.
  - destruct (String.eqb k k') eqn:Ek.
    + apply String.eqb_eq in Ek. subst k'. exfalso. apply Hnotin.
      apply (in_map fst) in Hin. exact Hin.
    + now apply IH.
Qed.

Lemma fold_search_step (keyword cat : string) (acts l : dict EmissionFactor)
      (results : list hit) :
  (forall a e, In (a, e) l -> dict_get a acts = Some e) ->
  fold_left (search_step keyword cat acts) (dict_keys l) results
  = (results
     ++ filter (fun h => contains keyword (lower (hit_activity h)))
               (map (hit_of cat) l))%list.
Proof.
  revert results. induction l as [| [a e] l IH]; intros results Hget.
  - cbn. now rewrite app_nil_r.
  - cbn [dict_keys map fst fold_left filter].
    unfold search_step at 2. rewrite (Hget a e) by now left.
    change (hit_activity (hit_of cat (a, e))) with a.
    unfold dict_keys in IH.
    destruct (contains keyword (lower a)).
    + rewrite IH by (intros a' e' Hin; apply Hget; now right).
      now rewrite <- app_assoc.
    + apply IH. intros a' e' Hin. apply Hget. now right.
Qed.

Lemma fold_search_category (keyword : string) (FACTORS : catalog)
      (results : list hit) :
  Forall (fun item : string * dict EmissionFactor => unique_keys (snd item))
         FACTORS ->
  fold_left (search_category keyword) FACTORS results
  = (results
     ++ filter (fun h => contains keyword (lower (hit_activity h)))
               (entries FACTORS))%list.
Proof.
  revert results. induction FACTORS as [| [cat acts] F IH]; intros results Hu.
  - cbn. now rewrite app_nil_r.
  - inversion Hu as [| ? ? Hacts Hrest]; subst. cbn [snd] in Hacts.
    cbn [fold_left]. unfold search_category at 2. cbn [fst snd].
    rewrite fold_search_step
      by (intros a e Hin; now apply dict_get_unique).
    rewrite (IH _ Hrest). unfold entries. cbn [flat_map fst snd].
    rewrite filter_app, <- app_assoc. reflexivity.
Qed.

(** X8: [search_activity] returns, in catalog order, exactly the entries
    whose activity name, in lower case, contains the keyword in lower case:
    the case of the keyword does not matter, the empty keyword returns every
    entry, and a result's factor and unit are those of its entry. *)
Theorem search_activity_finds_the_matching_entries
        (FACTORS : catalog) (keyword : string) :
  well_formed FACTORS ->
  search_activity FACTORS keyword
  = filter (fun h => contains (lower keyword) (lower (hit_activity h)))
           (entries FACTORS)
  /\ (forall h,
         In h (search_activity FACTORS keyword)
         <-> In h (entries FACTORS)
             /\ exists pre post,
                 lower (hit_activity h) = pre ++ lower keyword ++ post)
  /\ search_activity FACTORS "" = entries FACTORS
  /\ search_activity FACTORS (lower keyword) = search_activity FACTORS keyword
  /\ (forall cat act f u,
         In (cat, act, f, u) (search_activity FACTORS keyword) ->
         get_emission_factor FACTORS cat act = Some (mkEF f u)).
Proof.
  intros [Hcats Hacts].
  assert (Hsearch : forall k,
             search_activity FACTORS k
             = filter (fun h => contains (lower k) (lower (hit_activity h)))
                      (entries FACTORS)).
  { intros k. unfold search_activity. cbv zeta.
    now rewrite fold_search_category. }
  split; [apply Hsearch|]. split; [| split; [| split]].
  - intros h. rewrite Hsearch, filter_In, contains_spec. reflexivity.
  - rewrite Hsearch. cbn [lower]. apply filter_all.
    apply Forall_forall. intros h _. apply contains_empty.
  - now rewrite !Hsearch, lower_twice.
  - intros cat act f u Hin. rewrite Hsearch in Hin.
    apply filter_In in Hin. destruct Hin as [Hin _].
    unfold entries in Hin. apply in_flat_map in Hin.
    destruct Hin as ([cat' acts] & Hitem & Hin). cbn [fst snd] in Hin.
    apply in_map_iff in Hin. destruct Hin as ([a e] & Heq & Hae).
    cbn [fst snd] in Heq. inversion Heq; subst.
    unfold get_emission_factor.
    rewrite (dict_get_unique cat acts FACTORS Hcats Hitem).
    rewrite Forall_forall in Hacts.
    rewrite (dict_get_unique act e acts (Hacts _ Hitem) Hae).
    now destruct e.
Qed.

End SearchTheorems.

(* ================================================================= *)
(** ** data_handler.py: the ledgers a program reaches *)

Section ReachableLedgers.
Context {num : Type} `{PyNumeric num} `{PandasSums num} `{PandasDates num}.
Import DataHandler.
Open Scope string_scope.

Local Abbreviation pyval := (pyval num).
Local Abbreviation row := (row num).
Local Abbreviation DataFrame := (DataFrame num).

Lemma mem_concat_l (c : string) (a b : list string) :
  mem c a = true -> mem c (a ++ b) = true.
Proof. intros Hm. unfold mem in *. now rewrite existsb_app, Hm. Qed.

Lemma pd_Timestamp_date (v d : pyval) :
  parsers_give_dates -> pd_Timestamp v = Ok d -> date_cell d = true.
Proof.
  intros [Hts _] Hd. destruct v; cbn in Hd;
    try (inversion Hd; reflexivity); now apply Hts in Hd.
Qed.

Lemma pd_to_datetime_date (v : pyval) :
  parsers_give_dates -> date_cell (value_or PNone (pd_to_datetime v)) = true.
Proof.
  intros [_ Hdt]. destruct v; cbn; try reflexivity;
    match goal with
    | |- context [to_datetime_parse ?x] =>
        destruct (to_datetime_parse x) eqn:E; cbn; [now apply Hdt in E | reflexivity]
    end.
Qed.

Lemma invariant_columns_grow (df : DataFrame) (cols' : list string)
      (new : list row) :
  (forall c, mem c (columns df) = true -> mem c cols' = true) ->
  Forall (fun r => emission_cell (row_get r "emissions_kgCO2e") = true) new ->
  Forall (fun r => date_cell (row_get r "date") = true) new ->
  Forall derived_emissions new ->
  ledger_invariant df ->
  ledger_invariant (mkDF cols' (rows df ++ new)).
Proof.
  intros Hcols He Hd Hder (Hnine & (T1 & T2 & T3 & T4 & T5 & T6) & Hall).
  unfold ledger_invariant, typed_ledger. cbn [columns rows].
  repeat split; auto using Forall_app.
  - eapply Forall_impl; [| exact Hnine]. intros c. apply Hcols.
  - apply Forall_app. now split.
  - apply Forall_app. now split.
  - apply Forall_app. now split.
Qed.

Lemma add_emission_entry_keeps_invariant
      (self : DataHandler)
      (date scope category activity quantity unit emission_factor notes : pyval) :
  parsers_give_dates ->
  ledger_invariant (emissions_data self) ->
  ledger_invariant
    (emissions_data (snd (add_emission_entry self date scope category activity
                            quantity unit emission_factor notes))).
Proof.
  intros Hp Hinv.
  destruct (add_emission_entry_cases self date scope category activity
              quantity unit emission_factor notes) as [Hok | Hfail];
    [| now rewrite Hfail].
  pose proof (add_emission_entry_appends self date scope category activity
                quantity unit emission_factor notes Hok)
    as (q & f & d & Hq & Hf & Hd & Hrows).
  revert Hrows Hok. unfold add_emission_entry, add_emission_entry_try.
  destruct (all _); cbn [bind negb]; [| discriminate].
  rewrite Hq, Hf, Hd. cbn [bind snd fst emissions_data pd_concat rows].
  intros _ _. apply invariant_columns_grow; try exact Hinv.
  - intros c Hc. cbn [columns]. now apply mem_concat_l.
  - repeat constructor.
  - constructor; [| constructor]. cbn. now apply (pd_Timestamp_date date).
  - constructor; [| constructor]. now exists q, f.
Qed.

Lemma imported_row_cells (with_notes : bool) (r : row) :
  row_get (imported_row with_notes r) "date"
  = value_or PNone (pd_to_datetime (row_get r "date"))
  /\ emission_cell (row_get (imported_row with_notes r) "emissions_kgCO2e") = true.
Proof.
  unfold imported_row. destruct with_notes;
    rewrite ?(row_get_set_other "notes") by reflexivity;
    rewrite ?(row_get_set_other "emissions_kgCO2e" "date") by reflexivity;
    rewrite !row_get_set_same; split; reflexivity.
Qed.

Lemma import_csv_keeps_invariant (self : DataHandler) (csv : result DataFrame) :
  parsers_give_dates ->
  ledger_invariant (emissions_data self) ->
  ledger_invariant (emissions_data (snd (import_csv self csv))).
Proof.
  intros Hp Hinv.
  destruct (import_csv_cases self csv) as [Hok | Hfail]; [| now rewrite Hfail].
  pose proof (import_csv_appends self csv Hok) as (df & -> & Hq & Hf & Hrows).
  assert (Hcols : forall c, mem c (columns (emissions_data self)) = true ->
                            mem c (columns (emissions_data
                                     (snd (import_csv self (Ok df))))) = true).
  { revert Hok. unfold import_csv, import_csv_try. cbn [bind].
    destruct (missing_columns df); [| discriminate].
    repeat match goal with
           | |- context [bind ?m _] => destruct m; cbn [bind]; [| discriminate]
           end.
    intros _ c Hc. cbn [snd emissions_data pd_concat columns].
    now apply mem_concat_l. }
  destruct (emissions_data (snd (import_csv self (Ok df)))) as [cols' rows'].
  cbn [rows columns] in *. subst rows'.
  apply invariant_columns_grow; try assumption.
  - rewrite Forall_map. apply Forall_forall. intros r _.
    apply imported_row_cells.
  - rewrite Forall_map. apply Forall_forall. intros r _.
    destruct (imported_row_cells (negb (mem "notes" (columns df))) r) as [-> _].
    now apply pd_to_datetime_date.
  - rewrite Forall_map. rewrite Forall_forall in *. intros r Hr.
    apply imported_row_derived; auto.
Qed.

(** The handler after [get_emissions_summary]: as before, or with the
    month column assigned. *)
Lemma get_emissions_summary_state (self : DataHandler) :
  snd (get_emissions_summary self) = self
  \/ exists g : row -> pyval,
      snd (get_emissions_summary self)
      = mkHandler (df_assign (emissions_data self) "month"
                             (map g (rows (emissions_data self)))).
Proof.
  unfold get_emissions_summary.
  destruct (df_empty (emissions_data self)); [now left|].
  destruct (summary_totals (emissions_data self))
    as [[[[total scope] category] months] | e] eqn:Ht; [| now left].
  right. apply summary_totals_months in Ht. subst months.
  eexists. reflexivity.
Qed.

Lemma derived_emissions_set_month (v : pyval) (r : row) :
  derived_emissions r -> derived_emissions (dict_set "month" v r).
Proof.
  intros (q & f & Hq & Hf & He). exists q, f.
  now rewrite !(row_get_set_other "month") by reflexivity.
Qed.

Lemma month_keeps_invariant (df : DataFrame) (g : row -> pyval) :
  ledger_invariant df ->
  ledger_invariant (df_assign df "month" (map g (rows df))).
Proof.
  intros (Hnine & (T1 & T2 & T3 & T4 & T5 & T6) & Hall).
  unfold ledger_invariant, typed_ledger. rewrite df_assign_rows.
  unfold df_assign. cbn [columns].
  repeat split; try (now apply mem_add_column_other).
  - eapply Forall_impl; [| exact Hnine]. intros c.
    apply mem_add_column_other.
  - rewrite Forall_map. eapply Forall_impl; [| exact T5]. intros r Hr.
    cbv beta. now rewrite row_get_set_other by reflexivity.
  - rewrite Forall_map. eapply Forall_impl; [| exact T6]. intros r Hr.
    cbv beta. now rewrite row_get_set_other by reflexivity.
  - rewrite Forall_map. eapply Forall_impl; [| exact Hall]. intros r.
    apply derived_emissions_set_month.
Qed.

Lemma new_ledger_invariant :
  ledger_invariant (emissions_data create_empty_emissions_data).
Proof.
  unfold ledger_invariant, typed_ledger. cbn.
  repeat split; repeat constructor.
Qed.

Lemma reachable_invariant (self : DataHandler) :
  parsers_give_dates -> reachable self ->
  ledger_invariant (emissions_data self).
Proof.
  intros Hp. induction 1 as [| self ? ? ? ? ? ? ? ? _ IH | self csv _ IH
                             | self _ IH].
  - apply new_ledger_invariant.
  - now apply add_emission_entry_keeps_invariant.
  - now apply import_csv_keeps_invariant.
  - destruct (get_emissions_summary_state self) as [-> | [g ->]];
      [exact IH | now apply month_keeps_invariant].
Qed.

(** X9: on every ledger a program reaches from a new one by
    [add_emission_entry], [import_csv] and [get_emissions_summary], in any
    order and whether the calls succeed or fail, the nine ledger columns are
    present, every emission is a float, every date a timestamp or NaT, and
    every record has [emissions_kgCO2e] equal to the product of its quantity
    and emission factor. *)
Theorem reachable_ledgers_keep_the_invariant (self : DataHandler) :
  parsers_give_dates -> reachable self ->
  Forall (fun c => mem c (columns (emissions_data self)) = true) ledger_columns
  /\ Forall (fun r => emission_cell (row_get r "emissions_kgCO2e") = true
                      /\ date_cell (row_get r "date") = true
                      /\ derived_emissions r)
            (rows (emissions_data self)).
Proof.
  intros Hp Hr.
  destruct (reachable_invariant self Hp Hr)
    as (Hnine & (_ & _ & _ & _ & He & Hd) & Hall).
  split; [exact Hnine|].
  rewrite Forall_forall in *. intros r Hin. auto.
Qed.

(** X10: on a reachable ledger [get_emissions_summary] raises when the
    ledger has records but not a single date: the [.dt] accessor fails with
    [AttributeError], and the handler stays as it was; it returns a summary
    when the scopes and categories are text and some record has a date and
    a scope.  [get_filtered_data] returns the selected records whenever its
    two date arguments convert. *)
Theorem reachable_ledgers_raise_without_dates
        (self : DataHandler) (start_date end_date scope category : pyval)
        (range : option (pyval * pyval)) :
  parsers_give_dates -> reachable self ->
  date_range start_date end_date = Ok range ->
  let ledger := emissions_data self in
  (df_empty ledger = false -> undated ledger ->
   get_emissions_summary self
   = (Raise (AttributeError "Can only use .dt accessor with datetimelike values"),
      self))
  /\ (text_keys ledger -> existsb dated_with_scope (rows ledger) = true ->
      exists s, fst (get_emissions_summary self) = Ok s)
  /\ fst (get_filtered_data self start_date end_date scope category)
     = Ok (mkDF (columns ledger)
                (filter (selected range scope category) (rows ledger))).
Proof.
  intros Hp Hr Hrange ledger. subst ledger.
  destruct (reachable_invariant self Hp Hr) as (Hnine & Htyped & _).
  split; [| split].
  - intros Hne Hun. now apply get_emissions_summary_undated.
  - intros _ Hd.
    assert (Hne : df_empty (emissions_data self) = false).
    { unfold df_empty. destruct Htyped as (He & _).
      destruct (rows (emissions_data self)); [discriminate Hd|].
      destruct (columns (emissions_data self)); [discriminate He | reflexivity]. }
    apply dated_with_scope_dated in Hd.
    destruct (get_emissions_summary_runs self Htyped Hne Hd) as [ts Hrun].
    rewrite Hrun. eexists. reflexivity.
  - destruct Htyped as (_ & Hs & Hc & Hd & _ & Hdates).
    unfold get_filtered_data. cbn [fst].
    rewrite (filter_dates_selects _ _ _ _ Hd Hdates Hrange). cbn [bind].
    rewrite filter_equal_selects by exact Hs. cbn [bind columns rows].
    rewrite filter_equal_selects by exact Hc. cbn [columns rows].
    rewrite !filter_twice. do 2 f_equal. apply filter_ext.
    intros r. unfold selected. now rewrite andb_assoc.
Qed.

End ReachableLedgers.

(* ================================================================= *)
(** ** data_handler.py: how the operations compose *)

Section HandlerComposition.
Context {num : Type} `{PyNumeric num} `{PandasSums num} `{PandasDates num}.
Import DataHandler.
Open Scope string_scope.

Local Abbreviation pyval := (pyval num).
Local Abbreviation row := (row num).
Local Abbreviation DataFrame := (DataFrame num).

Lemma mem_concat_new (c : string) (a b : list string) :
  mem c b = true ->
  mem c (a ++ filter (fun x => negb (mem x a)) b) = true.
Proof.
  intros Hb. destruct (mem c a) eqn:Ha; [now apply mem_concat_l|].
  apply mem_In. apply in_or_app. right.
  apply filter_In. split; [now apply mem_In | now rewrite Ha].
Qed.

Lemma get_filtered_data_value
      (self : DataHandler) (start_date end_date scope category : pyval)
      (range : option (pyval * pyval)) :
  mem "date" (columns (emissions_data self)) = true ->
  mem "scope" (columns (emissions_data self)) = true ->
  mem "category" (columns (emissions_data self)) = true ->
  Forall (fun r => date_cell (row_get r "date") = true)
         (rows (emissions_data self)) ->
  date_range start_date end_date = Ok range ->
  get_filtered_data self start_date end_date scope category
  = (Ok (mkDF (columns (emissions_data self))
              (filter (selected range scope category)
                      (rows (emissions_data self)))),
     self).
Proof.
  intros Hd Hs Hc Hdates Hrange. unfold get_filtered_data.
  rewrite (filter_dates_selects _ _ _ _ Hd Hdates Hrange). cbn [bind].
  rewrite filter_equal_selects by exact Hs. cbn [bind columns rows].
  rewrite filter_equal_selects by exact Hc. cbn [columns rows].
  rewrite !filter_twice. do 3 f_equal. apply filter_ext.
  intros r. unfold selected. now rewrite andb_assoc.
Qed.

(** X11: a record just added is found again: after a successful
    [add_emission_entry] with a text scope and category,
    [get_filtered_data] on that scope and category returns what it returned
    before for them, followed by the new record, whose nine fields are the
    arguments (quantity and factor as floats) and the computed emissions. *)
Theorem add_emission_entry_then_filter
        (self : DataHandler)
        (date activity quantity unit emission_factor notes : pyval)
        (scope category : string) :
  let outcome :=
    add_emission_entry self date (PStr scope) (PStr category) activity
                       quantity unit emission_factor notes in
  fst outcome = true ->
  exists q f d,
    py_float quantity = Ok q /\ py_float emission_factor = Ok f /\
    pd_Timestamp date = Ok d /\
    let r : row :=
      [ ("date", d); ("scope", PStr scope); ("category", PStr category);
        ("activity", activity); ("quantity", PFloat q); ("unit", unit);
        ("emission_factor", PFloat f);
        ("emissions_kgCO2e", PFloat (nmul q f)); ("notes", notes) ] in
    rows (emissions_data (snd outcome)) = (rows (emissions_data self) ++ [r])%list
    /\ fst (get_filtered_data (snd outcome) PNone PNone
                              (PStr scope) (PStr category))
       = Ok (mkDF (columns (emissions_data (snd outcome)))
                  (filter (selected None (PStr scope) (PStr category))
                          (rows (emissions_data self)) ++ [r])%list).
Proof.
  intros outcome Hok. subst outcome.
  pose proof (add_emission_entry_appends self date (PStr scope) (PStr category)
                activity quantity unit emission_factor notes Hok)
    as (q & f & d & Hq & Hf & Hd & Hrows).
  exists q, f, d. split; [exact Hq|]. split; [exact Hf|]. split; [exact Hd|].
  cbv zeta. split; [exact Hrows|].
  assert (Htruthy : truthy (PStr scope : pyval) = true
                    /\ truthy (PStr category : pyval) = true).
  { revert Hok. unfold add_emission_entry, add_emission_entry_try, all.
    cbn [forallb].
    destruct (truthy (PStr scope)); [| discriminate].
    destruct (truthy (PStr category)); [| discriminate]. now split. }
  destruct Htruthy as [Hts Htc].
  assert (Hcols : forall c, mem c ledger_columns = true ->
             mem c (columns (emissions_data
                      (snd (add_emission_entry self date (PStr scope)
                              (PStr category) activity quantity unit
                              emission_factor notes)))) = true).
  { revert Hok. unfold add_emission_entry, add_emission_entry_try.
    destruct (all _); cbn [bind negb]; [| discriminate].
    rewrite Hq, Hf, Hd. cbn [bind snd fst emissions_data pd_concat columns].
    intros _ c Hc. now apply mem_concat_new. }
  unfold get_filtered_data. cbn [fst].
  unfold filter_dates. cbn [truthy andb bind].
  rewrite filter_equal_selects by (apply Hcols; reflexivity).
  cbn [bind columns rows].
  rewrite filter_equal_selects by (apply Hcols; reflexivity).
  cbn [columns rows]. rewrite filter_twice, Hrows, filter_app. do 2 f_equal.
  f_equal. cbn [filter]. unfold field_is. rewrite Hts, Htc.
  unfold row_get. cbn. now rewrite !String.eqb_refl.
Qed.

(** X13: on a ledger the summary can run on, each value of a breakdown
    is the sum pandas computes over the emissions, in ledger order, of
    exactly the records of that scope (category), and a scope (category)
    that no record has gets no entry. *)
Theorem breakdown_values_are_group_sums (self : DataHandler) :
  summarizable (emissions_data self) ->
  exists s,
    fst (get_emissions_summary self) = Ok s
    /\ forall text,
        group_find pyval_eqb (PStr text) (scope_breakdown s)
        = (if existsb (key_is "scope" text) (rows (emissions_data self))
           then Some (group_sum
                        (map emission_of
                             (filter (key_is "scope" text)
                                     (rows (emissions_data self)))))
           else None)
        /\ group_find pyval_eqb (PStr text) (category_breakdown s)
           = (if existsb (key_is "category" text) (rows (emissions_data self))
              then Some (group_sum
                           (map emission_of
                                (filter (key_is "category" text)
                                        (rows (emissions_data self)))))
              else None).
Proof.
  intros (Htyped & [Hscope Hcat] & Hd).
  assert (Hne : df_empty (emissions_data self) = false).
  { unfold df_empty. destruct Htyped as (He & _).
    destruct (rows (emissions_data self)); [discriminate Hd|].
    destruct (columns (emissions_data self)); [discriminate He | reflexivity]. }
  apply dated_with_scope_dated in Hd.
  destruct (get_emissions_summary_runs self Htyped Hne Hd) as [ts Hrun].
  eexists. rewrite Hrun. split; [reflexivity|].
  intros text. cbn [scope_breakdown category_breakdown].
  split; [exact (breakdown_of_find "scope" text _ Hscope)
         | exact (breakdown_of_find "category" text _ Hcat)].
Qed.

Lemma Forall2_map_r {A B} (R : A -> B -> Prop) (f : A -> B) (l : list A) :
  (forall a, R a (f a)) -> Forall2 R l (map f l).
Proof. intros Hf. induction l; cbn; constructor; auto. Qed.

(** X14: [get_emissions_summary] writes the [month] column and nothing
    else: the ledger keeps its records, every cell of every other column
    reads as before, no other column is added or removed; and once it has
    returned a summary, calling it again returns the same summary and leaves
    the handler as the first call left it. *)
Theorem get_emissions_summary_writes_only_month (self : DataHandler) :
  let self' := snd (get_emissions_summary self) in
  Forall2 (fun r r' : row =>
             forall c, c <> "month" -> row_get r' c = row_get r c)
          (rows (emissions_data self)) (rows (emissions_data self'))
  /\ (forall c, c <> "month" ->
                mem c (columns (emissions_data self'))
                = mem c (columns (emissions_data self)))
  /\ (forall s, fst (get_emissions_summary self) = Ok s ->
                get_emissions_summary self' = (Ok s, self')).
Proof.
  cbv zeta. split; [| split].
  - destruct (get_emissions_summary_state self) as [-> | [g ->]].
    + rewrite <- (map_id (rows (emissions_data self))) at 2.
      now apply Forall2_map_r.
    + cbn [emissions_data]. rewrite df_assign_rows.
      apply Forall2_map_r. intros r c Hc.
      apply row_get_set_other. now apply String.eqb_neq.
  - intros c Hc.
    destruct (get_emissions_summary_state self) as [-> | [g ->]];
      [reflexivity|].
    unfold df_assign. cbn [emissions_data columns].
    apply mem_add_column_ne. now apply String.eqb_neq.
  - intros s Hs. apply (get_emissions_summary_again self).
    rewrite (surjective_pairing (get_emissions_summary self)).
    now rewrite Hs.
Qed.

(** X15: filters compose: filtering the result of [get_filtered_data]
    again with the same arguments changes nothing, and filtering by scope
    (and dates) first and by category afterwards gives what one call with
    both gives. *)
Theorem get_filtered_data_composes
        (self : DataHandler) (start_date end_date scope category : pyval)
        (range : option (pyval * pyval)) :
  mem "date" (columns (emissions_data self)) = true ->
  mem "scope" (columns (emissions_data self)) = true ->
  mem "category" (columns (emissions_data self)) = true ->
  Forall (fun r => date_cell (row_get r "date") = true)
         (rows (emissions_data self)) ->
  date_range start_date end_date = Ok range ->
  exists both by_scope,
    fst (get_filtered_data self start_date end_date scope category) = Ok both
    /\ fst (get_filtered_data self start_date end_date scope PNone) = Ok by_scope
    /\ fst (get_filtered_data (mkHandler both) start_date end_date scope category)
       = Ok both
    /\ fst (get_filtered_data (mkHandler by_scope) PNone PNone PNone category)
       = Ok both.
Proof.
  intros Hd Hs Hc Hdates Hrange.
  assert (Hsub : forall p : row -> bool,
             Forall (fun r => date_cell (row_get r "date") = true)
                    (filter p (rows (emissions_data self)))).
  { intros p. rewrite Forall_forall in *. intros r Hr.
    apply filter_In in Hr. now apply Hdates. }
  do 2 eexists.
  rewrite (get_filtered_data_value self _ _ _ _ range Hd Hs Hc Hdates Hrange).
  rewrite (get_filtered_data_value self _ _ _ _ range Hd Hs Hc Hdates Hrange).
  cbn [fst]. split; [reflexivity|]. split; [reflexivity|]. split.
  - rewrite (get_filtered_data_value _ _ _ _ _ range); cbn [emissions_data columns rows];
      try assumption; [| apply Hsub].
    cbn [fst]. rewrite filter_twice. do 2 f_equal. apply filter_ext.
    intros r. now rewrite andb_diag.
  - rewrite (get_filtered_data_value _ _ _ _ _ None); cbn [emissions_data columns rows];
      try assumption; [| apply Hsub | reflexivity].
    cbn [fst]. rewrite filter_twice. do 2 f_equal. apply filter_ext.
    intros r. unfold selected, field_is. cbn [truthy in_range].
    now rewrite !andb_true_r.
Qed.

End HandlerComposition.

(* ================================================================= *)
(** ** data_handler.py: what import_csv accepts and keeps *)

Section ImportTheorems.
Context {num : Type} `{PyNumeric num} `{PandasSums num} `{PandasDates num}.
Import DataHandler.
Open Scope string_scope.

Local Abbreviation pyval := (pyval num).
Local Abbreviation row := (row num).
Local Abbreviation DataFrame := (DataFrame num).

Lemma mapM_all_return {A B} (f : A -> result B) (d : B) (l : list A) :
  Forall (fun a => exists b, f a = Ok b) l ->
  mapM f l = Ok (map (fun a => value_or d (f a)) l).
Proof.
  intros Hall. apply mapM_total. eapply Forall_impl; [| exact Hall].
  intros a [b Hb]. cbv beta. now rewrite Hb.
Qed.

Lemma required_present (df : DataFrame) (c : string) :
  missing_columns df = [] -> In c required -> mem c (columns df) = true.
Proof.
  unfold missing_columns. intros Hm Hc.
  destruct (mem c (columns df)) eqn:E; [reflexivity|].
  assert (Hin : In c (filter (fun c => negb (mem c (columns df))) required)).
  { apply filter_In. split; [exact Hc | now rewrite E]. }
  rewrite Hm in Hin. contradiction.
Qed.

Lemma import_csv_accepts (self : DataHandler) (df : DataFrame) :
  importable df ->
  fst (import_csv self (Ok df))
  = (true, "Successfully imported " ++ str_of_nat (df_len df) ++ " entries.").
Proof.
  intros (Hmiss & Hd & Hq & Hf).
  unfold import_csv, import_csv_try. cbn [bind]. rewrite Hmiss.
  rewrite df_col_present
    by (apply required_present; [exact Hmiss | cbn; tauto]).
  cbn [bind].
  rewrite (mapM_all_return _ PNone) by now rewrite Forall_map.
  cbn [bind]. rewrite map_map.
  rewrite df_col_present
    by (apply mem_add_column_other, required_present;
        [exact Hmiss | cbn; tauto]).
  cbn [bind]. rewrite df_assign_rows.
  rewrite (mapM_all_return _ nzero).
  2:{ rewrite !Forall_map. eapply Forall_impl; [| exact Hq]. intros r Hr.
      cbv beta. now rewrite row_get_set_other by reflexivity. }
  cbn [bind].
  rewrite df_col_present
    by (apply mem_add_column_other, required_present;
        [exact Hmiss | cbn; tauto]).
  cbn [bind]. rewrite df_assign_rows.
  rewrite (mapM_all_return _ nzero).
  2:{ rewrite !Forall_map. eapply Forall_impl; [| exact Hf]. intros r Hr.
      cbv beta. now rewrite row_get_set_other by reflexivity. }
  cbn [bind fst]. f_equal. f_equal. f_equal. f_equal.
  unfold df_len.
  match goal with
  | |- context [if ?b then _ else _] => destruct b
  end; unfold df_assign_scalar, df_assign; cbn [rows];
    repeat first [ rewrite length_map | rewrite length_combine
                 | rewrite Nat.min_id ];
    reflexivity.
Qed.

Lemma import_csv_success_importable (self : DataHandler) (df : DataFrame) :
  fst (fst (import_csv self (Ok df))) = true -> importable df.
Proof.
  intros Hok.
  pose proof (import_csv_appends self (Ok df) Hok) as (df' & E & Hq & Hf & _).
  inversion E; subst df'. clear E.
  revert Hok. unfold import_csv, import_csv_try. cbn [bind].
  destruct (missing_columns df) eqn:Hmiss; [| discriminate].
  destruct (df_col df "date") as [dates |] eqn:Hd; cbn [bind]; [| discriminate].
  apply df_col_cells in Hd. destruct Hd as [_ ->].
  destruct (mapM pd_to_datetime _) as [dates' |] eqn:Hd'; cbn [bind];
    [| discriminate].
  intros _. apply (mapM_returns _ PNone) in Hd'. rewrite Forall_map in Hd'.
  repeat split; try assumption.
  eapply Forall_impl; [| exact Hd']. intros r Hr. cbv beta in Hr. eauto.
Qed.

(** X16: [import_csv] is all or nothing, and what it accepts is known: a
    table is imported, with the message counting its rows, exactly when it
    has every required column and every date, quantity and emission-factor
    cell converts; otherwise, and when [read_csv] itself raised, the call
    returns [False] and the handler is the one it started from. *)
Theorem import_csv_all_or_nothing (self : DataHandler) :
  (forall df : DataFrame,
      (fst (fst (import_csv self (Ok df))) = true <-> importable df)
      /\ (importable df ->
          fst (import_csv self (Ok df))
          = (true,
             "Successfully imported " ++ str_of_nat (df_len df) ++ " entries.")
          /\ df_len (emissions_data (snd (import_csv self (Ok df))))
             = (df_len (emissions_data self) + df_len df)%nat)
      /\ (fst (fst (import_csv self (Ok df))) = false ->
          snd (import_csv self (Ok df)) = self))
  /\ (forall e, import_csv self (Raise e) = ((false, exn_str e), self)).
Proof.
  split; [| reflexivity].
  intros df.
  assert (Hacc : importable df -> fst (fst (import_csv self (Ok df))) = true)
    by (intros Hi; now rewrite (import_csv_accepts self df Hi)).
  split; [| split].
  - split; [apply import_csv_success_importable | exact Hacc].
  - intros Hi. split; [now apply import_csv_accepts|].
    destruct (import_csv_appends self (Ok df) (Hacc Hi))
      as (df' & E & _ & _ & Hrows).
    inversion E; subst df'. unfold df_len. rewrite Hrows.
    now rewrite length_app, length_map.
  - intros Hfail.
    destruct (import_csv_cases self (Ok df)) as [Hok | Hsame];
      [congruence | exact Hsame].
Qed.

(** X17: what a successful [import_csv] stores for a row of the table:
    every cell as the table has it, except the date, which is the parsed
    one, the emissions, which are the computed product whatever the table
    had in such a column, and the notes, which are empty text when the table
    has no notes column; the records the ledger had stay first and
    unchanged, and every column of the ledger stays. *)
Theorem import_csv_keeps_cells (self : DataHandler) (df : DataFrame) :
  fst (fst (import_csv self (Ok df))) = true ->
  exists new,
    rows (emissions_data (snd (import_csv self (Ok df))))
    = (rows (emissions_data self) ++ new)%list
    /\ Forall2
         (fun r r' : row =>
            (forall c, c <> "date" -> c <> "emissions_kgCO2e" -> c <> "notes" ->
                       row_get r' c = row_get r c)
            /\ pd_to_datetime (row_get r "date") = Ok (row_get r' "date")
            /\ (exists q f,
                   astype_float (row_get r "quantity") = Ok q
                   /\ astype_float (row_get r "emission_factor") = Ok f
                   /\ row_get r' "emissions_kgCO2e" = PFloat (nmul q f))
            /\ row_get r' "notes"
               = (if mem "notes" (columns df) then row_get r "notes"
                  else PStr ""))
         (rows df) new
    /\ (forall c, mem c (columns (emissions_data self)) = true ->
                  mem c (columns (emissions_data (snd (import_csv self (Ok df)))))
                  = true).
Proof.
  intros Hok.
  pose proof (import_csv_success_importable self df Hok)
    as (Hmiss & Hd & Hq & Hf).
  pose proof (import_csv_appends self (Ok df) Hok) as (df' & E & _ & _ & Hrows).
  inversion E; subst df'. clear E.
  eexists. split; [exact Hrows|]. split.
  - clear Hrows Hok. induction (rows df) as [| r l IH]; cbn [map]; constructor.
    + inversion Hd as [| ? ? [d Hdr] _]; subst.
      inversion Hq as [| ? ? [q Hqr] _]; subst.
      inversion Hf as [| ? ? [f Hfr] _]; subst.
      unfold imported_row. split; [| split; [| split]].
      * intros c Hc1 Hc2 Hc3.
        apply String.eqb_neq in Hc1, Hc2, Hc3.
        destruct (negb (mem "notes" (columns df)));
          rewrite ?(row_get_set_other "notes") by exact Hc3;
          rewrite (row_get_set_other "emissions_kgCO2e") by exact Hc2;
          rewrite (row_get_set_other "date") by exact Hc1;
          reflexivity.
      * destruct (negb (mem "notes" (columns df)));
          rewrite ?(row_get_set_other "notes") by reflexivity;
          rewrite (row_get_set_other "emissions_kgCO2e") by reflexivity;
          now rewrite row_get_set_same, Hdr.
      * exists q, f. split; [exact Hqr|]. split; [exact Hfr|].
        destruct (negb (mem "notes" (columns df)));
          rewrite ?(row_get_set_other "notes") by reflexivity;
          rewrite row_get_set_same;
          rewrite !(row_get_set_other "date") by reflexivity;
          now rewrite Hqr, Hfr.
      * destruct (mem "notes" (columns df)); cbn [negb].
        -- rewrite (row_get_set_other "emissions_kgCO2e") by reflexivity.
           now rewrite (row_get_set_other "date") by reflexivity.
        -- now rewrite row_get_set_same.
    + inversion Hd; inversion Hq; inversion Hf; subst. now apply IH.
  - revert Hok. unfold import_csv, import_csv_try. cbn [bind].
    destruct (missing_columns df); [| discriminate].
    repeat match goal with
           | |- context [bind ?m _] => destruct m; cbn [bind]; [| discriminate]
           end.
    intros _ c Hc. cbn [snd emissions_data pd_concat columns].
    now apply mem_concat_l.
Qed.

End ImportTheorems.

(* ================================================================= *)
(** ** The tables of the catalog *)

Section CatalogTables.
Import EmissionFactors.
Open Scope string_scope.

Lemma distinct_names_NoDup (l : list string) :
  distinct_names l = true -> NoDup l.
Proof.
  induction l as [| x l IH]; cbn [distinct_names]; intros Hd; constructor.
  - apply andb_true_iff in Hd. destruct Hd as [Hx _].
    intros Hin. apply mem_In in Hin. rewrite Hin in Hx. discriminate.
  - apply IH. apply andb_true_iff in Hd. tauto.
Qed.

Lemma is_well_formed_sound (FACTORS : catalog) :
  is_well_formed FACTORS = true -> well_formed FACTORS.
Proof.
  unfold is_well_formed, well_formed, unique_keys. intros Hw.
  apply andb_true_iff in Hw. destruct Hw as [Hc Ha]. split.
  - now apply distinct_names_NoDup.
  - apply Forall_forall. intros item Hin. apply distinct_names_NoDup.
    rewrite forallb_forall in Ha. now apply Ha.
Qed.

Lemma keeps_taxonomy_sound (FACTORS : catalog) :
  keeps_taxonomy FACTORS = true -> taxonomy_kept FACTORS.
Proof.
  unfold keeps_taxonomy, taxonomy_kept. intros Hk.
  apply andb_true_iff in Hk. destruct Hk as [Hitems Hscopes].
  rewrite forallb_forall in Hitems, Hscopes.
  split; [| split; [| split]].
  - intros category Hin. unfold dict_keys in Hin. apply in_map_iff in Hin.
    destruct Hin as ([c acts] & <- & Hin). specialize (Hitems _ Hin).
    apply andb_true_iff in Hitems. destruct Hitems as [Hone _].
    cbn [fst] in *. apply Nat.eqb_eq in Hone.
    destruct (scopes_of c) as [| s [| s' l]]; try discriminate. now exists s.
  - intros scope Hin. specialize (Hscopes _ Hin).
    apply andb_true_iff in Hscopes. destruct Hscopes as [Hne _].
    now destruct (get_categories scope).
  - intros scope category Hin Hc. specialize (Hscopes _ Hin).
    apply andb_true_iff in Hscopes. destruct Hscopes as [_ Hall].
    rewrite forallb_forall in Hall. specialize (Hall _ Hc).
    now destruct (get_activities FACTORS category).
  - intros category acts activity e Hin Hae. specialize (Hitems _ Hin).
    apply andb_true_iff in Hitems. destruct Hitems as [_ Hpos].
    rewrite forallb_forall in Hpos. apply (Hpos _ Hae).
Qed.

(** X18: the tables agree with one another, as the module defines them
    and as a program that imports the module finds them (after the module's
    own example update): no category or activity is listed twice, every
    category of the catalog is listed under exactly one of the scopes of
    config.py, every scope lists a category, every category listed has an
    activity, and every factor is a positive finite number; the update has
    added ["Pakistan Grid"] last. *)
Theorem catalog_tables_keep_the_taxonomy :
  well_formed EMISSION_FACTORS
  /\ taxonomy_kept EMISSION_FACTORS
  /\ well_formed EMISSION_FACTORS_imported
  /\ taxonomy_kept EMISSION_FACTORS_imported
  /\ get_activities EMISSION_FACTORS_imported "Electricity"
     = (get_activities EMISSION_FACTORS "Electricity" ++ ["Pakistan Grid"])%list
  /\ dict_keys SCOPE_CATEGORIES = Config.EMISSION_SCOPES.
Proof.
  split; [| split; [| split; [| split; [| split]]]].
  - apply is_well_formed_sound. vm_compute. reflexivity.
  - apply keeps_taxonomy_sound. vm_compute. reflexivity.
  - apply is_well_formed_sound. vm_compute. reflexivity.
  - apply keeps_taxonomy_sound. vm_compute. reflexivity.
  - vm_compute. reflexivity.
  - reflexivity.
Qed.

End CatalogTables.

(* ================================================================= *)
(** ** The further theorems at concrete inputs *)

Section FurtherRuns.
Import EmissionFactors CatalogSearch DataHandler Runs.
Open Scope string_scope.

Lemma initial_catalog_well_formed : well_formed EMISSION_FACTORS.
Proof. apply is_well_formed_sound. vm_compute. reflexivity. Qed.

Lemma run_parsers_give_dates : @parsers_give_dates f64 run_dates.
Proof.
  split; intros v r; cbn; unfold iso_date;
    (destruct v; try discriminate;
     destruct (Calendar.parse_iso_date s); try discriminate;
     intros E; inversion E; reflexivity).
Qed.

Lemma one_entry_reachable : reachable one_entry.
Proof. unfold one_entry, add_diesel. apply reach_add. apply reach_new. Qed.

Lemma one_entry_summarizable : summarizable (emissions_data one_entry).
Proof. repeat split; try reflexivity; vm_compute; repeat constructor. Qed.

Lemma undated_entry_reachable : reachable undated_entry.
Proof. unfold undated_entry. apply reach_add. apply reach_new. Qed.

Lemma table_complete_importable : importable table_complete.
Proof.
  repeat split; try reflexivity;
    repeat constructor; eexists; vm_compute; reflexivity.
Qed.

Lemma get_activities_lists_the_resolving_names_at_diesel :
  In "Diesel" (get_activities EMISSION_FACTORS "Stationary Combustion")
  /\ get_activities EMISSION_FACTORS "Heating" = [].
Proof.
  destruct get_activities_lists_the_resolving_names as [Hlist Hunknown].
  split.
  - apply Hlist. eexists. split; reflexivity.
  - apply (Hunknown EMISSION_FACTORS "Heating" "Oil").
    vm_compute. intuition discriminate.
Defined.

Lemma update_emission_factor_then_lookup_at_india_grid :
  get_unit (update_emission_factor EMISSION_FACTORS "Electricity" "India Grid"
                                   (flt 0.9) None)
           "Electricity" "India Grid" = Some "kWh"
  /\ calculate_emission
       (update_emission_factor EMISSION_FACTORS "Electricity" "India Grid"
                               (flt 0.9) None)
       "Electricity" "India Grid" (flt 1000)
     = Ok (flt 900).
Proof.
  destruct (update_emission_factor_then_lookup EMISSION_FACTORS "Electricity"
              "India Grid" (flt 0.9) None (flt 1000))
    as (_ & _ & Hkeep & Hcalc & _).
  split.
  - rewrite Hkeep by now left. reflexivity.
  - rewrite Hcalc. vm_compute. reflexivity.
Defined.

Lemma update_emission_factor_leaves_other_pairs_at_steam :
  calculate_emission
    (update_emission_factor EMISSION_FACTORS "Electricity" "India Grid"
                            (flt 0.9) None)
    "Steam" "Purchased Steam" (flt 300)
  = Ok (flt 57).
Proof.
  destruct (update_emission_factor_leaves_other_pairs EMISSION_FACTORS
              "Electricity" "India Grid" (flt 0.9) None
              "Steam" "Purchased Steam" (flt 300))
    as (_ & _ & Hcalc).
  - left. discriminate.
  - rewrite Hcalc. vm_compute. reflexivity.
Defined.

Lemma update_emission_factor_keeps_order_at_pakistan_grid :
  well_formed EMISSION_FACTORS_imported
  /\ get_activities EMISSION_FACTORS_imported "Electricity"
     = ["India Grid"; "Indonesia Grid"; "Japan Grid"; "Solar Power";
        "Wind Power"; "Pakistan Grid"].
Proof.
  destruct (update_emission_factor_keeps_order EMISSION_FACTORS "Electricity"
              "Pakistan Grid" (flt 0.79) (Some "kWh")
              initial_catalog_well_formed)
    as (Hwf & _ & Hacts & _).
  split; [exact Hwf|]. unfold EMISSION_FACTORS_imported. rewrite Hacts.
  reflexivity.
Defined.

Lemma update_emission_factor_last_write_wins_at_india_grid :
  update_emission_factor
    (update_emission_factor EMISSION_FACTORS "Electricity" "India Grid"
                            (flt 0.9) None)
    "Electricity" "India Grid" (flt 0.85) (Some "MWh")
  = update_emission_factor EMISSION_FACTORS "Electricity" "India Grid"
                           (flt 0.85) (Some "MWh").
Proof.
  destruct (update_emission_factor_last_write_wins EMISSION_FACTORS
              "Electricity" "India Grid" (flt 0.9) (flt 0.85) None "MWh")
    as (Hlast & _).
  - discriminate.
  - exact Hlast.
Defined.

Lemma total_emission_by_scope_skips_unresolved_at_unknown :
  total_emission_by_scope EMISSION_FACTORS "Scope 2"
    [("Electricity", [("Mars Grid", flt 1000)])]
  = Ok fzero.
Proof.
  destruct (total_emission_by_scope_skips_unresolved EMISSION_FACTORS "Scope 2"
              [("Electricity", [("Mars Grid", flt 1000)])])
    as (_ & _ & Hnone).
  apply Hnone. intros category acts act amount Hin Hact.
  destruct Hin as [E | []]. inversion E; subst.
  destruct Hact as [E' | []]. inversion E'; subst. reflexivity.
Defined.

Lemma search_activity_finds_the_matching_entries_at_diesel :
  search_activity EMISSION_FACTORS "DIESEL"
  = [ ("Stationary Combustion", "Diesel", flt 2.68787, "liter");
      ("Mobile Combustion", "Diesel", flt 2.70553, "liter");
      ("Employee Commuting", "Car (Diesel)", flt 0.16844, "km") ].
Proof.
  destruct (search_activity_finds_the_matching_entries EMISSION_FACTORS "DIESEL"
              initial_catalog_well_formed) as (Hsearch & _).
  rewrite Hsearch. vm_compute. reflexivity.
Defined.

Lemma reachable_ledgers_keep_the_invariant_at_one_entry :
  Forall (fun c => mem c (columns (emissions_data one_entry)) = true)
         ledger_columns
  /\ Forall (fun r => emission_cell (row_get r "emissions_kgCO2e") = true
                      /\ date_cell (row_get r "date") = true
                      /\ derived_emissions r)
            (rows (emissions_data one_entry)).
Proof.
  exact (reachable_ledgers_keep_the_invariant one_entry run_parsers_give_dates
           one_entry_reachable).
Defined.

Lemma reachable_ledgers_raise_without_dates_at_runs :
  get_emissions_summary undated_entry
  = (Raise (AttributeError "Can only use .dt accessor with datetimelike values"),
     undated_entry)
  /\ (exists s, fst (get_emissions_summary one_entry) = Ok s)
  /\ fst (get_filtered_data one_entry (day 2024 1 1) (day 2024 1 31)
                            (PStr "Scope 1") PNone)
     = Ok (mkDF (columns (emissions_data one_entry))
                (filter (selected (Some (day 2024 1 1, day 2024 1 31))
                                  (PStr "Scope 1") PNone)
                        (rows (emissions_data one_entry)))).
Proof.
  destruct (reachable_ledgers_raise_without_dates undated_entry
              (day 2024 1 1) (day 2024 1 31) (PStr "Scope 1") PNone
              (Some (day 2024 1 1, day 2024 1 31))
              run_parsers_give_dates undated_entry_reachable eq_refl)
    as (Hraises & _ & _).
  destruct (reachable_ledgers_raise_without_dates one_entry
              (day 2024 1 1) (day 2024 1 31) (PStr "Scope 1") PNone
              (Some (day 2024 1 1, day 2024 1 31))
              run_parsers_give_dates one_entry_reachable eq_refl)
    as (_ & Hreturns & Hfilter).
  split; [apply Hraises; reflexivity|].
  split; [| exact Hfilter].
  apply Hreturns; [| reflexivity].
  split; vm_compute; repeat constructor.
Defined.

Lemma add_emission_entry_then_filter_at_diesel :
  exists r,
    rows (emissions_data one_entry) = [r]
    /\ fst (get_filtered_data one_entry PNone PNone (PStr "Scope 1")
                              (PStr "Mobile Combustion"))
       = Ok (mkDF (columns (emissions_data one_entry)) [r]).
Proof.
  assert (Hok : fst (add_emission_entry empty_ledger (day 2024 1 15)
                       (PStr "Scope 1") (PStr "Mobile Combustion")
                       (PStr "Diesel") (PFloat (flt 100)) (PStr "liter")
                       (PFloat (flt 2.5)) (PStr "")) = true)
    by (vm_compute; reflexivity).
  destruct (add_emission_entry_then_filter empty_ledger (day 2024 1 15)
              (PStr "Diesel") (PFloat (flt 100)) (PStr "liter")
              (PFloat (flt 2.5)) (PStr "") "Scope 1" "Mobile Combustion"
              Hok)
    as (q & f & d & _ & _ & _ & Hrows & Hfound).
  eexists. split; [exact Hrows | exact Hfound].
Defined.

Lemma breakdown_values_are_group_sums_at_one_entry :
  exists s,
    fst (get_emissions_summary one_entry) = Ok s
    /\ group_find pyval_eqb (PStr "Scope 1") (scope_breakdown s) = Some (flt 250)
    /\ group_find pyval_eqb (PStr "Scope 2") (scope_breakdown s) = None.
Proof.
  destruct (breakdown_values_are_group_sums one_entry one_entry_summarizable)
    as (s & Hs & Hgroups).
  exists s. split; [exact Hs|]. split.
  - destruct (Hgroups "Scope 1") as [-> _]. vm_compute. reflexivity.
  - destruct (Hgroups "Scope 2") as [-> _]. vm_compute. reflexivity.
Defined.

Lemma get_emissions_summary_writes_only_month_at_one_entry :
  exists s,
    get_emissions_summary (snd (get_emissions_summary one_entry))
    = (Ok s, snd (get_emissions_summary one_entry)).
Proof.
  destruct (get_emissions_summary_writes_only_month one_entry)
    as (_ & _ & Hagain).
  eexists. apply Hagain. vm_compute. reflexivity.
Defined.

Lemma get_filtered_data_composes_at_one_entry :
  exists both by_scope,
    fst (get_filtered_data one_entry (day 2024 1 1) (day 2024 1 31)
                           (PStr "Scope 1") (PStr "Mobile Combustion")) = Ok both
    /\ fst (get_filtered_data one_entry (day 2024 1 1) (day 2024 1 31)
                              (PStr "Scope 1") PNone) = Ok by_scope
    /\ fst (get_filtered_data (mkHandler both) (day 2024 1 1) (day 2024 1 31)
                              (PStr "Scope 1") (PStr "Mobile Combustion"))
       = Ok both
    /\ fst (get_filtered_data (mkHandler by_scope) PNone PNone PNone
                              (PStr "Mobile Combustion"))
       = Ok both.
Proof.
  assert (Hdates : Forall (fun r => date_cell (row_get r "date") = true)
                          (rows (emissions_data one_entry)))
    by (vm_compute; repeat constructor).
  exact (get_filtered_data_composes one_entry (day 2024 1 1) (day 2024 1 31)
           (PStr "Scope 1") (PStr "Mobile Combustion")
           (Some (day 2024 1 1, day 2024 1 31))
           eq_refl eq_refl eq_refl Hdates eq_refl).
Defined.

Lemma import_csv_all_or_nothing_at_tables :
  fst (import_csv empty_ledger (Ok table_complete))
  = (true, "Successfully imported 1 entries.")
  /\ snd (import_csv empty_ledger (Ok table_without_unit)) = empty_ledger.
Proof.
  destruct (import_csv_all_or_nothing empty_ledger) as [Htable _].
  split.
  - destruct (Htable table_complete) as (_ & Hacc & _).
    destruct (Hacc table_complete_importable) as [Hmsg _].
    rewrite Hmsg. reflexivity.
  - destruct (Htable table_without_unit) as (_ & _ & Hfail).
    apply Hfail. reflexivity.
Defined.

Lemma import_csv_keeps_cells_at_table_complete :
  exists r',
    rows (emissions_data (snd (import_csv empty_ledger (Ok table_complete))))
    = [r']
    /\ row_get r' "activity" = PStr "Diesel"
    /\ row_get r' "notes" = PStr "".
Proof.
  assert (Hok : fst (fst (import_csv empty_ledger (Ok table_complete))) = true)
    by (vm_compute; reflexivity).
  destruct (import_csv_keeps_cells empty_ledger table_complete Hok)
    as (new & Hrows & Hcells & _).
  cbn [rows table_complete] in Hcells.
  inversion Hcells as [| r r' l l' (Hother & _ & _ & Hnotes) Hrest]; subst.
  inversion Hrest; subst.
  exists r'. split; [exact Hrows|]. split.
  - rewrite Hother by discriminate. reflexivity.
  - rewrite Hnotes. reflexivity.
Defined.

End FurtherRuns.
